(** * attendance_ekyc.js: the EKYC fingerprint widget

    A shallow embedding of [training_mgmnt/static/js/attendance_ekyc.js]
    and the properties of its specification.

    The script is an event-driven DOM widget.  Its handlers are [async]
    functions, so each one is cut at its [await] points into phases; a
    phase is a pure function on the widget state, and the browser's event
    loop is the step function [step] that runs one phase per event.

    Conventions of the embedding.
    - A DOM element that may be missing is an [option]; the source's
      [if(el) el.prop = v] is [assign v el].
    - Text is a [string] whose characters are code units below 256.
    - A JavaScript value is a [jsval]; its numbers are the safe integers,
      which ToString prints digit by digit.
    - ToString is partial: it throws a TypeError on an object that has a
      property [toString] of its own, which a JSON body can hold but
      cannot make callable.
    - [dbg] only writes to the console inside its own [try/catch]: the
      call has no effect on the page and never throws.  Its argument is
      evaluated by the caller, so the arguments whose evaluation can
      throw (lines 57 and 87) are part of the handlers. *)

From Stdlib Require Import ZArith String Ascii List Bool Lia.
From stdpp Require Import base option list strings pretty.

Set Warnings "-register-all".
Open Scope string_scope.
Open Scope list_scope.

(** ** JavaScript values *)

Module JS.

(** The integers that a JSON number holds exactly and that ToString
    prints digit by digit: those up to [Number.MAX_SAFE_INTEGER]. *)
Definition is_safe (n : Z) : bool := (Z.abs n <=? 9007199254740991)%Z.

Record safe_int := mkSafe {
  int_val : Z;
  int_safe : is_safe int_val = true
}.

Inductive jsval :=
| JUndefined
| JNull
| JBool (b : bool)
| JNum (n : safe_int)
| JStr (s : string)
| JArr (l : list jsval)
| JObj (l : list (string * jsval)).

(** ToBoolean. *)
Definition truthy (v : jsval) : bool :=
  match v with
  | JUndefined | JNull => false
  | JBool b => b
  | JNum n => negb (Z.eqb (int_val n) 0)
  | JStr s => negb (String.eqb s "")
  | JArr _ | JObj _ => true
  end.

(** [a && b] and [a || b] on values whose evaluation has no effect. *)
Definition js_and (a b : jsval) : jsval := if truthy a then b else a.
Definition js_or (a b : jsval) : jsval := if truthy a then a else b.

Fixpoint assoc (k : string) (l : list (string * jsval)) : option jsval :=
  match l with
  | [] => None
  | (k', v) :: l' => if String.eqb k k' then Some v else assoc k l'
  end.

(** [v.k] for the keys the script reads ([success], [status_display],
    [status], [error]); the script reads them only from a truthy [v], so
    the TypeError of [null.k] is never reached.  Primitives and arrays
    have none of these properties. *)
Definition get (v : jsval) (k : string) : jsval :=
  match v with
  | JObj l => match assoc k l with Some x => x | None => JUndefined end
  | _ => JUndefined
  end.

(** ToString, as applied by the [textContent] setter and by the
    concatenation ['text' + v]; [None] is a TypeError.  An object is
    printed by the [toString] it finds: the one of [Object.prototype],
    unless the object has a property [toString] of its own, whose value
    comes from JSON and so cannot be called.  An array is printed by
    [join], which converts its elements in turn. *)
Fixpoint toString (v : jsval) : option string :=
  match v with
  | JUndefined => Some "undefined"
  | JNull => Some "null"
  | JBool true => Some "true"
  | JBool false => Some "false"
  | JNum n => Some (pretty (int_val n))
  | JStr s => Some s
  | JArr l =>
      (fix join (l : list jsval) : option string :=
         match l with
         | [] => Some ""
         | x :: rest =>
             match (match x with
                    | JUndefined | JNull => Some ""
                    | _ => toString x
                    end) with
             | None => None
             | Some e =>
                 match rest with
                 | [] => Some e
                 | _ =>
                     match join rest with
                     | None => None
                     | Some t => Some (e +:+ "," +:+ t)
                     end
                 end
             end
         end) l
  | JObj l =>
      match assoc "toString" l with
      | Some _ => None
      | None => Some "[object Object]"
      end
  end.

(** ToString of a [dataset] entry: a string, or [undefined]. *)
Definition str_of (o : option string) : string :=
  match o with Some s => s | None => "undefined" end.

(** White space of [String.prototype.trim] and of the regular
    expression class [\s], among the code units below 256. *)
Definition is_ws (c : ascii) : bool :=
  match N_of_ascii c with
  | 9 | 10 | 11 | 12 | 13 | 32 | 160 => true
  | _ => false
  end%N.

Fixpoint trimStart (s : string) : string :=
  match s with
  | EmptyString => EmptyString
  | String c s' => if is_ws c then trimStart s' else s
  end.

Fixpoint trimEnd (s : string) : string :=
  match s with
  | EmptyString => EmptyString
  | String c s' =>
      match trimEnd s' with
      | EmptyString => if is_ws c then EmptyString else String c EmptyString
      | t => String c t
      end
  end.

Definition trim (s : string) : string := trimEnd (trimStart s).

(** [String.prototype.toLowerCase] on one code unit below 256: the
    letters A-Z and the Latin-1 capitals 192-222 (but the sign 215). *)
Definition lower_char (c : ascii) : ascii :=
  let n := N_of_ascii c in
  if ((65 <=? n) && (n <=? 90))%N then ascii_of_N (n + 32)
  else if ((192 <=? n) && (n <=? 222) && negb (n =? 215))%N
       then ascii_of_N (n + 32)
  else c.

Fixpoint toLowerCase (s : string) : string :=
  match s with
  | EmptyString => EmptyString
  | String c s' => String (lower_char c) (toLowerCase s')
  end.

(** [Array.prototype.every] with a callback that may throw ([None]):
    it stops at the first element whose answer is not [true]. *)
Fixpoint every {A} (p : A -> option bool) (l : list A) : option bool :=
  match l with
  | [] => Some true
  | x :: l' =>
      match p x with
      | None => None
      | Some false => Some false
      | Some true => every p l'
      end
  end.

End JS.
Import JS.

(** ** [getCookie]

    [document.cookie.match('(^|;)\\s*'+name+'\\s*=\\s*([^;]+)')], then the
    last capture group, or the empty string when nothing matches.  The
    matcher below is that regular expression for a [name] without
    metacharacters that does not begin with white space (the script's
    only call passes [csrftoken]): every [\s*] is greedy and is followed
    by something that is not white space, so only the last one, before
    [[^;]+], can give a character back. *)

Module Cookie.

Definition semi : ascii := ";"%char.
Definition equals : ascii := "="%char.

(** [\s*] *)
Fixpoint skip_ws (s : string) : string :=
  match s with
  | EmptyString => EmptyString
  | String c s' => if is_ws c then skip_ws s' else s
  end.

(** The literal [name]. *)
Fixpoint strip_prefix (p s : string) : option string :=
  match p, s with
  | EmptyString, _ => Some s
  | String a p', String b s' =>
      if Ascii.eqb a b then strip_prefix p' s' else None
  | String _ _, EmptyString => None
  end.

(** The longest run of [[^;]]. *)
Fixpoint until_semi (s : string) : string :=
  match s with
  | EmptyString => EmptyString
  | String c s' => if Ascii.eqb c semi then EmptyString
                   else String c (until_semi s')
  end.

(** The last character of the leading white space of [s]. *)
Fixpoint last_ws (s : string) : option ascii :=
  match s with
  | EmptyString => None
  | String c s' =>
      if is_ws c
      then match last_ws s' with Some d => Some d | None => Some c end
      else None
  end.

(** [\s*([^;]+)]: when nothing but [;] or the end follows the white
    space, the group takes the last white space character. *)
Definition cookie_value (s : string) : option string :=
  match until_semi (skip_ws s) with
  | EmptyString =>
      match last_ws s with
      | Some c => Some (String c EmptyString)
      | None => None
      end
  | v => Some v
  end.

(** [\s*name\s*=\s*([^;]+)] *)
Definition match_tail (name s : string) : option string :=
  match strip_prefix name (skip_ws s) with
  | None => None
  | Some s1 =>
      match skip_ws s1 with
      | String c s2 => if Ascii.eqb c equals then cookie_value s2 else None
      | EmptyString => None
      end
  end.

(** The alternative [;] of [(^|;)], tried at every position from the
    left. *)
Fixpoint match_semis (name s : string) : option string :=
  match s with
  | EmptyString => None
  | String c s' =>
      if Ascii.eqb c semi
      then match match_tail name s' with
           | Some v => Some v
           | None => match_semis name s'
           end
      else match_semis name s'
  end.

(** The result of [match]: the last group of the leftmost match, first
    with [^] at the start of the string and then with [;] at each
    position; [None] is [null]. *)
Definition cookie_match (name cookie : string) : option string :=
  match match_tail name cookie with
  | Some v => Some v
  | None => match_semis name cookie
  end.

(** [return v ? v.pop() : ''] *)
Definition getCookie (name cookie : string) : string :=
  match cookie_match name cookie with
  | Some v => v
  | None => ""
  end.

End Cookie.
Import Cookie.

(** ** The page *)

(** [if(el) el.prop = v] *)
Definition assign {A} (v : A) (el : option A) : option A :=
  match el with
  | Some _ => Some v
  | None => None
  end.

(** A participant row [tr]: its two data attributes, the text of its
    [.ekyc-status] and [.actionStatus] children and the [disabled]
    property of its [.recordBtn] and [.verifyBtn] buttons.  The markup is
    that of the specification's data model: the marker classes are on
    [button] elements, a row has at most one button of each class, no
    button bears both classes, and the rows that hold the buttons are the
    rows of [#ekyc_table tbody]. *)
Record Row := mkRow {
  participantId : option string;
  participantRole : option string;
  ekyc_status : option string;
  actionStatus : option string;
  recordBtn : option bool;
  verifyBtn : option bool
}.

Definition set_ekyc_status (v : string) (r : Row) : Row :=
  mkRow (participantId r) (participantRole r) (assign v (ekyc_status r))
        (actionStatus r) (recordBtn r) (verifyBtn r).

Definition set_actionStatus (v : string) (r : Row) : Row :=
  mkRow (participantId r) (participantRole r) (ekyc_status r)
        (assign v (actionStatus r)) (recordBtn r) (verifyBtn r).

Definition set_recordBtn (d : bool) (r : Row) : Row :=
  mkRow (participantId r) (participantRole r) (ekyc_status r)
        (actionStatus r) (assign d (recordBtn r)) (verifyBtn r).

Definition set_verifyBtn (d : bool) (r : Row) : Row :=
  mkRow (participantId r) (participantRole r) (ekyc_status r)
        (actionStatus r) (recordBtn r) (assign d (verifyBtn r)).

(** The document: [#ekyc_root] with its [data-endpoint] attribute, the
    page address, [document.cookie], the five optional elements (a
    button by its [disabled] property, a caption by its text, a block by
    its [style.display]), the rows of [#ekyc_table tbody] and the row
    whose record button last had [focus()] called on it. *)
Record Page := mkPage {
  root : option (option string);
  href : string;
  cookie : string;
  testBtn : option bool;
  testStatus : option string;
  loader : option string;
  participantsWrapper : option string;
  doneMsg : option string;
  rows : list Row;
  focused : option nat
}.

Definition set_cookie (c : string) (p : Page) : Page :=
  mkPage (root p) (href p) c (testBtn p) (testStatus p) (loader p)
         (participantsWrapper p) (doneMsg p) (rows p) (focused p).

Definition set_testBtn (d : bool) (p : Page) : Page :=
  mkPage (root p) (href p) (cookie p) (assign d (testBtn p)) (testStatus p)
         (loader p) (participantsWrapper p) (doneMsg p) (rows p) (focused p).

Definition set_testStatus (v : string) (p : Page) : Page :=
  mkPage (root p) (href p) (cookie p) (testBtn p) (assign v (testStatus p))
         (loader p) (participantsWrapper p) (doneMsg p) (rows p) (focused p).

Definition set_loader (v : string) (p : Page) : Page :=
  mkPage (root p) (href p) (cookie p) (testBtn p) (testStatus p)
         (assign v (loader p)) (participantsWrapper p) (doneMsg p) (rows p)
         (focused p).

Definition set_participantsWrapper (v : string) (p : Page) : Page :=
  mkPage (root p) (href p) (cookie p) (testBtn p) (testStatus p) (loader p)
         (assign v (participantsWrapper p)) (doneMsg p) (rows p) (focused p).

Definition set_doneMsg (v : string) (p : Page) : Page :=
  mkPage (root p) (href p) (cookie p) (testBtn p) (testStatus p) (loader p)
         (participantsWrapper p) (assign v (doneMsg p)) (rows p) (focused p).

Definition set_rows (l : list Row) (p : Page) : Page :=
  mkPage (root p) (href p) (cookie p) (testBtn p) (testStatus p) (loader p)
         (participantsWrapper p) (doneMsg p) l (focused p).

Definition set_focused (f : option nat) (p : Page) : Page :=
  mkPage (root p) (href p) (cookie p) (testBtn p) (testStatus p) (loader p)
         (participantsWrapper p) (doneMsg p) (rows p) f.

(** A handler's change to the row it was started on. *)
Definition on_row (i : nat) (f : Row -> Row) (p : Page) : Page :=
  set_rows (alter f i (rows p)) p.

(** ** The widget *)

(** The two server actions, named as in the request's [action] field. *)
Inductive action := record_fingerprint | verify_ekyc.

Definition action_name (a : action) : string :=
  match a with
  | record_fingerprint => "record_fingerprint"
  | verify_ekyc => "verify_ekyc"
  end.

(** What runs when a [setTimeout] expires: the callback of the test
    handler, the rest of a click handler after its
    [await new Promise(r=>setTimeout(r,1500))] (with the [pid] and [role]
    it read before the await), or [location.reload()]. *)
Inductive cont :=
| AfterTest
| AfterDelay (a : action) (i : nat) (pid role : option string)
| Reload.

(** What the event loop is waiting for: a timer with its delay in
    milliseconds, or the response to the [fetch] of an action on row [i]. *)
Inductive task :=
| Timer (ms : nat) (k : cont)
| Fetching (a : action) (i : nat).

(** A call [fetch(url, {method, headers, body})]; [url] is [None] when
    the script passes [undefined].  The body is a [FormData] object: the
    fields appended to it, in order. *)
Inductive Body :=
| FormData (fields : list (string * string)).

Record Request := mkRequest {
  url : option string;
  method : string;
  headers : list (string * string);
  body : Body
}.

(** How [await fetch(..)] followed by [await resp.json()] ends: one of
    them throws, or the body parses to [data]. *)
Inductive outcome :=
| Threw
| Parsed (data : jsval).

Record State := mkState {
  page : Page;
  endpoint : option string;
  attached : bool;
  pending : list task;
  sent : list Request;
  reloaded : bool
}.

Definition with_page (p : Page) (s : State) : State :=
  mkState p (endpoint s) (attached s) (pending s) (sent s) (reloaded s).

Definition with_pending (l : list task) (s : State) : State :=
  mkState (page s) (endpoint s) (attached s) l (sent s) (reloaded s).

Definition spawn (l : list task) (s : State) : State :=
  with_pending (pending s ++ l)%list s.

Definition send (q : Request) (s : State) : State :=
  mkState (page s) (endpoint s) (attached s) (pending s) (sent s ++ [q])%list
          (reloaded s).

Definition reload (s : State) : State :=
  mkState (page s) (endpoint s) (attached s) (pending s) (sent s) true.

(** [DOMContentLoaded] (lines 10-18): the endpoint is
    [root ? root.dataset.endpoint : window.location.href], and without a
    [#testConnectionBtn] the function returns before it adds a listener. *)
Definition init (p : Page) : State :=
  let endpoint := match root p with
                  | Some r => r
                  | None => Some (href p)
                  end in
  let attached := match testBtn p with Some _ => true | None => false end in
  mkState p endpoint attached [] [] false.

(** *** Test connection (lines 20-32) *)

Definition test_click (s : State) : State :=
  let p := set_testBtn true (page s) in
  let p := set_testStatus "Testing..." p in
  let p := set_loader "block" p in
  spawn [Timer 2000 AfterTest] (with_page p s).

(** [document.querySelector('.recordBtn:not([disabled])')] *)
Definition first_enabled_record (l : list Row) : option nat :=
  fst <$> list_find (fun r => recordBtn r = Some false) l.

Definition test_timeout (s : State) : State :=
  let p := set_loader "none" (page s) in
  let p := set_testStatus "Connection succeeded!" p in
  let p := set_participantsWrapper "block" p in
  let p := match first_enabled_record (rows p) with
           | Some i => set_focused (Some i) p
           | None => p
           end in
  with_page p s.

(** *** Record and verify: before the first await (lines 41-45, 64-68) *)

Definition record_click_row (r : Row) : Row :=
  let r := set_actionStatus " Recording..." r in
  let r := set_recordBtn true r in
  set_verifyBtn true r.

Definition verify_click_row (r : Row) : Row :=
  let r := set_actionStatus " Verifying..." r in
  let r := set_verifyBtn true r in
  set_recordBtn true r.

Definition click_row (a : action) : Row -> Row :=
  match a with
  | record_fingerprint => record_click_row
  | verify_ekyc => verify_click_row
  end.

Definition action_click (a : action) (i : nat) (r : Row) (s : State) : State :=
  let pid := participantId r in
  let role := participantRole r in
  spawn [Timer 1500 (AfterDelay a i pid role)]
        (with_page (on_row i (click_row a) (page s)) s).

(** *** After the delay: the request (lines 47-48, 70-71) *)

Definition make_request (a : action) (pid role : option string) (s : State)
  : Request :=
  let fd : list (string * string) := [] in
  let fd := (fd ++ [("action", action_name a)])%list in
  let fd := (fd ++ [("participant_id", str_of pid)])%list in
  let fd := (fd ++ [("participant_role", str_of role)])%list in
  mkRequest (endpoint s) "POST"
            [("X-Requested-With", "XMLHttpRequest");
             ("X-CSRFToken", getCookie "csrftoken" (cookie (page s)))]
            (FormData fd).

Definition action_fetch (a : action) (i : nat) (pid role : option string)
  (s : State) : State :=
  spawn [Fetching a i] (send (make_request a pid role s) s).

(** *** The response (lines 49-59, 72-89) *)

(** Two statements of each [try] block can throw after the body has
    parsed: the assignment to the status label, which converts its value
    to a string (lines 52, 75), and the concatenation that builds the
    message of the failure branch (lines 57, 87); in the verify handler
    also the scan (line 80).  The other arguments of [dbg] cannot throw:
    [JSON.stringify] of a parsed JSON value (lines 50, 73), and the
    concatenation with the exception of the engine (lines 59, 89). *)

(** [data && data.success] *)
Definition succeeded (data : jsval) : bool :=
  truthy (js_and data (get data "success")).

(** [data.status_display || data.status || dflt] *)
Definition status_value (data : jsval) (dflt : string) : jsval :=
  js_or (js_or (get data "status_display") (get data "status")) (JStr dflt).

(** Statements of a [try] block that work on a row: the row as they
    leave it, and whether they threw. *)
Definition and_then (x : Row * bool) (f : Row -> Row * bool) : Row * bool :=
  if snd x then x else f (fst x).

Definition catch (x : Row * bool) (h : Row -> Row) : Row :=
  if snd x then h (fst x) else fst x.

(** [if(st) st.textContent = v]: the value is converted only when the
    row has the label, and the conversion may throw. *)
Definition write_label (v : jsval) (r : Row) : Row * bool :=
  match ekyc_status r with
  | None => (r, false)
  | Some _ =>
      match toString v with
      | Some txt => (set_ekyc_status txt r, false)
      | None => (r, true)
      end
  end.

(** The argument of [dbg] in the failure branches,
    [prefix + (data && data.error)]; [None] when the concatenation
    throws. *)
Definition failure_message (prefix : string) (data : jsval) : option string :=
  match toString (js_and data (get data "error")) with
  | Some t => Some (prefix +:+ t)
  | None => None
  end.

(** Lines 56-57 and 86-87: the caption, then the message for [dbg]. *)
Definition failure_row (prefix : string) (data : jsval) (r : Row)
  : Row * bool :=
  let r := set_actionStatus " Failed" r in
  match failure_message prefix data with
  | Some _ => (r, false)
  | None => (r, true)
  end.

(** Lines 51-57, inside the [try]. *)
Definition record_try (data : jsval) (r : Row) : Row * bool :=
  if succeeded data then
    and_then (write_label (status_value data "Recorded") r) (fun r =>
      let r := set_actionStatus " Fingerprint recorded" r in
      (set_verifyBtn false r, false))
  else failure_row "record failed: " data r.

Definition record_response_row (o : outcome) (r : Row) : Row :=
  match o with
  | Parsed data => catch (record_try data r) (set_actionStatus " Error")
  | Threw => set_actionStatus " Error" r
  end.

Definition record_response (i : nat) (o : outcome) (s : State) : State :=
  with_page (on_row i (record_response_row o) (page s)) s.

(** Lines 75-78, inside the [try]. *)
Definition verify_update (data : jsval) (r : Row) : Row * bool :=
  and_then (write_label (status_value data "Verified") r) (fun r =>
    let r := set_actionStatus " Verified" r in
    let r := set_recordBtn true r in
    (set_verifyBtn true r, false)).

Definition verify_success_row (data : jsval) (r : Row) : Row :=
  fst (verify_update data r).

(** Whether lines 75-78 throw on row [i]. *)
Definition verify_update_threw (data : jsval) (i : nat) (s : State) : bool :=
  match rows (page s) !! i with
  | Some r => snd (verify_update data r)
  | None => false
  end.

(** The callback of [all.every]: reading [textContent] of a missing
    [.ekyc-status] throws a TypeError. *)
Definition reads_verified (r : Row) : option bool :=
  match ekyc_status r with
  | None => None
  | Some s => Some (String.eqb (toLowerCase (trim s)) "verified")
  end.

(** The verify handler from line 73 on.  The scan of lines 79-84 runs
    when lines 75-78 did not throw; whatever throws, the [catch] of line
    89 writes the caption. *)
Definition verify_response (i : nat) (o : outcome) (s : State) : State :=
  match o with
  | Parsed data =>
      if succeeded data then
        let threw := verify_update_threw data i s in
        let s := with_page (on_row i (verify_success_row data) (page s)) s in
        if threw
        then with_page (on_row i (set_actionStatus " Error") (page s)) s
        else
          match every reads_verified (rows (page s)) with
          | Some true =>
              spawn [Timer 900 Reload]
                    (with_page (set_doneMsg "block" (page s)) s)
          | Some false => s
          | None =>
              with_page (on_row i (set_actionStatus " Error") (page s)) s
          end
      else
        with_page
          (on_row i (fun r => catch (failure_row "verify failed: " data r)
                                    (set_actionStatus " Error"))
                  (page s)) s
  | Threw => with_page (on_row i (set_actionStatus " Error") (page s)) s
  end.

Arguments verify_response : simpl never.

Definition action_response (a : action) : nat -> outcome -> State -> State :=
  match a with
  | record_fingerprint => record_response
  | verify_ekyc => verify_response
  end.

(** ** The event loop *)

Definition run_cont (k : cont) (s : State) : State :=
  match k with
  | AfterTest => test_timeout s
  | AfterDelay a i pid role => action_fetch a i pid role s
  | Reload => reload s
  end.

(** The button a click on action [a] lands on. *)
Definition button (a : action) (r : Row) : option bool :=
  match a with
  | record_fingerprint => recordBtn r
  | verify_ekyc => verifyBtn r
  end.

(** What can happen to the page.  A click on a record or verify button
    names the row [t.closest('tr')], if any; [TimerFires k] and
    [Response k o] complete the [k]-th pending task; the cookie store
    belongs to the browser and may change at any time. *)
Inductive event :=
| ClickTest
| Click (a : action) (row : option nat)
| ClickOther
| TimerFires (k : nat)
| Response (k : nat) (o : outcome)
| CookieChange (c : string).

(** One turn of the event loop; [None] when the event cannot occur.  The
    browser dispatches no click to a disabled button, and nothing runs
    once the page has been reloaded. *)
Definition step (s : State) (e : event) : option State :=
  if reloaded s then None else
  match e with
  | ClickTest =>
      match testBtn (page s) with
      | Some false => Some (if attached s then test_click s else s)
      | _ => None
      end
  | Click a (Some i) =>
      match rows (page s) !! i with
      | Some r =>
          match button a r with
          | Some false => Some (if attached s then action_click a i r s else s)
          | _ => None
          end
      | None => None
      end
  | Click a None => Some s
  | ClickOther => Some s
  | TimerFires k =>
      match pending s !! k with
      | Some (Timer ms c) => Some (run_cont c (with_pending (delete k (pending s)) s))
      | _ => None
      end
  | Response k o =>
      match pending s !! k with
      | Some (Fetching a i) =>
          Some (action_response a i o (with_pending (delete k (pending s)) s))
      | _ => None
      end
  | CookieChange c => Some (with_page (set_cookie c (page s)) s)
  end.

Fixpoint run (s : State) (es : list event) : option State :=
  match es with
  | [] => Some s
  | e :: es' =>
      match step s e with
      | Some s' => run s' es'
      | None => None
      end
  end.

(** The states the widget can be in on a page that was served as [p]. *)
Definition reachable (p : Page) (s : State) : Prop :=
  exists es, run (init p) es = Some s.

(** The clicks that run no handler: on a page without listeners, or on
    a button outside any row, or on anything else. *)
Definition ignored (s : State) (e : event) : Prop :=
  match e with
  | ClickTest | Click _ (Some _) => attached s = false
  | Click _ None | ClickOther => True
  | TimerFires _ | Response _ _ | CookieChange _ => False
  end.

(** The turns of the event loop as a relation: the handler phase that
    each event runs, with what the browser requires for it. *)
Inductive turn (s : State) : event -> State -> Prop :=
| turn_test :
    testBtn (page s) = Some false -> attached s = true ->
    turn s ClickTest (test_click s)
| turn_click a i r :
    rows (page s) !! i = Some r -> button a r = Some false ->
    attached s = true ->
    turn s (Click a (Some i)) (action_click a i r s)
| turn_timer k ms c :
    pending s !! k = Some (Timer ms c) ->
    turn s (TimerFires k) (run_cont c (with_pending (delete k (pending s)) s))
| turn_response k a i o :
    pending s !! k = Some (Fetching a i) ->
    turn s (Response k o)
         (action_response a i o (with_pending (delete k (pending s)) s))
| turn_cookie c :
    turn s (CookieChange c) (with_page (set_cookie c (page s)) s)
| turn_ignored e :
    ignored s e -> turn s e s.

(** ** Vocabulary of the properties *)

(** The action and row a pending task belongs to. *)
Definition task_action (t : task) : option (action * nat) :=
  match t with
  | Timer _ (AfterDelay a i _ _) => Some (a, i)
  | Fetching a i => Some (a, i)
  | Timer _ _ => None
  end.

Definition concerns (i : nat) (t : task) : bool :=
  match task_action t with
  | Some (_, j) => Nat.eqb i j
  | None => false
  end.

(** The number of actions in flight on row [i]. *)
Fixpoint inflight (i : nat) (l : list task) : nat :=
  match l with
  | [] => 0
  | t :: l' => (if concerns i t then 1 else 0) + inflight i l'
  end.

(** A button that is there and can be clicked. *)
Definition enabled (b : option bool) : Prop := b = Some false.

(** The event is the arrival, in state [s], of a response with a truthy
    [success] to the action [a] on row [i]. *)
Definition succeeds (a : action) (i : nat) (s : State) (e : event) : Prop :=
  exists k data,
    e = Response k (Parsed data) /\
    pending s !! k = Some (Fetching a i) /\
    succeeded data = true.

(** The scan of the verify handler finds every row verified. *)
Definition all_verified (l : list Row) : Prop :=
  Forall (fun r => exists t, ekyc_status r = Some t /\
                             toLowerCase (trim t) = "verified") l.

(** The rows that [all.every] visits: it reaches row [i] when its
    callback answers [true] on every row before it. *)
Definition visited (l : list Row) (i : nat) : Prop :=
  i < length l /\ all_verified (take i l).

(** The clicks of a trace that start an action. *)
Fixpoint action_clicks (es : list event) : nat :=
  match es with
  | [] => 0
  | Click _ (Some _) :: es' => S (action_clicks es')
  | _ :: es' => action_clicks es'
  end.

(** The actions still in their 1500 ms delay. *)
Fixpoint delayed (l : list task) : nat :=
  match l with
  | [] => 0
  | Timer _ (AfterDelay _ _ _ _) :: l' => S (delayed l')
  | _ :: l' => delayed l'
  end.

(** *** The cookie store *)

(** The cookies of the page by name, and the string [document.cookie]
    that the browser makes of them. *)
Definition jar := list (string * string).

Fixpoint serialize (j : jar) : string :=
  match j with
  | [] => ""
  | (n, v) :: j' =>
      match j' with
      | [] => n +:+ "=" +:+ v
      | _ => n +:+ "=" +:+ v +:+ "; " +:+ serialize j'
      end
  end.

Fixpoint jar_lookup (name : string) (j : jar) : option string :=
  match j with
  | [] => None
  | (n, v) :: j' => if String.eqb name n then Some v else jar_lookup name j'
  end.

Fixpoint string_forallb (f : ascii -> bool) (s : string) : bool :=
  match s with
  | EmptyString => true
  | String c s' => f c && string_forallb f s'
  end.

(** A cookie name has no white space, [;] or [=]. *)
Definition name_char (c : ascii) : bool :=
  negb (is_ws c) && negb (Ascii.eqb c semi) && negb (Ascii.eqb c equals).

Definition is_name (n : string) : bool := string_forallb name_char n.

(** A cookie value has no [;] and does not begin with white space. *)
Definition is_value (v : string) : bool :=
  string_forallb (fun c => negb (Ascii.eqb c semi)) v &&
  match v with
  | EmptyString => true
  | String c _ => negb (is_ws c)
  end.

Definition wf_jar (j : jar) : Prop :=
  Forall (fun nv => is_name (fst nv) = true /\ is_value (snd nv) = true) j /\
  NoDup (map fst j).

(** What comes after a cookie in [document.cookie]: the end of the
    string, or the separator before the next cookie. *)
Definition closes (rest : string) : Prop :=
  rest = EmptyString \/ exists s, rest = String semi s.

(** The value under [name], or the empty string without such a cookie. *)
Definition jar_value (name : string) (j : jar) : string :=
  match jar_lookup name j with
  | Some v => v
  | None => ""
  end.

(** *** The specification's wording, where the script differs *)

(** "status_display if present, else status if present, else the
    literal": presence of the field, whatever its value. *)
Definition spec_status_value (data : jsval) (dflt : string) : jsval :=
  match data with
  | JObj l =>
      match assoc "status_display" l with
      | Some v => v
      | None =>
          match assoc "status" l with
          | Some v => v
          | None => JStr dflt
          end
      end
  | _ => JStr dflt
  end.

(** The same with truthiness in place of presence: [status_display] when
    it is truthy, else [status] when it is truthy, else the literal. *)
Definition label_of (data : jsval) (dflt : string) : jsval :=
  if truthy (get data "status_display")
  then get data "status_display"
  else if truthy (get data "status")
       then get data "status"
       else JStr dflt.

(** "falls back to the current page URL whenever the root element is
    absent or the data-endpoint attribute is absent". *)
Definition spec_endpoint (p : Page) : option string :=
  match root p with
  | Some (Some e) => Some e
  | _ => Some (href p)
  end.

(** *** Pages and responses of the examples *)

Definition row42 : Row :=
  mkRow (Some "42") (Some "trainee") (Some "Pending") (Some "")
        (Some false) (Some true).

Definition row43 : Row :=
  mkRow (Some "43") (Some "trainer") (Some "Verified") (Some "")
        (Some true) (Some true).

Definition bare_row : Row :=
  mkRow (Some "44") (Some "trainee") None (Some "") (Some false) (Some true).

Definition page0 : Page :=
  mkPage (Some (Some "/tms/ekyc/7/")) "https://tms.example/attendance/7/"
         "sessionid=abc; csrftoken=tok123" (Some false) (Some "") (Some "none")
         (Some "none") (Some "none") [row42; row43] None.

Definition page_no_attr : Page :=
  mkPage (Some None) "https://tms.example/attendance/7/" "" (Some false)
         (Some "") (Some "none") (Some "none") (Some "none") [row42] None.

Definition page_bare : Page :=
  mkPage (Some (Some "/tms/ekyc/7/")) "https://tms.example/attendance/7/"
         "csrftoken=tok123" (Some false) (Some "") (Some "none")
         (Some "none") (Some "none") [row42; bare_row] None.

Definition recorded_ok : jsval :=
  JObj [("success", JBool true); ("status_display", JStr "Recorded")].

Definition verified_raw : jsval :=
  JObj [("success", JBool true); ("status", JStr "VERIFIED")].

Definition verified_ok : jsval :=
  JObj [("success", JBool true); ("status", JStr "VERIFIED");
        ("status_display", JStr "Verified")].

Definition empty_display : jsval :=
  JObj [("success", JBool true); ("status_display", JStr "");
        ("status", JStr "RECORDED")].

Definition refused : jsval :=
  JObj [("success", JBool false); ("error", JStr "no device")].

Definition verified_empty_display : jsval :=
  JObj [("success", JBool true); ("status_display", JStr "");
        ("status", JStr "VERIFIED")].

(** Record then verify row 0 of [page0]. *)
Definition full_run : list event :=
  [ClickTest; TimerFires 0; Click record_fingerprint (Some 0); TimerFires 0;
   Response 0 (Parsed recorded_ok); Click verify_ekyc (Some 0);
   TimerFires 0; Response 0 (Parsed verified_ok)].

(** The state a trace of events leaves [p] in (the initial state when
    the trace cannot occur). *)
Definition state_after (p : Page) (es : list event) : State :=
  match run (init p) es with
  | Some s => s
  | None => init p
  end.

(** Row 0 of [page0] while its record action waits for the response,
    and while its verify action does. *)
Definition recording : State :=
  Eval vm_compute in state_after page0 (take 4 full_run).

Definition verifying : State :=
  Eval vm_compute in state_after page0 (take 7 full_run).

(** [page0] after the connection test, and after the click on the
    record button of row 0 that follows it. *)
Definition tested : State :=
  Eval vm_compute in state_after page0 (take 2 full_run).

Definition clicked : State :=
  Eval vm_compute in state_after page0 (take 3 full_run).

(** The same on [page_bare], whose second row has no status label. *)
Definition verifying_bare : State :=
  Eval vm_compute in state_after page_bare (take 7 full_run).

(** A value that has no text, [{"toString": 1}], as the status of a
    successful response and as the error of a refused one. *)
Definition one : jsval := JNum (mkSafe 1 eq_refl).

Definition no_text : jsval := JObj [("toString", one)].

Definition recorded_no_text : jsval :=
  JObj [("success", JBool true); ("status_display", no_text)].

Definition refused_no_text : jsval :=
  JObj [("success", JBool false); ("error", no_text)].

(** A table whose second row reads verified in capitals and between
    white space, while the verify action of its first row waits for the
    response. *)
Definition row_padded : Row :=
  mkRow (Some "43") (Some "trainer") (Some "  VERIFIED ") (Some "")
        (Some true) (Some true).

Definition page_padded : Page :=
  mkPage (Some (Some "/tms/ekyc/7/")) "https://tms.example/attendance/7/"
         "csrftoken=tok123" (Some false) (Some "") (Some "none")
         (Some "none") (Some "none") [row42; row_padded] None.

Definition verifying_padded : State :=
  Eval vm_compute in state_after page_padded (take 7 full_run).

(** A page whose rows all read verified, served with the verify button
    of the first row enabled, while the verify action of that row waits
    for the response. *)
Definition row_again : Row :=
  mkRow (Some "42") (Some "trainee") (Some "Verified") (Some "")
        (Some true) (Some false).

Definition page_again : Page :=
  mkPage (Some (Some "/tms/ekyc/7/")) "https://tms.example/attendance/7/"
         "csrftoken=tok123" (Some false) (Some "") (Some "none")
         (Some "none") (Some "none") [row_again; row43] None.

Definition verifying_again : State :=
  Eval vm_compute in
    state_after page_again [Click verify_ekyc (Some 0); TimerFires 0].

(** *** Invariants of the event loop *)

(** Neither button of the row can be clicked. *)
Definition quiet (r : Row) : Prop :=
  recordBtn r <> Some false /\ verifyBtn r <> Some false.

(** Row [i] has at most one action in flight, and while it has one the
    button that started it is disabled and the row is quiet. *)
Definition row_ok (l : list task) (i : nat) (r : Row) : Prop :=
  inflight i l <= 1 /\
  forall t a, t ∈ l -> task_action t = Some (a, i) ->
              button a r = Some true /\ quiet r.

Definition Inv (s : State) : Prop :=
  forall i r, rows (page s) !! i = Some r -> row_ok (pending s) i r.

(** Row [i] is finished: nothing in flight and nothing to click. *)
Definition terminal (i : nat) (s : State) : Prop :=
  inflight i (pending s) = 0 /\
  forall r, rows (page s) !! i = Some r -> verifyBtn r = Some true /\ quiet r.

(** The timers of the widget carry the delays of the script. *)
Definition delay_ok (t : task) : Prop :=
  match t with
  | Timer ms AfterTest => ms = 2000
  | Timer ms (AfterDelay _ _ _ _) => ms = 1500
  | Timer ms Reload => ms = 900
  | Fetching _ _ => True
  end.

(** Every action in flight belongs to a row of the table. *)
Definition in_range (s : State) : Prop :=
  forall t a i, t ∈ pending s -> task_action t = Some (a, i) ->
                i < length (rows (page s)).

(** The listeners are attached exactly when the page has a test button. *)
Definition wired (s : State) : Prop :=
  attached s = true <-> exists d, testBtn (page s) = Some d.

(** A page without the test button, and one whose first row was served
    with both buttons enabled. *)
Definition page_no_test : Page :=
  mkPage (Some (Some "/tms/ekyc/7/")) "https://tms.example/attendance/7/"
         "csrftoken=tok123" None (Some "") (Some "none") (Some "none")
         (Some "none") [row42; row43] None.

Definition row_open : Row :=
  mkRow (Some "45") (Some "trainee") (Some "Recorded") (Some "")
        (Some false) (Some false).

Definition page_open : Page :=
  mkPage (Some (Some "/tms/ekyc/7/")) "https://tms.example/attendance/7/"
         "csrftoken=tok123" (Some false) (Some "") (Some "none")
         (Some "none") (Some "none") [row_open; row43] None.

(** A table whose second row does not read verified and whose third
    row has no status label, while the verify action of its first row
    waits for the response. *)
Definition page_mixed : Page :=
  mkPage (Some (Some "/tms/ekyc/7/")) "https://tms.example/attendance/7/"
         "csrftoken=tok123" (Some false) (Some "") (Some "none")
         (Some "none") (Some "none") [row42; row_open; bare_row] None.

Definition verifying_mixed : State :=
  Eval vm_compute in state_after page_mixed (take 7 full_run).

(** ** Vocabulary of the further properties *)

(** What the script never touches: which elements the page has, and the
    data attributes of the rows. *)
Definition present {A} (o : option A) : bool :=
  match o with
  | Some _ => true
  | None => false
  end.

Definition row_frame (r : Row) :=
  (participantId r, participantRole r, present (ekyc_status r),
   present (actionStatus r), present (recordBtn r), present (verifyBtn r)).

Definition page_frame (p : Page) :=
  (root p, href p, present (testBtn p), present (testStatus p),
   present (loader p), present (participantsWrapper p), present (doneMsg p),
   map row_frame (rows p)).

(** The row whose handler an event runs: the row of a click, or the row
    of the action whose response arrives. *)
Definition event_row (s : State) (e : event) : option nat :=
  match e with
  | Click _ (Some i) => Some i
  | Response k _ =>
      match pending s !! k with
      | Some (Fetching _ i) => Some i
      | _ => None
      end
  | _ => None
  end.

Definition action_eqb (a b : action) : bool :=
  match a, b with
  | record_fingerprint, record_fingerprint => true
  | verify_ekyc, verify_ekyc => true
  | _, _ => false
  end.

(** The clicks of a trace on the button of action [a] in row [i]. *)
Fixpoint clicks_on (a : action) (i : nat) (es : list event) : nat :=
  match es with
  | [] => 0
  | Click b (Some j) :: es' =>
      (if action_eqb a b && Nat.eqb i j then 1 else 0) + clicks_on a i es'
  | _ :: es' => clicks_on a i es'
  end.

(** The clicks of a trace on the buttons of the first [n] rows. *)
Fixpoint row_clicks (n : nat) (es : list event) : nat :=
  match n with
  | 0 => 0
  | S m =>
      clicks_on record_fingerprint m es + clicks_on verify_ekyc m es +
      row_clicks m es
  end.

(** The clicks of a trace on the test button. *)
Fixpoint test_clicks (es : list event) : nat :=
  match es with
  | [] => 0
  | ClickTest :: es' => S (test_clicks es')
  | _ :: es' => test_clicks es'
  end.

(** The test timers among the pending tasks. *)
Fixpoint test_timers (l : list task) : nat :=
  match l with
  | [] => 0
  | Timer _ AfterTest :: l' => S (test_timers l')
  | _ :: l' => test_timers l'
  end.

(** The part of the page that the connection test writes. *)
Definition test_view (p : Page) :=
  (testBtn p, testStatus p, loader p, participantsWrapper p, focused p).

(** The three phases of the connection test on a page served as [p]:
    not started, waiting for the 2000 ms timer, and finished. *)
Definition test_idle (p : Page) (s : State) : Prop :=
  testBtn (page s) = testBtn p /\
  testStatus (page s) = testStatus p /\
  loader (page s) = loader p /\
  participantsWrapper (page s) = participantsWrapper p /\
  focused (page s) = focused p /\
  test_timers (pending s) = 0.

Definition test_running (p : Page) (s : State) : Prop :=
  testBtn (page s) = Some true /\
  testStatus (page s) = assign "Testing..." (testStatus p) /\
  loader (page s) = assign "block" (loader p) /\
  participantsWrapper (page s) = participantsWrapper p /\
  focused (page s) = focused p /\
  test_timers (pending s) = 1.

Definition test_done (p : Page) (s : State) : Prop :=
  testBtn (page s) = Some true /\
  testStatus (page s) = assign "Connection succeeded!" (testStatus p) /\
  loader (page s) = assign "none" (loader p) /\
  participantsWrapper (page s) = assign "block" (participantsWrapper p) /\
  test_timers (pending s) = 0.

(** The caption a row shows while its action is pending. *)
Definition progress_caption (a : action) : string :=
  match a with
  | record_fingerprint => " Recording..."
  | verify_ekyc => " Verifying..."
  end.

(** Every row with an action in flight shows the caption of that
    action. *)
Definition captions_ok (s : State) : Prop :=
  forall i r t a,
    rows (page s) !! i = Some r -> t ∈ pending s ->
    task_action t = Some (a, i) ->
    actionStatus r = assign (progress_caption a) (actionStatus r).

(** Row [i] is stuck: nothing in flight and no button to click. *)
Definition stuck (i : nat) (s : State) : Prop :=
  inflight i (pending s) = 0 /\
  forall r, rows (page s) !! i = Some r -> quiet r.

(** Row [i] after a click on its verify button: no button to click, and
    no record action in flight that could enable one. *)
Definition verify_spent (i : nat) (s : State) : Prop :=
  (forall r, rows (page s) !! i = Some r -> quiet r) /\
  (forall t, t ∈ pending s -> task_action t <> Some (record_fingerprint, i)).

(** A response that is not the success of a record action. *)
Definition dead_end (a : action) (o : outcome) : Prop :=
  a = verify_ekyc \/ o = Threw \/
  exists data, o = Parsed data /\ succeeded data = false.

(** A reload is under way: a reload timer is pending, or has fired. *)
Definition reloading (s : State) : Prop :=
  reloaded s = true \/ exists ms, Timer ms Reload ∈ pending s.

(** The reload is due: its 900 ms timer is pending, or has fired. *)
Definition reload_due (s : State) : Prop :=
  reloaded s = true \/ Timer 900 Reload ∈ pending s.

(** The requests of the script: a POST to [ep] with the two headers and
    the three form fields, for one of the two actions. *)
Definition request_ok (ep : option string) (q : Request) : Prop :=
  url q = ep /\ method q = "POST" /\
  (exists token,
      headers q = [("X-Requested-With", "XMLHttpRequest");
                   ("X-CSRFToken", token)]) /\
  (exists act pid role,
      (act = "record_fingerprint" \/ act = "verify_ekyc") /\
      body q = FormData [("action", act); ("participant_id", pid);
                         ("participant_role", role)]).

(** The action and row whose handler an event runs. *)
Definition handler_of (s : State) (e : event) : option (action * nat) :=
  match e with
  | Click a (Some i) => Some (a, i)
  | TimerFires k | Response k _ =>
      match pending s !! k with
      | Some t => task_action t
      | None => None
      end
  | _ => None
  end.

(** The requests that the turn from [s] to [s'] sends for action [a] on
    row [i]. *)
Definition sent_by (a : action) (i : nat) (s : State) (e : event)
    (s' : State) : nat :=
  match handler_of s e with
  | Some (b, j) =>
      if action_eqb a b && Nat.eqb i j
      then length (sent s') - length (sent s)
      else 0
  | None => 0
  end.

(** The requests that a run sends for action [a] on row [i]. *)
Fixpoint requests_for (a : action) (i : nat) (s : State) (es : list event)
  : nat :=
  match es with
  | [] => 0
  | e :: es' =>
      match step s e with
      | Some s' => sent_by a i s e s' + requests_for a i s' es'
      | None => 0
      end
  end.

(** The same for the two actions of the first [n] rows together, of a
    turn and of a run. *)
Fixpoint row_sent (n : nat) (s : State) (e : event) (s' : State) : nat :=
  match n with
  | 0 => 0
  | S m =>
      sent_by record_fingerprint m s e s' + sent_by verify_ekyc m s e s' +
      row_sent m s e s'
  end.

Fixpoint row_requests (n : nat) (s : State) (es : list event) : nat :=
  match n with
  | 0 => 0
  | S m =>
      requests_for record_fingerprint m s es +
      requests_for verify_ekyc m s es + row_requests m s es
  end.

(** The delays of action [a] on row [i] among the pending tasks. *)
Fixpoint delayed_on (a : action) (i : nat) (l : list task) : nat :=
  match l with
  | [] => 0
  | Timer _ (AfterDelay b j _ _) :: l' =>
      (if action_eqb a b && Nat.eqb i j then 1 else 0) + delayed_on a i l'
  | _ :: l' => delayed_on a i l'
  end.

(** A string of white space only. *)
Definition is_blank (s : string) : bool := string_forallb is_ws s.

(** The first cookie of the store under [name] whose value is not
    empty. *)
Fixpoint first_nonempty (name : string) (j : jar) : option string :=
  match j with
  | [] => None
  | (n, v) :: j' =>
      if String.eqb name n && negb (String.eqb v "")
      then Some v
      else first_nonempty name j'
  end.

(** A cookie store whose names may repeat. *)
Definition wf_cookies (j : jar) : Prop :=
  Forall (fun nv => is_name (fst nv) = true /\ is_value (snd nv) = true) j.

(** *** The label test of the scan, in the words of the specification *)

(** One of the letters of "verified", in either case. *)
Definition letter (low up c : ascii) : bool :=
  Ascii.eqb c low || Ascii.eqb c up.

(** The word "verified" in any mix of cases. *)
Definition verified_word (w : string) : bool :=
  match w with
  | String c1 (String c2 (String c3 (String c4 (String c5 (String c6
      (String c7 (String c8 EmptyString))))))) =>
      letter "v" "V" c1 && letter "e" "E" c2 && letter "r" "R" c3 &&
      letter "i" "I" c4 && letter "f" "F" c5 && letter "i" "I" c6 &&
      letter "e" "E" c7 && letter "d" "D" c8
  | _ => false
  end.

(** A text whose trimmed, lower-cased form is "verified": the word in
    any mix of cases, between white space. *)
Definition reads_as_verified (t : string) : Prop :=
  exists before w after,
    t = before +:+ w +:+ after /\
    is_blank before = true /\ is_blank after = true /\
    verified_word w = true.

(** Every row of the table has a status label that reads verified. *)
Definition all_read_verified (l : list Row) : Prop :=
  Forall (fun r => exists t, ekyc_status r = Some t /\ reads_as_verified t) l.

(** The rows that the scan looks at: it stops at the first row whose
    label does not read verified, so it reaches row [i] when every row
    before it has a status label that reads verified. *)
Definition scanned (l : list Row) (i : nat) : Prop :=
  i < length l /\ all_read_verified (take i l).

(** * Properties *)

(** ** Lists of tasks *)

Lemma inflight_app i l1 l2 :
  inflight i (l1 ++ l2) = inflight i l1 + inflight i l2.
Proof.
  induction l1 as [|t l1 IH]; simpl; [reflexivity|].
  rewrite IH. lia.
Qed.

Lemma inflight_delete i l k t :
  l !! k = Some t ->
  inflight i l = (if concerns i t then 1 else 0) + inflight i (delete k l).
Proof.
  revert k. induction l as [|x l IH]; intros [|k] Hk; simpl in *;
    try discriminate.
  - injection Hk as ->. reflexivity.
  - rewrite (IH k Hk). lia.
Qed.

Lemma inflight_pos i l t :
  t ∈ l -> concerns i t = true -> 1 <= inflight i l.
Proof.
  induction 1 as [t l|t x l Hin IH]; simpl; intros Hc.
  - rewrite Hc. lia.
  - specialize (IH Hc). lia.
Qed.

Lemma concerns_action t a i :
  task_action t = Some (a, i) -> concerns i t = true.
Proof.
  unfold concerns. intros ->. apply Nat.eqb_refl.
Qed.

Lemma concerns_other t a i j :
  task_action t = Some (a, j) -> i <> j -> concerns i t = false.
Proof.
  unfold concerns. intros -> Hne. apply Nat.eqb_neq, Hne.
Qed.

(** ** Rows under the handlers *)

Lemma lookup_on_row i j f p :
  rows (on_row i f p) !! j =
  if decide (i = j) then f <$> rows p !! i else rows p !! j.
Proof.
  unfold on_row. simpl. apply list_lookup_alter.
Qed.

Lemma lookup_on_row_eq i f p r :
  rows p !! i = Some r -> rows (on_row i f p) !! i = Some (f r).
Proof.
  intros H. rewrite lookup_on_row, decide_True by reflexivity.
  rewrite H. reflexivity.
Qed.

Lemma lookup_on_row_ne i j f p :
  i <> j -> rows (on_row i f p) !! j = rows p !! j.
Proof.
  intros H. rewrite lookup_on_row, decide_False by exact H. reflexivity.
Qed.

Lemma alter_as_insert {A} (f : A -> A) i (l : list A) x :
  l !! i = Some x -> alter f i l = <[i := f x]> l.
Proof.
  intros H. apply list_eq. intros j.
  rewrite list_lookup_alter, list_lookup_insert.
  assert (Hlt : i < length l) by (eapply lookup_lt_Some, H).
  destruct (decide (i = j)) as [->|Hne].
  - rewrite H, decide_True by auto. reflexivity.
  - rewrite decide_False by (intros [? _]; congruence). reflexivity.
Qed.

(** [step] runs the turns of [turn], and only before a reload. *)
Lemma step_turn s e s' :
  step s e = Some s' -> reloaded s = false /\ turn s e s'.
Proof.
  unfold step. destruct (reloaded s); [discriminate|].
  intros H. split; [reflexivity|].
  destruct e as [|a [i|]| |k|k o|c].
  - destruct (testBtn (page s)) as [[]|] eqn:Eb; try discriminate.
    destruct (attached s) eqn:Ea; injection H as <-.
    + apply turn_test; assumption.
    + apply turn_ignored; simpl; auto.
  - destruct (rows (page s) !! i) as [r|] eqn:Er; [|discriminate].
    destruct (button a r) as [[]|] eqn:Eb; try discriminate.
    destruct (attached s) eqn:Ea; injection H as <-.
    + apply turn_click; assumption.
    + apply turn_ignored; simpl; auto.
  - injection H as <-. apply turn_ignored; simpl; auto.
  - injection H as <-. apply turn_ignored; simpl; auto.
  - destruct (pending s !! k) as [[ms c|]|] eqn:Ek; try discriminate.
    injection H as <-. eapply turn_timer, Ek.
  - destruct (pending s !! k) as [[|a i]|] eqn:Ek; try discriminate.
    injection H as <-. apply turn_response, Ek.
  - injection H as <-. apply turn_cookie.
Qed.

(** ** The invariant *)

Lemma inflight_delete_le i l k : inflight i (delete k l) <= inflight i l.
Proof.
  revert k. induction l as [|x l IH]; intros [|k]; simpl; try lia.
  specialize (IH k). lia.
Qed.

Lemma inflight_witness i l :
  1 <= inflight i l -> exists t a, t ∈ l /\ task_action t = Some (a, i).
Proof.
  induction l as [|x l IH]; simpl; [lia|].
  destruct (concerns i x) eqn:E.
  - intros _. unfold concerns in E.
    destruct (task_action x) as [[a j]|] eqn:Ea; [|discriminate].
    apply Nat.eqb_eq in E. subst j. exists x, a. split; [left|exact Ea].
  - intros H. destruct IH as (t & a & Hin & Ha); [lia|].
    exists t, a. split; [right; exact Hin|exact Ha].
Qed.

Lemma row_ok_spawn_other l i r t :
  concerns i t = false -> row_ok l i r -> row_ok (l ++ [t]) i r.
Proof.
  intros Hc [Hn Hb]. split.
  - rewrite inflight_app. simpl. rewrite Hc. lia.
  - intros t' a [Hin|Hin]%elem_of_app Ha; [eauto|].
    apply list_elem_of_singleton in Hin. subst t'.
    apply concerns_action in Ha. congruence.
Qed.

Lemma row_ok_delete l k i r :
  row_ok l i r -> row_ok (delete k l) i r.
Proof.
  intros [Hn Hb]. split.
  - pose proof (inflight_delete_le i l k). lia.
  - intros t a Hin. apply Hb. eapply list_elem_of_delete_inv, Hin.
Qed.

Lemma row_ok_idle l i r :
  inflight i l = 0 -> row_ok l i r.
Proof.
  intros H0. split; [lia|].
  intros t a Hin Ha. apply concerns_action in Ha.
  pose proof (inflight_pos i l t Hin Ha). lia.
Qed.

Lemma Inv_test_click s : Inv s -> Inv (test_click s).
Proof.
  intros HI i r Hr. apply row_ok_spawn_other; [reflexivity|].
  apply HI. exact Hr.
Qed.

Lemma click_row_button a r :
  button a r = Some false ->
  button a (click_row a r) = Some true /\ quiet (click_row a r).
Proof.
  destruct a, r as [pid role st cap [[]|] [[]|]]; simpl; intros H;
    try discriminate H; (split; [reflexivity|split; discriminate]).
Qed.

Lemma quiet_button a r : quiet r -> button a r <> Some false.
Proof. intros [H1 H2]. destruct a; assumption. Qed.

(** A row whose button can be clicked has nothing in flight. *)
Lemma clickable_idle s i r a :
  Inv s -> rows (page s) !! i = Some r -> button a r = Some false ->
  inflight i (pending s) = 0.
Proof.
  intros HI Hr Hb. destruct (HI i r Hr) as [Hn Hq].
  destruct (inflight i (pending s)) as [|n] eqn:E0; [reflexivity|].
  destruct (inflight_witness i (pending s)) as (t & a' & Hin & Ha); [lia|].
  destruct (Hq t a' Hin Ha) as [_ Hquiet].
  exfalso. exact (quiet_button a r Hquiet Hb).
Qed.

Lemma Inv_action_click s a j r :
  Inv s -> rows (page s) !! j = Some r -> button a r = Some false ->
  Inv (action_click a j r s).
Proof.
  intros HI Hr Hb i r'. unfold action_click. simpl.
  rewrite list_lookup_alter. case_decide as Hij.
  - subst i. rewrite Hr. intros [= <-].
    pose proof (clickable_idle s j r a HI Hr Hb) as H0.
    split.
    + rewrite inflight_app, H0. simpl. unfold concerns. simpl.
      rewrite Nat.eqb_refl. lia.
    + intros t a' [Hin|Hin]%elem_of_app Ha.
      * apply concerns_action in Ha.
        pose proof (inflight_pos j _ t Hin Ha). lia.
      * apply list_elem_of_singleton in Hin. subst t. simpl in Ha.
        injection Ha as <-. apply click_row_button, Hb.
  - intros Hr'. apply row_ok_spawn_other.
    + unfold concerns. simpl. apply Nat.eqb_neq. congruence.
    + apply HI, Hr'.
Qed.

Lemma Inv_run_cont s k ms c :
  Inv s -> pending s !! k = Some (Timer ms c) ->
  Inv (run_cont c (with_pending (delete k (pending s)) s)).
Proof.
  intros HI Hk. destruct c as [|a j pid role|]; simpl.
  - intros i r Hr. simpl in Hr. destruct (first_enabled_record (rows (page s)));
      simpl in Hr; apply row_ok_delete, HI, Hr.
  - intros i r Hr. simpl in Hr. unfold action_fetch, spawn, send. simpl.
    destruct (HI i r Hr) as [Hn Hq]. split.
    + rewrite inflight_app. simpl.
      rewrite (inflight_delete i _ k _ Hk) in Hn.
      unfold concerns in *. simpl in *. lia.
    + intros t a' [Hin|Hin]%elem_of_app Ha.
      * apply (Hq t a'); [|exact Ha]. eapply list_elem_of_delete_inv, Hin.
      * apply list_elem_of_singleton in Hin. subst t.
        apply (Hq (Timer ms (AfterDelay a j pid role)) a');
          [|exact Ha]. eapply list_elem_of_lookup_2, Hk.
  - intros i r Hr. simpl in Hr. apply row_ok_delete, HI, Hr.
Qed.


(** A response changes only the row of its action, removes nothing from
    the pending tasks and adds at most the reload timer. *)
Lemma action_response_shape a j o s :
  exists f extra,
    rows (page (action_response a j o s)) = alter f j (rows (page s)) /\
    pending (action_response a j o s) = pending s ++ extra /\
    (extra = [] \/ extra = [Timer 900 Reload]).
Proof.
  destruct a; simpl.
  - exists (record_response_row o), []. rewrite app_nil_r. auto.
  - unfold verify_response.
    destruct o as [|data]; [|destruct (succeeded data)].
    + exists (set_actionStatus " Error"), []. rewrite app_nil_r. auto.
    + destruct (verify_update_threw data j s); simpl.
      { exists (fun r => set_actionStatus " Error" (verify_success_row data r)),
          [].
        rewrite app_nil_r, list_alter_alter_eq. auto. }
      destruct (every reads_verified
                  (alter (verify_success_row data) j (rows (page s))))
        as [[]|]; simpl.
      * exists (verify_success_row data), [Timer 900 Reload]. auto.
      * exists (verify_success_row data), []. rewrite app_nil_r. auto.
      * exists (fun r => set_actionStatus " Error" (verify_success_row data r)),
          [].
        rewrite app_nil_r, list_alter_alter_eq. auto.
    + eexists _, []. rewrite app_nil_r. simpl. auto.
Qed.

Lemma on_row_on_row i f g p :
  on_row i g (on_row i f p) = on_row i (fun r => g (f r)) p.
Proof.
  unfold on_row, set_rows. simpl. rewrite list_alter_alter_eq. reflexivity.
Qed.

(** A response is a change to the row of its action, and for a verify
    response that finds every row verified also the done message and the
    reload timer. *)
Lemma action_response_form a i o s :
  exists f,
    action_response a i o s = with_page (on_row i f (page s)) s \/
    action_response a i o s =
      spawn [Timer 900 Reload]
            (with_page (set_doneMsg "block" (on_row i f (page s))) s).
Proof.
  destruct a; simpl.
  - exists (record_response_row o). left. reflexivity.
  - unfold verify_response.
    destruct o as [|data]; [|destruct (succeeded data)].
    + eexists. left. reflexivity.
    + destruct (verify_update_threw data i s); simpl.
      { eexists. left. unfold with_page. simpl. rewrite on_row_on_row.
        reflexivity. }
      destruct (every reads_verified
                  (alter (verify_success_row data) i (rows (page s))))
        as [[]|]; simpl.
      * eexists. right. reflexivity.
      * eexists. left. reflexivity.
      * eexists. left. unfold with_page. simpl. rewrite on_row_on_row.
        reflexivity.
    + eexists. left. reflexivity.
Qed.

(** ** The statements of the [try] blocks *)

(** What the label assignment does: nothing on a row without the label,
    the text of the value on a row with it, and a throw when the value
    has no text. *)
Lemma write_label_cases v r :
  (ekyc_status r = None /\ write_label v r = (r, false)) \/
  (exists t txt, ekyc_status r = Some t /\ toString v = Some txt /\
                 write_label v r = (set_ekyc_status txt r, false)) \/
  (exists t, ekyc_status r = Some t /\ toString v = None /\
             write_label v r = (r, true)).
Proof.
  unfold write_label.
  destruct (ekyc_status r) as [t|] eqn:E; [|auto].
  destruct (toString v) as [txt|]; right; [left|right]; eauto.
Qed.

Lemma write_label_text v r txt :
  toString v = Some txt -> write_label v r = (set_ekyc_status txt r, false).
Proof.
  unfold write_label. intros ->.
  destruct (ekyc_status r) eqn:E; [reflexivity|].
  f_equal. destruct r. simpl in *. subst. reflexivity.
Qed.

Lemma write_label_throws v r t :
  ekyc_status r = Some t -> toString v = None -> write_label v r = (r, true).
Proof. unfold write_label. intros -> ->. reflexivity. Qed.

Ltac row_cases v r :=
  destruct (write_label_cases v r)
    as [[_ ->]|[(? & ? & _ & _ & ->)|(? & _ & _ & ->)]].

Lemma verify_success_row_buttons data r :
  (verifyBtn (verify_success_row data r) = verifyBtn r /\
   recordBtn (verify_success_row data r) = recordBtn r) \/
  (verifyBtn (verify_success_row data r) = assign true (verifyBtn r) /\
   recordBtn (verify_success_row data r) = assign true (recordBtn r)).
Proof.
  unfold verify_success_row, verify_update, and_then.
  row_cases (status_value data "Verified") r; simpl; auto.
Qed.

Lemma failure_row_buttons prefix data r :
  verifyBtn (catch (failure_row prefix data r) (set_actionStatus " Error"))
  = verifyBtn r /\
  recordBtn (catch (failure_row prefix data r) (set_actionStatus " Error"))
  = recordBtn r /\
  ekyc_status (catch (failure_row prefix data r) (set_actionStatus " Error"))
  = ekyc_status r.
Proof.
  unfold failure_row. destruct (failure_message prefix data); simpl; auto.
Qed.

Lemma record_response_row_recordBtn o r :
  recordBtn (record_response_row o r) = recordBtn r.
Proof.
  destruct o as [|data]; simpl; [reflexivity|]. unfold record_try.
  destruct (succeeded data).
  - unfold and_then. row_cases (status_value data "Recorded") r; reflexivity.
  - apply failure_row_buttons.
Qed.

Lemma record_response_row_verifyBtn o r :
  verifyBtn (record_response_row o r) = verifyBtn r \/
  exists data, o = Parsed data /\ succeeded data = true.
Proof.
  destruct o as [|data]; simpl; [auto|]. unfold record_try.
  destruct (succeeded data) eqn:E; [right; eauto|].
  left. apply failure_row_buttons.
Qed.

(** The rows a verify response can leave. *)
Lemma verify_response_row i o s j r r' :
  rows (page s) !! j = Some r ->
  rows (page (verify_response i o s)) !! j = Some r' ->
  r' = r \/ r' = set_actionStatus " Error" r \/
  (exists data,
      r' = verify_success_row data r \/
      r' = set_actionStatus " Error" (verify_success_row data r) \/
      r' = catch (failure_row "verify failed: " data r)
                 (set_actionStatus " Error")).
Proof.
  intros Hr. unfold verify_response.
  destruct o as [|data]; [|destruct (succeeded data)]; simpl.
  - rewrite list_lookup_alter. case_decide; subst; rewrite Hr;
      intros [= <-]; auto.
  - destruct (verify_update_threw data i s); simpl.
    { rewrite list_alter_alter_eq, list_lookup_alter.
      case_decide; subst; rewrite Hr; intros [= <-]; simpl; eauto 6. }
    destruct (every reads_verified
                (alter (verify_success_row data) i (rows (page s))))
      as [[]|]; simpl; rewrite ?list_alter_alter_eq, list_lookup_alter;
      case_decide; subst; rewrite Hr; intros [= <-]; simpl; eauto 6.
  - rewrite list_lookup_alter. case_decide; subst; rewrite Hr;
      intros [= <-]; eauto 6.
Qed.

Lemma Inv_action_response s k a j o :
  Inv s -> pending s !! k = Some (Fetching a j) ->
  Inv (action_response a j o (with_pending (delete k (pending s)) s)).
Proof.
  intros HI Hk i r.
  destruct (action_response_shape a j o
              (with_pending (delete k (pending s)) s))
    as (f & extra & -> & -> & Hextra).
  simpl. intros Hr.
  assert (Hx : inflight i extra = 0) by (destruct Hextra; subst; reflexivity).
  destruct (decide (j = i)) as [->|Hne].
  - apply row_ok_idle. rewrite inflight_app, Hx.
    rewrite list_lookup_alter_eq in Hr.
    destruct (rows (page s) !! i) as [r0|] eqn:Er; [|discriminate].
    destruct (HI i r0 Er) as [Hn _].
    rewrite (inflight_delete i _ k _ Hk) in Hn.
    unfold concerns in Hn. simpl in Hn. rewrite Nat.eqb_refl in Hn. lia.
  - rewrite list_lookup_alter_ne in Hr by exact Hne.
    destruct (HI i r Hr) as [Hn Hq]. split.
    + rewrite inflight_app, Hx. pose proof (inflight_delete_le i (pending s) k).
      lia.
    + intros t a' [Hin|Hin]%elem_of_app Ha.
      * apply (Hq t a'); [|exact Ha]. eapply list_elem_of_delete_inv, Hin.
      * destruct Hextra; subst; [inversion Hin|].
        apply list_elem_of_singleton in Hin. subst. discriminate.
Qed.

Lemma step_Inv s e s' : Inv s -> step s e = Some s' -> Inv s'.
Proof.
  intros HI H. apply step_turn in H as [_ H].
  destruct H as [Hb Ha|a i r Hr Hb Ha|k ms c Hk|k a i o Hk|c|e _].
  - apply Inv_test_click, HI.
  - apply Inv_action_click; assumption.
  - eapply Inv_run_cont; eassumption.
  - apply Inv_action_response; assumption.
  - exact HI.
  - exact HI.
Qed.

Lemma run_Inv es : forall s s', Inv s -> run s es = Some s' -> Inv s'.
Proof.
  induction es as [|e es IH]; simpl; intros s s' HI H.
  - injection H as <-. exact HI.
  - destruct (step s e) as [s1|] eqn:E; [|discriminate].
    eapply IH; [|exact H]. eapply step_Inv; eassumption.
Qed.

Lemma init_Inv p : Inv (init p).
Proof.
  intros i r _. apply row_ok_idle. reflexivity.
Qed.

Lemma reachable_Inv p s : reachable p s -> Inv s.
Proof.
  intros [es H]. eapply run_Inv; [apply init_Inv|exact H].
Qed.

(** ** What one turn does to a row *)

Lemma test_timeout_rows s : rows (page (test_timeout s)) = rows (page s).
Proof.
  unfold test_timeout. simpl.
  destruct (first_enabled_record (rows (page s))); reflexivity.
Qed.

Lemma run_cont_rows c s : rows (page (run_cont c s)) = rows (page s).
Proof.
  destruct c; simpl; [apply test_timeout_rows|reflexivity|reflexivity].
Qed.

Lemma step_rows_length s e s' :
  step s e = Some s' -> length (rows (page s')) = length (rows (page s)).
Proof.
  intros H. apply step_turn in H as [_ H].
  destruct H as [Hb Ha|a i r Hr Hb Ha|k ms c Hk|k a i o Hk|c|e _];
    try reflexivity.
  - unfold action_click. simpl. apply length_alter.
  - rewrite run_cont_rows. reflexivity.
  - destruct (action_response_shape a i o
                (with_pending (delete k (pending s)) s))
      as (f & extra & -> & _). simpl. apply length_alter.
Qed.

Lemma step_row_exists s e s' i r :
  step s e = Some s' -> rows (page s) !! i = Some r ->
  exists r', rows (page s') !! i = Some r'.
Proof.
  intros H Hr. apply lookup_lt_is_Some.
  rewrite (step_rows_length s e s' H). eapply lookup_lt_Some, Hr.
Qed.

Lemma click_row_verifyBtn a r :
  verifyBtn (click_row a r) = assign true (verifyBtn r).
Proof. destruct a; reflexivity. Qed.

Lemma click_row_recordBtn a r :
  recordBtn (click_row a r) = assign true (recordBtn r).
Proof. destruct a; reflexivity. Qed.

Lemma assign_true_not_enabled (b : option bool) : assign true b <> Some false.
Proof. destruct b; discriminate. Qed.

(** The verify response leaves the verify button as it is or disables
    it; the record response enables it exactly on success. *)
Lemma verify_response_verifyBtn i o s j r r' :
  rows (page s) !! j = Some r ->
  rows (page (verify_response i o s)) !! j = Some r' ->
  verifyBtn r' = verifyBtn r \/ verifyBtn r' = assign true (verifyBtn r).
Proof.
  intros Hr Hr'.
  destruct (verify_response_row i o s j r r' Hr Hr')
    as [->|[->|(data & [->|[->| ->]])]]; auto; simpl;
    try (destruct (verify_success_row_buttons data r) as [[-> _]|[-> _]];
         auto).
  left. apply failure_row_buttons.
Qed.

Lemma record_response_verifyBtn i o s j r r' :
  rows (page s) !! j = Some r ->
  rows (page (record_response i o s)) !! j = Some r' ->
  verifyBtn r' = verifyBtn r \/
  (j = i /\ exists data, o = Parsed data /\ succeeded data = true).
Proof.
  intros Hr. unfold record_response. simpl.
  rewrite list_lookup_alter. case_decide as Hij.
  - subst j. rewrite Hr. intros [= <-].
    destruct (record_response_row_verifyBtn o r) as [H|H]; auto.
  - rewrite Hr. intros [= <-]. auto.
Qed.

(** The specification's "the only transition that enables verify is a
    record response with success truthy". *)
Lemma verify_enabling_step s e s' i r r' :
  step s e = Some s' ->
  rows (page s) !! i = Some r -> rows (page s') !! i = Some r' ->
  ~ enabled (verifyBtn r) -> enabled (verifyBtn r') ->
  succeeds record_fingerprint i s e.
Proof.
  unfold enabled. intros H Hr Hr' Hoff Hon. apply step_turn in H as [_ H].
  destruct H as [Hb Ha|a j r0 Hr0 Hb Ha|k ms c Hk|k a j o Hk|c|e _];
    try (simpl in Hr'; rewrite Hr in Hr'; injection Hr' as <-; contradiction).
  - unfold action_click in Hr'. simpl in Hr'.
    rewrite list_lookup_alter in Hr'. case_decide; subst.
    + rewrite Hr in Hr'. injection Hr' as <-.
      rewrite click_row_verifyBtn in Hon.
      exfalso. eapply assign_true_not_enabled, Hon.
    + rewrite Hr in Hr'. injection Hr' as <-. contradiction.
  - rewrite run_cont_rows in Hr'. simpl in Hr'.
    rewrite Hr in Hr'. injection Hr' as <-. contradiction.
  - destruct a; simpl in Hr'.
    + destruct (record_response_verifyBtn j o _ i r r' Hr Hr')
        as [Heq|[-> (data & -> & Hs)]].
      * rewrite Heq in Hon. contradiction.
      * exists k, data. auto.
    + destruct (verify_response_verifyBtn j o
                  (with_pending (delete k (pending s)) s) i r r' Hr Hr')
        as [Heq|Heq];
        rewrite Heq in Hon; [contradiction|].
      exfalso. eapply assign_true_not_enabled, Hon.
Qed.

Lemma run_app es1 : forall es2 s,
  run s (es1 ++ es2) =
  match run s es1 with Some s1 => run s1 es2 | None => None end.
Proof.
  induction es1 as [|e es1 IH]; simpl; intros es2 s; [reflexivity|].
  destruct (step s e); [apply IH|reflexivity].
Qed.

Lemma verify_enabling_run i es : forall s0 s r0 r,
  run s0 es = Some s ->
  rows (page s0) !! i = Some r0 -> rows (page s) !! i = Some r ->
  ~ enabled (verifyBtn r0) -> enabled (verifyBtn r) ->
  exists es1 e es2 s1,
    es = es1 ++ e :: es2 /\ run s0 es1 = Some s1 /\
    succeeds record_fingerprint i s1 e.
Proof.
  induction es as [|e es IH]; simpl; intros s0 s r0 r H Hr0 Hr Hoff Hon.
  - injection H as <-. rewrite Hr0 in Hr. injection Hr as <-. contradiction.
  - destruct (step s0 e) as [s1|] eqn:E; [|discriminate].
    destruct (step_row_exists s0 e s1 i r0 E Hr0) as [r1 Hr1].
    destruct (decide (verifyBtn r1 = Some false)) as [Hon1|Hoff1].
    + exists [], e, es, s0. split; [reflexivity|split; [reflexivity|]].
      eapply verify_enabling_step; eassumption.
    + destruct (IH s1 s r1 r H Hr1 Hr Hoff1 Hon)
        as (es1 & e' & es2 & s2 & -> & Hrun & Hs).
      exists (e :: es1), e', es2, s2. simpl. rewrite E. auto.
Qed.

(** ** The terminal state of a row *)

Lemma idle_not_pending i l k t a j :
  inflight i l = 0 -> l !! k = Some t -> task_action t = Some (a, j) ->
  i <> j.
Proof.
  intros H0 Hk Ha ->. apply concerns_action in Ha.
  pose proof (inflight_pos j l t (list_elem_of_lookup_2 _ _ _ Hk) Ha). lia.
Qed.

Lemma inflight_delete_idle i l k :
  inflight i l = 0 -> inflight i (delete k l) = 0.
Proof.
  intros H. pose proof (inflight_delete_le i l k). lia.
Qed.

Lemma step_terminal i s e s' :
  terminal i s -> step s e = Some s' -> terminal i s'.
Proof.
  intros [H0 Hq] H. apply step_turn in H as [_ H].
  destruct H as [Hb Ha|a j r Hr Hb Ha|k ms c Hk|k a j o Hk|c|e _];
    try (split; assumption).
  - split; [|exact Hq]. simpl. rewrite inflight_app, H0. reflexivity.
  - assert (Hne : j <> i).
    { intros ->. destruct (Hq r Hr) as [Hv Hquiet].
      exact (quiet_button a r Hquiet Hb). }
    split.
    + simpl. rewrite inflight_app, H0. simpl.
      rewrite (concerns_other _ a i j); [reflexivity|reflexivity|congruence].
    + intros r'. unfold action_click. simpl.
      rewrite list_lookup_alter_ne by exact Hne. apply Hq.
  - split.
    + destruct c as [|a j pid role|]; simpl;
        try (apply inflight_delete_idle, H0).
      rewrite inflight_app, (inflight_delete_idle i _ k H0). simpl.
      rewrite (concerns_other _ a i j); [reflexivity|reflexivity|].
      eapply idle_not_pending; [exact H0|exact Hk|reflexivity].
    + intros r'. rewrite run_cont_rows. apply Hq.
  - assert (Hne : i <> j).
    { eapply idle_not_pending; [exact H0|exact Hk|reflexivity]. }
    destruct (action_response_shape a j o
                (with_pending (delete k (pending s)) s))
      as (f & extra & Hrows & Hpend & Hextra).
    split.
    + rewrite Hpend. simpl. rewrite inflight_app, (inflight_delete_idle i _ k H0).
      destruct Hextra; subst; reflexivity.
    + intros r'. rewrite Hrows. simpl.
      rewrite list_lookup_alter_ne by congruence. apply Hq.
Qed.

Lemma run_terminal i es : forall s s',
  terminal i s -> run s es = Some s' -> terminal i s'.
Proof.
  induction es as [|e es IH]; simpl; intros s s' Ht H.
  - injection H as <-. exact Ht.
  - destruct (step s e) as [s1|] eqn:E; [|discriminate].
    eapply IH; [|exact H]. eapply step_terminal; eassumption.
Qed.

(** The row of a successful verify response: the success branch, and
    the caption of the [catch] on top when the scan throws. *)
Lemma verify_success_lookup i data s r :
  succeeded data = true -> rows (page s) !! i = Some r ->
  rows (page (verify_response i (Parsed data) s)) !! i =
  Some (if snd (verify_update data r)
        then set_actionStatus " Error" (verify_success_row data r)
        else
          match every reads_verified
                  (alter (verify_success_row data) i (rows (page s))) with
          | None => set_actionStatus " Error" (verify_success_row data r)
          | Some _ => verify_success_row data r
          end).
Proof.
  intros Hs Hr. unfold verify_response, verify_update_threw.
  rewrite Hs, Hr. simpl.
  destruct (snd (verify_update data r)); simpl.
  { rewrite list_alter_alter_eq, list_lookup_alter_eq, Hr. reflexivity. }
  destruct (every reads_verified
              (alter (verify_success_row data) i (rows (page s))))
    as [[]|]; simpl;
    rewrite ?list_alter_alter_eq, list_lookup_alter_eq, Hr; reflexivity.
Qed.

Lemma response_turn s k o s' a i :
  step s (Response k o) = Some s' ->
  pending s !! k = Some (Fetching a i) ->
  s' = action_response a i o (with_pending (delete k (pending s)) s).
Proof.
  unfold step. destruct (reloaded s); [discriminate|].
  intros H Hk. rewrite Hk in H. injection H as <-. reflexivity.
Qed.

Lemma verify_success_terminal s e s' i r :
  Inv s -> rows (page s) !! i = Some r ->
  succeeds verify_ekyc i s e -> step s e = Some s' ->
  terminal i s'.
Proof.
  intros HI Hr (k & data & -> & Hk & Hs) H.
  rewrite (response_turn _ _ _ _ _ _ H Hk).
  destruct (HI i r Hr) as [Hn Hq].
  split.
  - destruct (action_response_shape verify_ekyc i (Parsed data)
                (with_pending (delete k (pending s)) s))
      as (f & extra & Hrows & Hpend & Hextra).
    rewrite Hpend, inflight_app.
    replace (inflight i extra) with 0
      by (destruct Hextra; subst; reflexivity).
    rewrite (inflight_delete i _ k _ Hk) in Hn.
    unfold concerns in Hn. simpl in *. rewrite Nat.eqb_refl in Hn. lia.
  - intros r'. unfold action_response.
    rewrite (verify_success_lookup i data
               (with_pending (delete k (pending s)) s) r Hs Hr).
    intros [= <-].
    destruct (Hq _ verify_ekyc (list_elem_of_lookup_2 _ _ _ Hk) eq_refl)
      as [Hb [Hrec _]]. simpl in Hb.
    assert (Hrec' : recordBtn r <> Some false) by apply Hrec.
    assert (Hgoal : verifyBtn (verify_success_row data r) = Some true /\
                    quiet (verify_success_row data r)).
    { unfold quiet.
      destruct (verify_success_row_buttons data r) as [[-> ->]|[-> ->]];
        rewrite Hb; simpl; (split; [reflexivity|split]);
        try discriminate; try exact Hrec';
        apply assign_true_not_enabled. }
    destruct (snd (verify_update data r)); [exact Hgoal|].
    destruct (every reads_verified _) as [[]|]; exact Hgoal.
Qed.

Lemma run_rows_length es : forall s s',
  run s es = Some s' -> length (rows (page s')) = length (rows (page s)).
Proof.
  induction es as [|e es IH]; simpl; intros s s' H.
  - injection H as <-. reflexivity.
  - destruct (step s e) as [s1|] eqn:E; [|discriminate].
    rewrite (IH s1 s' H). eapply step_rows_length, E.
Qed.

(** ** Reachable states *)

Lemma step_in_range s e s' : in_range s -> step s e = Some s' -> in_range s'.
Proof.
  intros HR H. pose proof (step_rows_length s e s' H) as Hlen.
  intros t a i Hin Ha. rewrite Hlen.
  apply step_turn in H as [_ H].
  destruct H as [Hb Hat|a' j r Hr Hb Hat|k ms c Hk|k a' j o Hk|c|e _];
    try (eapply HR; eassumption).
  - simpl in Hin. apply elem_of_app in Hin as [Hin|Hin]; [eauto|].
    apply list_elem_of_singleton in Hin. subst t. discriminate.
  - simpl in Hin. apply elem_of_app in Hin as [Hin|Hin]; [eauto|].
    apply list_elem_of_singleton in Hin. subst t. injection Ha as <- <-.
    eapply lookup_lt_Some, Hr.
  - assert (Hold : forall t', t' ∈ delete k (pending s) ->
                              task_action t' = Some (a, i) ->
                              i < length (rows (page s))).
    { intros t' Hin' Ha'. eapply HR; [|exact Ha'].
      eapply list_elem_of_delete_inv, Hin'. }
    destruct c as [|a' j pid role|]; simpl in Hin.
    + unfold test_timeout in Hin. simpl in Hin. eapply Hold; eassumption.
    + apply elem_of_app in Hin as [Hin|Hin]; [eauto|].
      apply list_elem_of_singleton in Hin. subst t. injection Ha as <- <-.
      eapply HR; [eapply list_elem_of_lookup_2, Hk|reflexivity].
    + eapply Hold; eassumption.
  - destruct (action_response_shape a' j o
                (with_pending (delete k (pending s)) s))
      as (f & extra & _ & Hpend & Hextra).
    rewrite Hpend in Hin. simpl in Hin.
    apply elem_of_app in Hin as [Hin|Hin].
    + eapply HR; [|exact Ha]. eapply list_elem_of_delete_inv, Hin.
    + destruct Hextra; subst; [inversion Hin|].
      apply list_elem_of_singleton in Hin. subst t. discriminate.
Qed.

Lemma step_wired s e s' : wired s -> step s e = Some s' -> wired s'.
Proof.
  unfold wired. intros HW H. apply step_turn in H as [_ H].
  destruct H as [Hb Hat|a' j r Hr Hb Hat|k ms c Hk|k a' j o Hk|c|e _];
    try exact HW.
  - simpl. rewrite Hb. simpl. split; eauto.
  - destruct c; simpl; try exact HW.
    unfold test_timeout. simpl.
    destruct (first_enabled_record (rows (page s))); exact HW.
  - destruct (action_response_form a' j o
                (with_pending (delete k (pending s)) s)) as [f [-> | ->]];
      exact HW.
Qed.

Lemma step_endpoint s e s' : step s e = Some s' -> endpoint s' = endpoint s.
Proof.
  intros H. apply step_turn in H as [_ H].
  destruct H as [Hb Hat|a' j r Hr Hb Hat|k ms c Hk|k a' j o Hk|c|e _];
    try reflexivity.
  - destruct c; reflexivity.
  - destruct (action_response_form a' j o
                (with_pending (delete k (pending s)) s)) as [f [-> | ->]];
      reflexivity.
Qed.

(** An invariant of [step] that holds at [init] holds in every
    reachable state. *)
Lemma reachable_ind (P : State -> Prop) p :
  P (init p) ->
  (forall s e s', P s -> step s e = Some s' -> P s') ->
  forall s, reachable p s -> P s.
Proof.
  intros H0 Hstep s [es Hrun]. revert Hrun.
  generalize (init p) H0. induction es as [|e es IH]; simpl; intros s0 Hs0 H.
  - injection H as <-. exact Hs0.
  - destruct (step s0 e) as [s1|] eqn:E; [|discriminate].
    eapply IH; [|exact H]. eapply Hstep; eassumption.
Qed.

Lemma reachable_in_range p s : reachable p s -> in_range s.
Proof.
  apply reachable_ind.
  - intros t a i Hin. inversion Hin.
  - intros s0 e s1. apply step_in_range.
Qed.

Lemma reachable_wired p s : reachable p s -> wired s.
Proof.
  apply reachable_ind.
  - unfold wired, init. simpl. destruct (testBtn p) as [d|].
    + split; eauto.
    + split; [discriminate|intros [d Hd]; discriminate].
  - intros s0 e s1. apply step_wired.
Qed.

Lemma reachable_endpoint p s : reachable p s -> endpoint s = endpoint (init p).
Proof.
  apply (reachable_ind (fun s => endpoint s = endpoint (init p))).
  - reflexivity.
  - intros s0 e s1 IH H. rewrite (step_endpoint _ _ _ H). exact IH.
Qed.

Lemma reachable_step p s e s' :
  reachable p s -> step s e = Some s' -> reachable p s'.
Proof.
  intros [es H] Hs. exists (es ++ [e]). rewrite run_app, H. simpl.
  rewrite Hs. reflexivity.
Qed.

(** ** Record before verify, and the terminal state (C1) *)

(** C1.  For every participant row [i]: the only turn of the event loop
    that takes the row's verify button from not enabled to enabled is
    the arrival of a record response with a truthy [success] for that
    row; so on a page served with the button disabled it is not enabled
    before such a response has arrived.  And once a verify response with
    a truthy [success] has arrived for the row, its verify button is
    disabled and its record button is not enabled, in that state and in
    every state the widget can reach from it. *)
Theorem verify_needs_record_then_terminal (p : Page) (i : nat) :
  (forall s e s' r r',
      step s e = Some s' ->
      rows (page s) !! i = Some r -> rows (page s') !! i = Some r' ->
      ~ enabled (verifyBtn r) -> enabled (verifyBtn r') ->
      succeeds record_fingerprint i s e) /\
  (forall es s r0 r,
      run (init p) es = Some s ->
      rows p !! i = Some r0 -> rows (page s) !! i = Some r ->
      ~ enabled (verifyBtn r0) -> enabled (verifyBtn r) ->
      exists es1 e es2 s1,
        es = es1 ++ e :: es2 /\ run (init p) es1 = Some s1 /\
        succeeds record_fingerprint i s1 e) /\
  (forall s e s1 es s2 r2,
      reachable p s -> succeeds verify_ekyc i s e -> step s e = Some s1 ->
      run s1 es = Some s2 -> rows (page s2) !! i = Some r2 ->
      verifyBtn r2 = Some true /\ ~ enabled (recordBtn r2)).
Proof.
  split; [|split].
  - intros s e s' r r'. apply verify_enabling_step.
  - intros es s r0 r Hrun Hr0 Hr. eapply verify_enabling_run; eassumption.
  - intros s e s1 es s2 r2 Hreach Hsucc Hstep Hrun Hr2.
    assert (Hlen : length (rows (page s2)) = length (rows (page s))).
    { rewrite (run_rows_length es s1 s2 Hrun).
      apply (step_rows_length s e s1 Hstep). }
    destruct (lookup_lt_is_Some_2 (rows (page s)) i) as [r Hr].
    { rewrite <- Hlen. eapply lookup_lt_Some, Hr2. }
    pose proof (verify_success_terminal s e s1 i r
                  (reachable_Inv p s Hreach) Hr Hsucc Hstep) as Ht.
    destruct (run_terminal i es s1 s2 Ht Hrun) as [_ Hq].
    destruct (Hq r2 Hr2) as [Hv [Hrec _]]. split; assumption.
Qed.

Lemma verify_needs_record_then_terminal_witness :
  (exists es1 e es2 s1,
      take 5 full_run = es1 ++ e :: es2 /\
      run (init page0) es1 = Some s1 /\
      succeeds record_fingerprint 0 s1 e) /\
  (exists s2 r2,
      run (init page0) (full_run ++ [ClickOther; CookieChange ""]) = Some s2 /\
      rows (page s2) !! 0 = Some r2 /\
      verifyBtn r2 = Some true /\ ~ enabled (recordBtn r2)).
Proof.
  destruct (verify_needs_record_then_terminal page0 0) as (_ & Hrec & Hterm).
  split.
  - eapply (Hrec (take 5 full_run) _ row42).
    + vm_compute. reflexivity.
    + reflexivity.
    + vm_compute. reflexivity.
    + unfold enabled. simpl. discriminate.
    + reflexivity.
  - do 2 eexists.
    split; [vm_compute; reflexivity|].
    split; [vm_compute; reflexivity|].
    eapply (Hterm _ (Response 0 (Parsed verified_ok)) _
                  [ClickOther; CookieChange ""]).
    + exists (take 7 full_run). vm_compute. reflexivity.
    + exists 0, verified_ok. split; [reflexivity|split; reflexivity].
    + vm_compute. reflexivity.
    + vm_compute. reflexivity.
    + vm_compute. reflexivity.
Defined.

(** ** One action per button (C9) *)

Lemma click_turn s a i s' :
  step s (Click a (Some i)) = Some s' -> attached s = true ->
  exists r, rows (page s) !! i = Some r /\ button a r = Some false /\
            s' = action_click a i r s.
Proof.
  unfold step. destruct (reloaded s); [discriminate|].
  destruct (rows (page s) !! i) as [r|]; [|discriminate].
  destruct (button a r) as [[]|] eqn:Eb; try discriminate.
  intros H Ha. rewrite Ha in H. injection H as <-.
  exists r. auto.
Qed.

(** C9.  A click on the record or verify button of row [i] disables
    that button in the same turn in which the handler starts its first
    wait (the 1500 ms timer), before any other event is handled.  Hence,
    in every reachable state in which an action started by that button
    is still pending, the browser cannot deliver another click to the
    button, and the row has exactly one action in flight. *)
Theorem second_click_impossible (p : Page) (a : action) (i : nat) :
  (forall s s',
      step s (Click a (Some i)) = Some s' -> attached s = true ->
      exists r' pid role,
        rows (page s') !! i = Some r' /\ button a r' = Some true /\
        pending s' = pending s ++ [Timer 1500 (AfterDelay a i pid role)]) /\
  (forall s t,
      reachable p s -> t ∈ pending s -> task_action t = Some (a, i) ->
      step s (Click a (Some i)) = None /\ inflight i (pending s) = 1).
Proof.
  split.
  - intros s s' H Ha.
    destruct (click_turn s a i s' H Ha) as (r & Hr & Hb & ->).
    exists (click_row a r), (participantId r), (participantRole r).
    split; [|split].
    + unfold action_click. simpl. rewrite list_lookup_alter_eq, Hr. reflexivity.
    + apply click_row_button, Hb.
    + reflexivity.
  - intros s t Hreach Hin Ha.
    pose proof (reachable_in_range p s Hreach t a i Hin Ha) as Hlt.
    destruct (lookup_lt_is_Some_2 _ _ Hlt) as [r Hr].
    destruct (reachable_Inv p s Hreach i r Hr) as [Hn Hq].
    destruct (Hq t a Hin Ha) as [Hb _].
    split.
    + unfold step. destruct (reloaded s); [reflexivity|].
      rewrite Hr, Hb. reflexivity.
    + pose proof (inflight_pos i _ t Hin (concerns_action t a i Ha)). lia.
Qed.

Lemma second_click_impossible_witness :
  exists s,
    run (init page0) (take 3 full_run) = Some s /\
    step s (Click record_fingerprint (Some 0)) = None /\
    inflight 0 (pending s) = 1.
Proof.
  eexists. split; [vm_compute; reflexivity|].
  destruct (second_click_impossible page0 record_fingerprint 0) as [_ H].
  eapply (H _ (Timer 1500 (AfterDelay record_fingerprint 0 (Some "42")
                                      (Some "trainee")))).
  - exists (take 3 full_run). vm_compute. reflexivity.
  - simpl. left.
  - reflexivity.
Defined.

(** ** Trimming and lower case *)

Lemma append_empty_r s : s +:+ "" = s.
Proof.
  induction s as [|c s IH]; [reflexivity|].
  change (String c (s +:+ "") = String c s). f_equal. exact IH.
Qed.

Lemma append_cons c s x : String c s +:+ x = String c (s +:+ x).
Proof. reflexivity. Qed.

Lemma is_ws_lower c : is_ws (lower_char c) = is_ws c.
Proof.
  destruct c as [[] [] [] [] [] [] [] []]; reflexivity.
Qed.

Lemma toLowerCase_trimStart s :
  toLowerCase (trimStart s) = trimStart (toLowerCase s).
Proof.
  induction s as [|c s IH]; simpl; [reflexivity|].
  rewrite is_ws_lower. destruct (is_ws c); [exact IH|reflexivity].
Qed.

Lemma toLowerCase_trimEnd s :
  toLowerCase (trimEnd s) = trimEnd (toLowerCase s).
Proof.
  induction s as [|c s IH]; simpl; [reflexivity|].
  rewrite <- IH, is_ws_lower.
  destruct (trimEnd s) as [|d u]; simpl.
  - destruct (is_ws c); reflexivity.
  - reflexivity.
Qed.

Lemma toLowerCase_trim s : toLowerCase (trim s) = trim (toLowerCase s).
Proof.
  unfold trim. rewrite toLowerCase_trimEnd, toLowerCase_trimStart.
  reflexivity.
Qed.

Lemma trimStart_blank w : is_blank w = true -> trimStart w = "".
Proof.
  unfold is_blank. induction w as [|c w IH]; simpl; [reflexivity|].
  intros H. apply andb_true_iff in H as [Hc Hw]. rewrite Hc. exact (IH Hw).
Qed.

Lemma trimEnd_blank w : is_blank w = true -> trimEnd w = "".
Proof.
  unfold is_blank. induction w as [|c w IH]; simpl; [reflexivity|].
  intros H. apply andb_true_iff in H as [Hc Hw].
  rewrite (IH Hw), Hc. reflexivity.
Qed.

Lemma trimEnd_app_blank s w :
  is_blank w = true -> trimEnd (s +:+ w) = trimEnd s.
Proof.
  intros Hw. induction s as [|c s IH].
  - exact (trimEnd_blank w Hw).
  - rewrite append_cons. simpl. rewrite IH. reflexivity.
Qed.

Lemma trimStart_app_blank w s :
  is_blank w = true -> trimStart (w +:+ s) = trimStart s.
Proof.
  unfold is_blank. induction w as [|c w IH]; [reflexivity|].
  intros H. simpl in H. apply andb_true_iff in H as [Hc Hw].
  rewrite append_cons. simpl. rewrite Hc. exact (IH Hw).
Qed.

Lemma trim_app_blank s w : is_blank w = true -> trim (s +:+ w) = trim s.
Proof.
  intros Hw. unfold trim. induction s as [|c s IH].
  - change ("" +:+ w) with w. rewrite (trimStart_blank w Hw). reflexivity.
  - rewrite append_cons. simpl. destruct (is_ws c); [exact IH|].
    rewrite <- append_cons. apply trimEnd_app_blank, Hw.
Qed.

Lemma trim_padded w1 t w2 :
  is_blank w1 = true -> is_blank w2 = true ->
  trim (w1 +:+ t +:+ w2) = trim t.
Proof.
  intros H1 H2. unfold trim at 1.
  rewrite (trimStart_app_blank w1 _ H1).
  apply (trim_app_blank t w2 H2).
Qed.

Lemma trimStart_split s :
  exists w, s = w +:+ trimStart s /\ is_blank w = true.
Proof.
  induction s as [|c s (w & Hw & Hb)]; simpl.
  - exists "". split; reflexivity.
  - destruct (is_ws c) eqn:E.
    + exists (String c w). rewrite append_cons, <- Hw.
      split; [reflexivity|]. unfold is_blank in *. simpl. rewrite E. exact Hb.
    + exists "". split; reflexivity.
Qed.

Lemma trimEnd_split s :
  exists w, s = trimEnd s +:+ w /\ is_blank w = true.
Proof.
  induction s as [|c s (w & Hw & Hb)]; simpl.
  - exists "". split; reflexivity.
  - destruct (trimEnd s) as [|d u] eqn:E.
    + change ("" +:+ w) with w in Hw. subst w.
      destruct (is_ws c) eqn:Ec.
      * exists (String c s). split; [reflexivity|].
        unfold is_blank in *. simpl. rewrite Ec. exact Hb.
      * exists s. split; [reflexivity|exact Hb].
    + exists w. rewrite append_cons, <- Hw. split; [reflexivity|exact Hb].
Qed.

Lemma trim_split s :
  exists w1 w2,
    s = w1 +:+ trim s +:+ w2 /\ is_blank w1 = true /\ is_blank w2 = true.
Proof.
  destruct (trimStart_split s) as (w1 & H1 & Hb1).
  destruct (trimEnd_split (trimStart s)) as (w2 & H2 & Hb2).
  exists w1, w2. unfold trim. rewrite <- H2. auto.
Qed.

Lemma lower_char_letters c :
  Ascii.eqb (lower_char c) "v" = letter "v" "V" c /\
  Ascii.eqb (lower_char c) "e" = letter "e" "E" c /\
  Ascii.eqb (lower_char c) "r" = letter "r" "R" c /\
  Ascii.eqb (lower_char c) "i" = letter "i" "I" c /\
  Ascii.eqb (lower_char c) "f" = letter "f" "F" c /\
  Ascii.eqb (lower_char c) "d" = letter "d" "D" c.
Proof.
  destruct c as [[] [] [] [] [] [] [] []]; vm_compute; repeat split.
Qed.

Lemma verified_word_lower w :
  String.eqb (toLowerCase w) "verified" = verified_word w.
Proof.
  destruct w as [|c1 [|c2 [|c3 [|c4 [|c5 [|c6 [|c7 [|c8 [|c9 w]]]]]]]]];
    try reflexivity; simpl;
    repeat match goal with
           | |- context [Ascii.eqb (lower_char ?c) _] =>
               let H1 := fresh in let H2 := fresh in let H3 := fresh in
               let H4 := fresh in let H5 := fresh in let H6 := fresh in
               destruct (lower_char_letters c) as (H1 & H2 & H3 & H4 & H5 & H6);
               rewrite ?H1, ?H2, ?H3, ?H4, ?H5, ?H6;
               clear H1 H2 H3 H4 H5 H6
           end;
    repeat match goal with
           | |- context [letter ?a ?b ?c] => destruct (letter a b c); simpl
           end; reflexivity.
Qed.

(** The label test of the scan is the one of the specification. *)
Lemma reads_as_verified_trim t :
  toLowerCase (trim t) = "verified" <-> reads_as_verified t.
Proof.
  split.
  - intros H. destruct (trim_split t) as (w1 & w2 & Ht & H1 & H2).
    exists w1, (trim t), w2. repeat split; try assumption.
    rewrite <- verified_word_lower. apply String.eqb_eq, H.
  - intros (w1 & w & w2 & -> & H1 & H2 & Hw).
    rewrite (trim_padded w1 w w2 H1 H2), toLowerCase_trim.
    rewrite <- verified_word_lower in Hw. apply String.eqb_eq in Hw.
    rewrite Hw. reflexivity.
Qed.

Lemma all_read_verified_scan l : all_read_verified l <-> all_verified l.
Proof.
  unfold all_read_verified, all_verified. rewrite !Forall_forall.
  split; intros H r Hin; destruct (H r Hin) as (t & Ht & Hv);
    exists t; (split; [exact Ht|]); apply reads_as_verified_trim, Hv.
Qed.

Lemma reads_as_verified_word w :
  verified_word w = true -> reads_as_verified w.
Proof.
  intros H. exists "", w, "". rewrite append_empty_r.
  split; [reflexivity|]. split; [reflexivity|]. split; [reflexivity|exact H].
Qed.

Lemma reads_as_verified_not t :
  String.eqb (toLowerCase (trim t)) "verified" = false ->
  ~ reads_as_verified t.
Proof.
  intros H Hv. apply reads_as_verified_trim in Hv.
  apply String.eqb_neq in H. contradiction.
Qed.

Lemma scanned_visited l i : scanned l i <-> visited l i.
Proof.
  unfold scanned, visited. rewrite all_read_verified_scan. reflexivity.
Qed.

(** ** The scan of the verify handler *)

Lemma reads_verified_true r :
  reads_verified r = Some true <->
  exists t, ekyc_status r = Some t /\ toLowerCase (trim t) = "verified".
Proof.
  unfold reads_verified. destruct (ekyc_status r) as [t|].
  - split.
    + intros [= H]. exists t. split; [reflexivity|]. apply String.eqb_eq, H.
    + intros (t' & [= <-] & H). f_equal. apply String.eqb_eq, H.
  - split; [discriminate|]. intros (t & H & _). discriminate.
Qed.

Lemma reads_verified_None r : reads_verified r = None <-> ekyc_status r = None.
Proof.
  unfold reads_verified. destruct (ekyc_status r); split; congruence.
Qed.

Lemma every_all_verified l :
  every reads_verified l = Some true <-> all_verified l.
Proof.
  unfold all_verified. induction l as [|r l IH]; simpl.
  - split; [constructor|reflexivity].
  - destruct (reads_verified r) as [[]|] eqn:E.
    + rewrite IH. split.
      * intros H. constructor; [apply reads_verified_true, E|exact H].
      * intros H. inversion H. assumption.
    + split; [discriminate|]. intros H. inversion H as [|? ? Hr _]; subst.
      apply reads_verified_true in Hr. congruence.
    + split; [discriminate|]. intros H. inversion H as [|? ? Hr _]; subst.
      apply reads_verified_true in Hr. congruence.
Qed.

(** The scan throws exactly when a row it visits has no status label. *)
Lemma every_throws l :
  every reads_verified l = None <->
  exists j rj, scanned l j /\ l !! j = Some rj /\ ekyc_status rj = None.
Proof.
  setoid_rewrite scanned_visited.
  unfold visited, all_verified. induction l as [|r l IH]; simpl.
  - split; [discriminate|]. intros (j & rj & _ & H & _). discriminate.
  - destruct (reads_verified r) as [[]|] eqn:E.
    + rewrite IH. split.
      * intros (j & rj & [Hlt Hall] & Hj & Hn).
        exists (S j), rj. simpl. repeat split; try assumption; [lia|].
        constructor; [apply reads_verified_true, E|exact Hall].
      * intros ([|j] & rj & [Hlt Hall] & Hj & Hn); simpl in *.
        -- injection Hj as ->. apply reads_verified_None in Hn. congruence.
        -- exists j, rj. inversion Hall; subst.
           repeat split; try assumption. lia.
    + split; [discriminate|].
      intros ([|j] & rj & [Hlt Hall] & Hj & Hn); simpl in *.
      * injection Hj as ->. apply reads_verified_None in Hn. congruence.
      * inversion Hall as [|? ? Hr _]; subst.
        apply reads_verified_true in Hr. congruence.
    + split; [|reflexivity]. intros _. exists 0, r. simpl.
      repeat split; [lia|constructor|apply reads_verified_None, E].
Qed.

Lemma every_alter_caption txt i l :
  every reads_verified (alter (set_actionStatus txt) i l) =
  every reads_verified l.
Proof.
  revert i. induction l as [|r l IH]; intros [|i]; simpl; try reflexivity.
  change (list_alter (set_actionStatus txt) i l)
    with (alter (set_actionStatus txt) i l).
  rewrite IH. reflexivity.
Qed.

(** ** The record response (C2, C3) *)

Lemma response_step s k o a i :
  reloaded s = false -> pending s !! k = Some (Fetching a i) ->
  step s (Response k o) =
  Some (action_response a i o (with_pending (delete k (pending s)) s)).
Proof.
  intros Hr Hk. unfold step. rewrite Hr, Hk. reflexivity.
Qed.

Lemma status_value_label data dflt :
  status_value data dflt = label_of data dflt.
Proof.
  unfold status_value, label_of, js_or.
  destruct (truthy (get data "status_display")) eqn:E1;
    [rewrite E1; reflexivity|].
  destruct (truthy (get data "status")) eqn:E2; reflexivity.
Qed.

(** While an action is in flight on a row, its own button is disabled
    and the other one cannot be clicked. *)
Lemma fetching_buttons p s k a i r :
  reachable p s -> pending s !! k = Some (Fetching a i) ->
  rows (page s) !! i = Some r ->
  button a r = Some true /\ quiet r.
Proof.
  intros Hreach Hk Hr.
  destruct (reachable_Inv p s Hreach i r Hr) as [_ Hq].
  apply (Hq (Fetching a i) a); [|reflexivity].
  eapply list_elem_of_lookup_2, Hk.
Qed.

Lemma assign_assign {A} (v w : A) (o : option A) :
  assign v (assign w o) = assign v o.
Proof. destruct o; reflexivity. Qed.

(** C2, as the script has it.  When the response to a record action
    parses to JSON with a truthy [success], the label value is
    [status_display] if that is truthy, else [status] if that is truthy,
    else the literal "Recorded".  When that value converts to text, the
    handler sets the row's status label to the text, sets the
    action-status caption to " Fingerprint recorded" and enables the
    row's verify button; the record button stays disabled. *)
Theorem record_success (p : Page) (s : State) (k i : nat) (data : jsval)
    (r : Row) (txt : string) :
  reachable p s -> reloaded s = false ->
  pending s !! k = Some (Fetching record_fingerprint i) ->
  rows (page s) !! i = Some r ->
  succeeded data = true ->
  toString (label_of data "Recorded") = Some txt ->
  exists s' r',
    step s (Response k (Parsed data)) = Some s' /\
    rows (page s') !! i = Some r' /\
    ekyc_status r' = assign txt (ekyc_status r) /\
    actionStatus r' = assign " Fingerprint recorded" (actionStatus r) /\
    verifyBtn r' = assign false (verifyBtn r) /\
    recordBtn r' = Some true.
Proof.
  intros Hreach Hrl Hk Hr Hs Htxt.
  destruct (fetching_buttons p s k _ i r Hreach Hk Hr) as [Hb _].
  simpl in Hb.
  exists (action_response record_fingerprint i (Parsed data)
            (with_pending (delete k (pending s)) s)).
  exists (record_response_row (Parsed data) r).
  split; [apply response_step; assumption|].
  split.
  - simpl. rewrite list_lookup_alter_eq, Hr. reflexivity.
  - simpl. unfold record_try. rewrite Hs, status_value_label.
    rewrite (write_label_text _ r txt Htxt). simpl. auto.
Qed.

Lemma reachable_recording : reachable page0 recording.
Proof. exists (take 4 full_run). vm_compute. reflexivity. Qed.

Lemma reachable_verifying : reachable page0 verifying.
Proof. exists (take 7 full_run). vm_compute. reflexivity. Qed.

Lemma reachable_verifying_bare : reachable page_bare verifying_bare.
Proof. exists (take 7 full_run). vm_compute. reflexivity. Qed.

Lemma record_success_witness :
  exists s' r',
    step recording (Response 0 (Parsed recorded_ok)) = Some s' /\
    rows (page s') !! 0 = Some r' /\
    ekyc_status r' = Some "Recorded" /\
    actionStatus r' = Some " Fingerprint recorded" /\
    verifyBtn r' = Some false /\
    recordBtn r' = Some true.
Proof.
  eapply (record_success page0 recording 0 0 recorded_ok
            (mkRow (Some "42") (Some "trainee") (Some "Pending")
                   (Some " Recording...") (Some true) (Some true))
            "Recorded").
  - exact reachable_recording.
  - reflexivity.
  - reflexivity.
  - reflexivity.
  - reflexivity.
  - reflexivity.
Defined.

(** The wording of C2 fails on the script in two ways.  With an empty
    [status_display] in the response the field is present, and the label
    becomes the [status] instead.  And with a [status_display] that has
    no text the assignment to the label throws: the label stays as it
    was, the caption becomes " Error" and the verify button stays
    disabled. *)
Lemma record_label_skips_empty_display :
  (succeeded empty_display = true /\
   get empty_display "status_display" = JStr "" /\
   toString (spec_status_value empty_display "Recorded") = Some "" /\
   exists s' r r',
     rows (page recording) !! 0 = Some r /\
     step recording (Response 0 (Parsed empty_display)) = Some s' /\
     rows (page s') !! 0 = Some r' /\
     ekyc_status r' = Some "RECORDED" /\
     ekyc_status r' <> assign "" (ekyc_status r)) /\
  (succeeded recorded_no_text = true /\
   spec_status_value recorded_no_text "Recorded" = no_text /\
   exists s' r r',
     rows (page recording) !! 0 = Some r /\
     step recording (Response 0 (Parsed recorded_no_text)) = Some s' /\
     rows (page s') !! 0 = Some r' /\
     ekyc_status r' = ekyc_status r /\
     actionStatus r' = Some " Error" /\
     actionStatus r' <> Some " Fingerprint recorded" /\
     verifyBtn r' = Some true).
Proof.
  split.
  - split; [reflexivity|]. split; [reflexivity|]. split; [reflexivity|].
    do 3 eexists.
    split; [vm_compute; reflexivity|].
    split; [vm_compute; reflexivity|].
    split; [vm_compute; reflexivity|].
    split; [reflexivity|].
    vm_compute. discriminate.
  - split; [reflexivity|]. split; [reflexivity|].
    do 3 eexists.
    split; [vm_compute; reflexivity|].
    split; [vm_compute; reflexivity|].
    split; [vm_compute; reflexivity|].
    split; [reflexivity|].
    split; [reflexivity|].
    split; [discriminate|reflexivity].
Qed.

(** C3, as the script has it.  When a record action fails, the handler
    sets the row's action-status caption to " Failed" when the parsed
    JSON has a falsy [success] and the value [data && data.error] that
    it logs converts to text, and to " Error" when an exception is
    thrown: by the fetch or the JSON decoding, or by the conversion of
    that value.  In every case it changes neither button of the row, so
    neither is enabled afterwards, and it does not change the row's
    status label. *)
Theorem record_failure (p : Page) (s : State) (k i : nat) (o : outcome)
    (r : Row) :
  reachable p s -> reloaded s = false ->
  pending s !! k = Some (Fetching record_fingerprint i) ->
  rows (page s) !! i = Some r ->
  (o = Threw \/ exists data, o = Parsed data /\ succeeded data = false) ->
  exists s' r',
    step s (Response k o) = Some s' /\
    rows (page s') !! i = Some r' /\
    actionStatus r' =
      assign (match o with
              | Threw => " Error"
              | Parsed data =>
                  match toString (if truthy data then get data "error"
                                  else data) with
                  | Some _ => " Failed"
                  | None => " Error"
                  end
              end)
             (actionStatus r) /\
    recordBtn r' = recordBtn r /\ verifyBtn r' = verifyBtn r /\
    ~ enabled (recordBtn r') /\ ~ enabled (verifyBtn r') /\
    ekyc_status r' = ekyc_status r.
Proof.
  intros Hreach Hrl Hk Hr Ho.
  destruct (fetching_buttons p s k _ i r Hreach Hk Hr) as [_ [Hq1 Hq2]].
  exists (action_response record_fingerprint i o
            (with_pending (delete k (pending s)) s)).
  exists (record_response_row o r).
  split; [apply response_step; assumption|].
  split.
  - simpl. rewrite list_lookup_alter_eq, Hr. reflexivity.
  - destruct Ho as [->|(data & -> & Hs)]; simpl.
    + repeat split; assumption.
    + unfold record_try. rewrite Hs.
      unfold failure_row, failure_message, js_and, catch.
      destruct (toString (if truthy data then get data "error" else data));
        simpl; rewrite ?assign_assign; repeat split; assumption.
Qed.

Lemma record_failure_witness :
  (exists s' r',
      step recording (Response 0 (Parsed refused)) = Some s' /\
      rows (page s') !! 0 = Some r' /\
      actionStatus r' = Some " Failed" /\
      recordBtn r' = Some true /\ verifyBtn r' = Some true /\
      ~ enabled (recordBtn r') /\ ~ enabled (verifyBtn r') /\
      ekyc_status r' = Some "Pending") /\
  (exists s' r',
      step recording (Response 0 (Parsed refused_no_text)) = Some s' /\
      rows (page s') !! 0 = Some r' /\
      actionStatus r' = Some " Error" /\
      recordBtn r' = Some true /\ verifyBtn r' = Some true /\
      ~ enabled (recordBtn r') /\ ~ enabled (verifyBtn r') /\
      ekyc_status r' = Some "Pending").
Proof.
  split.
  - eapply (record_failure page0 recording 0 0 (Parsed refused)
              (mkRow (Some "42") (Some "trainee") (Some "Pending")
                     (Some " Recording...") (Some true) (Some true))).
    + exact reachable_recording.
    + reflexivity.
    + reflexivity.
    + reflexivity.
    + right. exists refused. split; reflexivity.
  - eapply (record_failure page0 recording 0 0 (Parsed refused_no_text)
              (mkRow (Some "42") (Some "trainee") (Some "Pending")
                     (Some " Recording...") (Some true) (Some true))).
    + exact reachable_recording.
    + reflexivity.
    + reflexivity.
    + reflexivity.
    + right. exists refused_no_text. split; reflexivity.
Defined.

(** The wording of C3 fails on the script: a refused record action whose
    [error] has no text ends with the caption " Error", not " Failed",
    although [success] is falsy and neither the fetch nor the JSON
    decoding threw. *)
Lemma record_refusal_without_text_shows_error :
  succeeded refused_no_text = false /\
  get refused_no_text "error" = no_text /\
  toString no_text = None /\
  exists s' r',
    step recording (Response 0 (Parsed refused_no_text)) = Some s' /\
    rows (page s') !! 0 = Some r' /\
    actionStatus r' = Some " Error" /\
    actionStatus r' <> Some " Failed".
Proof.
  split; [reflexivity|]. split; [reflexivity|]. split; [reflexivity|].
  do 2 eexists.
  split; [vm_compute; reflexivity|].
  split; [vm_compute; reflexivity|].
  split; [reflexivity|discriminate].
Qed.

(** ** The verify response (C4, C5, C10) *)

Lemma verify_update_text data r txt :
  toString (label_of data "Verified") = Some txt ->
  verify_update data r =
  (set_verifyBtn true
     (set_recordBtn true
        (set_actionStatus " Verified" (set_ekyc_status txt r))), false).
Proof.
  intros H. unfold verify_update. rewrite status_value_label.
  rewrite (write_label_text _ r txt H). reflexivity.
Qed.

Lemma verify_success_row_text data r txt :
  toString (label_of data "Verified") = Some txt ->
  verify_success_row data r =
  set_verifyBtn true
    (set_recordBtn true
       (set_actionStatus " Verified" (set_ekyc_status txt r))).
Proof.
  intros H. unfold verify_success_row.
  rewrite (verify_update_text data r txt H). reflexivity.
Qed.

Lemma verify_update_completes data i s txt :
  toString (label_of data "Verified") = Some txt ->
  verify_update_threw data i s = false.
Proof.
  intros H. unfold verify_update_threw.
  destruct (rows (page s) !! i) as [r|]; [|reflexivity].
  rewrite (verify_update_text data r txt H). reflexivity.
Qed.

(** The state after a verify response with a truthy [success]: by the
    result of the scan when lines 75-78 completed, and the caption of
    the [catch] when they threw. *)
Lemma verify_success_state i data s :
  succeeded data = true ->
  let s1 := with_page (on_row i (verify_success_row data) (page s)) s in
  verify_response i (Parsed data) s =
  if verify_update_threw data i s
  then with_page (on_row i (set_actionStatus " Error") (page s1)) s1
  else
    match every reads_verified (rows (page s1)) with
    | Some true =>
        spawn [Timer 900 Reload] (with_page (set_doneMsg "block" (page s1)) s1)
    | Some false => s1
    | None => with_page (on_row i (set_actionStatus " Error") (page s1)) s1
    end.
Proof.
  intros Hs. unfold verify_response. rewrite Hs. reflexivity.
Qed.

(** The rows after the response are those the scan saw, but for the
    caption of the [catch]; the scan reads no caption. *)
Lemma verify_success_scan i data s :
  succeeded data = true ->
  every reads_verified (rows (page (verify_response i (Parsed data) s))) =
  every reads_verified (alter (verify_success_row data) i (rows (page s))).
Proof.
  intros Hs. rewrite (verify_success_state i data s Hs). simpl.
  destruct (verify_update_threw data i s); simpl;
    [apply every_alter_caption|].
  destruct (every reads_verified
              (alter (verify_success_row data) i (rows (page s))))
    as [[]|] eqn:E; simpl; rewrite ?every_alter_caption; exact E.
Qed.

Lemma scan_not_thrown l :
  (forall j rj, scanned l j -> l !! j = Some rj -> ekyc_status rj <> None) ->
  every reads_verified l <> None.
Proof.
  intros H E. apply every_throws in E as (j & rj & Hsc & Hj & Hn).
  exact (H j rj Hsc Hj Hn).
Qed.

(** C4, as the script has it.  When the response to a verify action
    parses to JSON with a truthy [success], the label value is
    [status_display] if that is truthy, else [status] if that is truthy,
    else the literal "Verified".  When that value converts to text, the
    handler sets the row's status label to the text and leaves both
    buttons of the row disabled; and when every row that the scan of the
    table visits has a status label, the row's action-status caption is
    " Verified". *)
Theorem verify_success (p : Page) (s : State) (k i : nat) (data : jsval)
    (r : Row) (txt : string) :
  reachable p s -> reloaded s = false ->
  pending s !! k = Some (Fetching verify_ekyc i) ->
  rows (page s) !! i = Some r ->
  succeeded data = true ->
  toString (label_of data "Verified") = Some txt ->
  exists s' r',
    step s (Response k (Parsed data)) = Some s' /\
    rows (page s') !! i = Some r' /\
    ekyc_status r' = assign txt (ekyc_status r) /\
    verifyBtn r' = Some true /\
    recordBtn r' = assign true (recordBtn r) /\
    ~ enabled (recordBtn r') /\
    ((forall j rj, scanned (rows (page s')) j ->
                   rows (page s') !! j = Some rj -> ekyc_status rj <> None) ->
     actionStatus r' = assign " Verified" (actionStatus r)).
Proof.
  intros Hreach Hrl Hk Hr Hs Htxt.
  destruct (fetching_buttons p s k _ i r Hreach Hk Hr) as [Hb _].
  simpl in Hb.
  set (s0 := with_pending (delete k (pending s)) s).
  exists (action_response verify_ekyc i (Parsed data) s0).
  pose proof (verify_success_scan i data s0 Hs) as Hscan.
  pose proof (verify_success_lookup i data s0 r Hs Hr) as Hrow.
  unfold action_response.
  change (rows (page s0)) with (rows (page s)) in Hscan, Hrow.
  rewrite (verify_update_text data r txt Htxt) in Hrow.
  rewrite (verify_success_row_text data r txt Htxt) in Hrow.
  simpl in Hrow.
  eexists.
  split; [apply (response_step s k (Parsed data) verify_ekyc i); assumption|].
  split; [exact Hrow|].
  destruct (every reads_verified
              (alter (verify_success_row data) i (rows (page s))))
    as [b|] eqn:E; simpl; rewrite Hb; simpl.
  - repeat split; try apply assign_true_not_enabled.
  - repeat split; try apply assign_true_not_enabled.
    intros Hall. exfalso. apply scan_not_thrown in Hall.
    apply Hall. rewrite Hscan. reflexivity.
Qed.

Lemma verify_success_witness :
  exists s' r',
    step verifying (Response 0 (Parsed verified_raw)) = Some s' /\
    rows (page s') !! 0 = Some r' /\
    ekyc_status r' = Some "VERIFIED" /\
    verifyBtn r' = Some true /\
    recordBtn r' = Some true /\
    ~ enabled (recordBtn r') /\
    ((forall j rj, scanned (rows (page s')) j ->
                   rows (page s') !! j = Some rj -> ekyc_status rj <> None) ->
     actionStatus r' = Some " Verified").
Proof.
  eapply (verify_success page0 verifying 0 0 verified_raw
            (mkRow (Some "42") (Some "trainee") (Some "Recorded")
                   (Some " Verifying...") (Some true) (Some true))
            "VERIFIED").
  - exact reachable_verifying.
  - reflexivity.
  - reflexivity.
  - reflexivity.
  - reflexivity.
  - reflexivity.
Defined.

(** The wording of C4 fails on the script in three ways.  With an empty
    [status_display] in the response the label becomes the [status]; on
    a table whose second row has no status label the scan throws after a
    successful verify of the first row, and the caption of that row ends
    as " Error"; and with a [status_display] that has no text the
    assignment to the label throws, the label stays as it was and the
    caption ends as " Error". *)
Lemma verify_label_and_caption_differ :
  (succeeded verified_empty_display = true /\
   get verified_empty_display "status_display" = JStr "" /\
   toString (spec_status_value verified_empty_display "Verified") = Some "" /\
   exists s' r r',
     rows (page verifying) !! 0 = Some r /\
     step verifying (Response 0 (Parsed verified_empty_display)) = Some s' /\
     rows (page s') !! 0 = Some r' /\
     ekyc_status r' = Some "VERIFIED" /\
     ekyc_status r' <> assign "" (ekyc_status r)) /\
  (succeeded verified_ok = true /\
   exists s' r',
     step verifying_bare (Response 0 (Parsed verified_ok)) = Some s' /\
     rows (page s') !! 0 = Some r' /\
     actionStatus r' = Some " Error" /\
     actionStatus r' <> Some " Verified") /\
  (succeeded recorded_no_text = true /\
   spec_status_value recorded_no_text "Verified" = no_text /\
   exists s' r r',
     rows (page verifying) !! 0 = Some r /\
     step verifying (Response 0 (Parsed recorded_no_text)) = Some s' /\
     rows (page s') !! 0 = Some r' /\
     ekyc_status r' = ekyc_status r /\
     actionStatus r' = Some " Error" /\
     actionStatus r' <> Some " Verified").
Proof.
  split; [|split].
  - split; [reflexivity|]. split; [reflexivity|]. split; [reflexivity|].
    do 3 eexists.
    split; [vm_compute; reflexivity|].
    split; [vm_compute; reflexivity|].
    split; [vm_compute; reflexivity|].
    split; [reflexivity|].
    vm_compute. discriminate.
  - split; [reflexivity|].
    do 2 eexists.
    split; [vm_compute; reflexivity|].
    split; [vm_compute; reflexivity|].
    split; [reflexivity|].
    vm_compute. discriminate.
  - split; [reflexivity|]. split; [reflexivity|].
    do 3 eexists.
    split; [vm_compute; reflexivity|].
    split; [vm_compute; reflexivity|].
    split; [vm_compute; reflexivity|].
    split; [reflexivity|].
    split; [reflexivity|discriminate].
Qed.

(** C5, as the script has it.  After the response to a verify action
    with a truthy [success] whose label value converts to text, so that
    the handler reaches the scan of the table: the done-message element
    (when the page has one) is made visible and the reload is scheduled
    on a 900 ms timer if and only if every row of the participants table
    has a status label whose trimmed and lower-cased text is "verified",
    that is the word in any mix of cases between white space; otherwise
    the done message is left as it was and no timer is added. *)
Theorem done_iff_all_verified (s : State) (k i : nat) (data : jsval)
    (txt : string) :
  reloaded s = false ->
  pending s !! k = Some (Fetching verify_ekyc i) ->
  succeeded data = true ->
  toString (label_of data "Verified") = Some txt ->
  exists s',
    step s (Response k (Parsed data)) = Some s' /\
    (all_read_verified (rows (page s')) <->
     doneMsg (page s') = assign "block" (doneMsg (page s)) /\
     pending s' = delete k (pending s) ++ [Timer 900 Reload]) /\
    (~ all_read_verified (rows (page s')) ->
     doneMsg (page s') = doneMsg (page s) /\
     pending s' = delete k (pending s)).
Proof.
  intros Hrl Hk Hs Htxt.
  set (s0 := with_pending (delete k (pending s)) s).
  exists (verify_response i (Parsed data) s0).
  split; [apply (response_step s k (Parsed data) verify_ekyc i Hrl Hk)|].
  pose proof (verify_success_scan i data s0 Hs) as Hscan.
  rewrite all_read_verified_scan, <- every_all_verified, Hscan.
  rewrite (verify_success_state i data s0 Hs).
  rewrite (verify_update_completes data i s0 txt Htxt). simpl.
  destruct (every reads_verified
              (alter (verify_success_row data) i (rows (page s))))
    as [[]|]; simpl.
  - split; [|intros Hn; exfalso; apply Hn; reflexivity].
    split; auto.
  - split; [|auto].
    split; [discriminate|]. intros [_ Hp]. exfalso.
    apply (f_equal length) in Hp. rewrite length_app in Hp. simpl in Hp. lia.
  - split; [|auto].
    split; [discriminate|]. intros [_ Hp]. exfalso.
    apply (f_equal length) in Hp. rewrite length_app in Hp. simpl in Hp. lia.
Qed.

Lemma done_iff_all_verified_witness :
  exists s',
    step verifying_padded (Response 0 (Parsed verified_raw)) = Some s' /\
    rows (page s') =
      [mkRow (Some "42") (Some "trainee") (Some "VERIFIED")
             (Some " Verified") (Some true) (Some true); row_padded] /\
    every reads_verified (rows (page s')) = Some true /\
    all_read_verified (rows (page s')) /\
    doneMsg (page s') = Some "block" /\
    pending s' = [Timer 900 Reload].
Proof.
  destruct (done_iff_all_verified verifying_padded 0 0 verified_raw "VERIFIED"
              eq_refl eq_refl eq_refl eq_refl) as (s' & Hstep & [Hto _] & _).
  exists s'. split; [exact Hstep|].
  assert (E : step verifying_padded (Response 0 (Parsed verified_raw))
              = Some (state_after page_padded
                        (take 7 full_run ++ [Response 0 (Parsed verified_raw)])))
    by (vm_compute; reflexivity).
  rewrite E in Hstep. injection Hstep as <-.
  assert (Hrows : rows (page (state_after page_padded
                    (take 7 full_run ++ [Response 0 (Parsed verified_raw)])))
                  = [mkRow (Some "42") (Some "trainee") (Some "VERIFIED")
                           (Some " Verified") (Some true) (Some true);
                     row_padded])
    by (vm_compute; reflexivity).
  split; [exact Hrows|].
  split; [vm_compute; reflexivity|].
  assert (Hall : all_read_verified
                   (rows (page (state_after page_padded
                      (take 7 full_run ++ [Response 0 (Parsed verified_raw)]))))).
  { rewrite Hrows. constructor; [|constructor; [|constructor]].
    - exists "VERIFIED". split; [reflexivity|].
      exists "", "VERIFIED", "". repeat split; reflexivity.
    - exists "  VERIFIED ". split; [reflexivity|].
      exists "  ", "VERIFIED", " ". repeat split; reflexivity. }
  split; [exact Hall|]. exact (Hto Hall).
Defined.

(** The wording of C5 fails on the script: on a table whose rows all
    read verified, a verify response with a truthy [success] whose
    [status_display] has no text makes the assignment to the label
    throw before the scan; the done message is not shown and no reload
    is scheduled, although every row reads verified. *)
Lemma no_done_message_when_label_throws :
  succeeded recorded_no_text = true /\
  run (init page_again) [Click verify_ekyc (Some 0); TimerFires 0]
    = Some verifying_again /\
  exists s',
    step verifying_again (Response 0 (Parsed recorded_no_text)) = Some s' /\
    all_read_verified (rows (page s')) /\
    doneMsg (page verifying_again) = Some "none" /\
    doneMsg (page s') = Some "none" /\
    pending s' = [].
Proof.
  split; [reflexivity|]. split; [vm_compute; reflexivity|].
  eexists. split; [vm_compute; reflexivity|].
  split; [|repeat split; reflexivity].
  constructor; [|constructor; [|constructor]].
  - exists "Verified". split; [reflexivity|].
    exists "", "Verified", "". repeat split; reflexivity.
  - exists "Verified". split; [reflexivity|].
    exists "", "Verified", "". repeat split; reflexivity.
Qed.

Lemma reload_timer_reloads s k ms :
  reloaded s = false -> pending s !! k = Some (Timer ms Reload) ->
  exists s', step s (TimerFires k) = Some s' /\ reloaded s' = true.
Proof.
  intros Hr Hk. unfold step. rewrite Hr, Hk. eexists. split; reflexivity.
Qed.

(** C10.  In the success branch of the verify handler, once the row's
    status label has been set from the response, the scan reads the text
    of each row's status label without testing that the label is there.
    When a row [j] that the scan visits has no [.ekyc-status] element,
    the scan throws and the [catch] runs: the action-status caption of
    the verified row [i] ends as " Error", although the response was a
    success and the row's status label has already been set from it; the
    done message is not shown and no reload is scheduled. *)
Theorem scan_throw_overwrites_caption (s : State) (k i j : nat)
    (data : jsval) (r rj : Row) (txt : string) :
  reloaded s = false ->
  pending s !! k = Some (Fetching verify_ekyc i) ->
  rows (page s) !! i = Some r ->
  succeeded data = true ->
  toString (label_of data "Verified") = Some txt ->
  let table :=
    <[i := set_verifyBtn true
             (set_recordBtn true
                (set_actionStatus " Verified" (set_ekyc_status txt r)))]>
      (rows (page s)) in
  scanned table j ->
  table !! j = Some rj ->
  ekyc_status rj = None ->
  exists s' r',
    step s (Response k (Parsed data)) = Some s' /\
    rows (page s') !! i = Some r' /\
    actionStatus r' = assign " Error" (actionStatus r) /\
    ekyc_status r' = assign txt (ekyc_status r) /\
    doneMsg (page s') = doneMsg (page s) /\
    pending s' = delete k (pending s).
Proof.
  intros Hrl Hk Hr Hs Htxt table Hsc Hj Hn.
  assert (Htable : table = alter (verify_success_row data) i (rows (page s))).
  { unfold table. rewrite <- (verify_success_row_text data r txt Htxt).
    symmetry. apply alter_as_insert, Hr. }
  assert (Hthrow : every reads_verified table = None).
  { apply every_throws. exists j, rj. auto. }
  set (s0 := with_pending (delete k (pending s)) s).
  exists (verify_response i (Parsed data) s0).
  eexists.
  split; [apply (response_step s k (Parsed data) verify_ekyc i Hrl Hk)|].
  split; [apply (verify_success_lookup i data s0 r Hs Hr)|].
  rewrite (verify_success_state i data s0 Hs).
  rewrite (verify_update_completes data i s0 txt Htxt).
  rewrite (verify_update_text data r txt Htxt).
  rewrite (verify_success_row_text data r txt Htxt). simpl.
  rewrite <- Htable, Hthrow. simpl.
  split; [destruct (actionStatus r); reflexivity|]. auto.
Qed.

Lemma scan_throw_overwrites_caption_witness :
  exists s' r',
    step verifying_bare (Response 0 (Parsed verified_ok)) = Some s' /\
    rows (page s') !! 0 = Some r' /\
    actionStatus r' = Some " Error" /\
    ekyc_status r' = Some "Verified" /\
    doneMsg (page s') = Some "none" /\
    pending s' = [].
Proof.
  assert (Hsc : scanned
                  (<[0 := set_verifyBtn true
                            (set_recordBtn true
                               (set_actionStatus " Verified"
                                  (set_ekyc_status "Verified"
                                     (mkRow (Some "42") (Some "trainee")
                                            (Some "Recorded")
                                            (Some " Verifying...")
                                            (Some true) (Some true)))))]>
                     (rows (page verifying_bare))) 1).
  { split; [simpl; lia|].
    constructor; [|constructor]. exists "Verified".
    split; [reflexivity|]. apply reads_as_verified_word. reflexivity. }
  exact (scan_throw_overwrites_caption verifying_bare 0 0 1 verified_ok
           (mkRow (Some "42") (Some "trainee") (Some "Recorded")
                  (Some " Verifying...") (Some true) (Some true))
           bare_row "Verified" eq_refl eq_refl eq_refl eq_refl eq_refl Hsc
           eq_refl eq_refl).
Defined.

(** ** Initialization (C6) *)

(** C6, as the script has it.  The endpoint is fixed at initialization
    and never changes afterwards: it is the current page URL when the
    root element is absent, and the root element's [data-endpoint]
    attribute when the root element is present, which is [undefined]
    when the attribute is absent. *)
Theorem endpoint_from_root (p : Page) (s : State) :
  reachable p s ->
  (root p = None -> endpoint s = Some (href p)) /\
  (forall e, root p = Some (Some e) -> endpoint s = Some e) /\
  (root p = Some None -> endpoint s = None).
Proof.
  intros Hreach. rewrite (reachable_endpoint p s Hreach).
  unfold init. simpl.
  split; [|split].
  - intros ->. reflexivity.
  - intros e ->. reflexivity.
  - intros ->. reflexivity.
Qed.

Lemma endpoint_from_root_witness :
  endpoint recording = Some "/tms/ekyc/7/".
Proof.
  destruct (endpoint_from_root page0 recording reachable_recording)
    as (_ & H & _).
  apply H. reflexivity.
Defined.

(** The wording of C6 fails on the script: on a page whose root element
    has no [data-endpoint] attribute the endpoint is [undefined], not
    the page URL. *)
Lemma endpoint_undefined_without_attribute :
  root page_no_attr = Some None /\
  endpoint (init page_no_attr) = None /\
  spec_endpoint page_no_attr = Some "https://tms.example/attendance/7/" /\
  endpoint (init page_no_attr) <> spec_endpoint page_no_attr.
Proof.
  repeat split. discriminate.
Qed.

(** ** Test connection (C8) *)

Lemma step_delay_ok s e s' :
  Forall delay_ok (pending s) -> step s e = Some s' ->
  Forall delay_ok (pending s').
Proof.
  intros HD H. apply step_turn in H as [_ H].
  destruct H as [Hb Hat|a j r Hr Hb Hat|k ms c Hk|k a j o Hk|c|e _];
    try exact HD.
  - simpl. apply Forall_app. split; [exact HD|]. repeat constructor.
  - simpl. apply Forall_app. split; [exact HD|]. repeat constructor.
  - assert (HD' : Forall delay_ok (delete k (pending s))).
    { apply Forall_delete, HD. }
    destruct c; simpl; try exact HD'.
    apply Forall_app. split; [exact HD'|]. repeat constructor.
  - destruct (action_response_shape a j o
                (with_pending (delete k (pending s)) s))
      as (f & extra & _ & -> & Hextra).
    simpl. apply Forall_app. split.
    + apply Forall_delete, HD.
    + destruct Hextra; subst; repeat constructor.
Qed.

Lemma reachable_delay_ok p s : reachable p s -> Forall delay_ok (pending s).
Proof.
  apply (reachable_ind (fun s => Forall delay_ok (pending s))).
  - constructor.
  - intros s0 e s1. apply step_delay_ok.
Qed.

Lemma first_enabled_record_Some l i :
  first_enabled_record l = Some i <->
  (exists r, l !! i = Some r /\ enabled (recordBtn r)) /\
  (forall j r, j < i -> l !! j = Some r -> ~ enabled (recordBtn r)).
Proof.
  unfold first_enabled_record, enabled. split.
  - destruct (list_find _ l) as [[i' r]|] eqn:E; [|discriminate].
    intros [= <-]. apply list_find_Some in E as (Hr & Hb & Hlt).
    split; [eauto|]. intros j rj Hj Hrj. eapply Hlt; eassumption.
  - intros [(r & Hr & Hb) Hlt].
    assert (E : list_find (fun r => recordBtn r = Some false) l = Some (i, r)).
    { apply list_find_Some. split; [exact Hr|]. split; [exact Hb|].
      intros j rj Hrj Hj. eapply Hlt; eassumption. }
    rewrite E. reflexivity.
Qed.

Lemma first_enabled_record_None l :
  first_enabled_record l = None <->
  (forall j r, l !! j = Some r -> ~ enabled (recordBtn r)).
Proof.
  unfold first_enabled_record, enabled. split.
  - destruct (list_find _ l) as [[i' r]|] eqn:E; [discriminate|].
    intros _ j r Hr. rewrite list_find_None in E.
    rewrite Forall_forall in E. apply E.
    eapply list_elem_of_lookup_2, Hr.
  - intros H. destruct (list_find _ l) as [[i' r]|] eqn:E; [|reflexivity].
    apply list_find_Some in E as (Hr & Hb & _).
    exfalso. exact (H i' r Hr Hb).
Qed.

(** C8.  A click on the test-connection button disables it, sets the
    status text to "Testing...", shows the loading indicator and starts
    a 2000 ms timer, all in one turn and without a request.  When that
    timer expires the callback always runs to its end, again without a
    request: it hides the loader, sets the status text to
    "Connection succeeded!", reveals the participants container and
    calls [focus()] on the first enabled record button, if there is one;
    there is no other outcome. *)
Theorem test_connection (p : Page) (s : State) :
  reachable p s ->
  (forall s1,
      step s ClickTest = Some s1 ->
      testBtn (page s1) = Some true /\
      testStatus (page s1) = assign "Testing..." (testStatus (page s)) /\
      loader (page s1) = assign "block" (loader (page s)) /\
      pending s1 = pending s ++ [Timer 2000 AfterTest] /\
      sent s1 = sent s) /\
  (forall k ms,
      pending s !! k = Some (Timer ms AfterTest) -> reloaded s = false ->
      ms = 2000 /\
      exists s2,
        step s (TimerFires k) = Some s2 /\
        loader (page s2) = assign "none" (loader (page s)) /\
        testStatus (page s2) =
          assign "Connection succeeded!" (testStatus (page s)) /\
        participantsWrapper (page s2) =
          assign "block" (participantsWrapper (page s)) /\
        (forall i r,
            rows (page s) !! i = Some r -> enabled (recordBtn r) ->
            (forall j rj, j < i -> rows (page s) !! j = Some rj ->
                          ~ enabled (recordBtn rj)) ->
            focused (page s2) = Some i) /\
        ((forall j rj, rows (page s) !! j = Some rj ->
                       ~ enabled (recordBtn rj)) ->
         focused (page s2) = focused (page s)) /\
        sent s2 = sent s /\
        pending s2 = delete k (pending s)).
Proof.
  intros Hreach. split.
  - intros s1 H. unfold step in H.
    destruct (reloaded s); [discriminate|].
    destruct (testBtn (page s)) as [[]|] eqn:Eb; try discriminate.
    assert (Ha : attached s = true).
    { apply (reachable_wired p s Hreach). eauto. }
    rewrite Ha in H. injection H as <-. simpl. rewrite Eb. auto.
  - intros k ms Hk Hrl. split.
    + pose proof (reachable_delay_ok p s Hreach) as HD.
      rewrite Forall_forall in HD.
      apply (HD (Timer ms AfterTest)).
      eapply list_elem_of_lookup_2, Hk.
    + exists (test_timeout (with_pending (delete k (pending s)) s)).
      split; [unfold step; rewrite Hrl, Hk; reflexivity|].
      unfold test_timeout. simpl.
      destruct (first_enabled_record (rows (page s))) as [i0|] eqn:E; simpl.
      * apply first_enabled_record_Some in E as [(r0 & Hr0 & Hb0) Hlt].
        repeat split; try reflexivity.
        -- intros i r Hr Hb Hfirst. f_equal.
           destruct (Nat.lt_trichotomy i0 i) as [Hlt'|[Heq|Hgt]].
           ++ exfalso. exact (Hfirst i0 r0 Hlt' Hr0 Hb0).
           ++ exact Heq.
           ++ exfalso. exact (Hlt i r Hgt Hr Hb).
        -- intros Hnone. exfalso. exact (Hnone i0 r0 Hr0 Hb0).
      * rewrite first_enabled_record_None in E.
        repeat split; try reflexivity.
        intros i r Hr Hb _. exfalso. exact (E i r Hr Hb).
Qed.

Lemma test_connection_witness :
  exists s1 s2,
    step (init page0) ClickTest = Some s1 /\
    testBtn (page s1) = Some true /\
    testStatus (page s1) = Some "Testing..." /\
    loader (page s1) = Some "block" /\
    pending s1 = [Timer 2000 AfterTest] /\
    step s1 (TimerFires 0) = Some s2 /\
    loader (page s2) = Some "none" /\
    testStatus (page s2) = Some "Connection succeeded!" /\
    participantsWrapper (page s2) = Some "block" /\
    focused (page s2) = Some 0 /\
    sent s2 = [].
Proof.
  destruct (test_connection page0 (init page0)) as [Hclick _].
  { exists []. reflexivity. }
  destruct (Hclick (test_click (init page0)) eq_refl)
    as (H1 & H2 & H3 & H4 & H5).
  destruct (test_connection page0 (test_click (init page0))) as [_ Htimer].
  { exists [ClickTest]. reflexivity. }
  destruct (Htimer 0 2000 eq_refl eq_refl)
    as (_ & s2 & Hs2 & G1 & G2 & G3 & G4 & _ & G5 & _).
  exists (test_click (init page0)), s2.
  repeat split; try assumption.
  apply (G4 0 row42); [reflexivity|reflexivity|].
  intros j rj Hj. lia.
Defined.

(** ** The cookie (C7) *)

Lemma skip_ws_not_ws c s : is_ws c = false -> skip_ws (String c s) = String c s.
Proof. intros H. simpl. rewrite H. reflexivity. Qed.

Lemma name_char_spec c :
  name_char c = true ->
  is_ws c = false /\ Ascii.eqb c semi = false /\ Ascii.eqb c equals = false.
Proof.
  unfold name_char. intros H.
  apply andb_true_iff in H as [H H3]. apply andb_true_iff in H as [H1 H2].
  apply negb_true_iff in H1, H2, H3. auto.
Qed.

Lemma strip_prefix_app n s : strip_prefix n (n +:+ s) = Some s.
Proof.
  induction n as [|a n IH]; simpl; [destruct s; reflexivity|].
  rewrite Ascii.eqb_refl. exact IH.
Qed.

(** What follows the name in [match_tail]. *)
Lemma match_tail_unfold name s :
  match_tail name s =
  match strip_prefix name (skip_ws s) with
  | None => None
  | Some s1 =>
      match skip_ws s1 with
      | String c s2 => if Ascii.eqb c equals then cookie_value s2 else None
      | EmptyString => None
      end
  end.
Proof. reflexivity. Qed.

(** Another cookie's [name=] is not matched. *)
Lemma strip_other name : forall n x,
  is_name name = true -> is_name n = true -> name <> n ->
  match strip_prefix name (n +:+ String equals x) with
  | None => None
  | Some s1 =>
      match skip_ws s1 with
      | String c s2 => if Ascii.eqb c equals then cookie_value s2 else None
      | EmptyString => None
      end
  end = None.
Proof.
  induction name as [|a name IH]; intros [|b n] x Hname Hn Hne; simpl.
  - congruence.
  - simpl in Hn. apply andb_true_iff in Hn as [Hb _].
    apply name_char_spec in Hb as (Hws & _ & Heq).
    rewrite Hws, Heq. reflexivity.
  - simpl in Hname. apply andb_true_iff in Hname as [Ha _].
    apply name_char_spec in Ha as (_ & _ & Heq).
    rewrite Heq. reflexivity.
  - simpl in Hname, Hn.
    apply andb_true_iff in Hname as [_ Hname].
    apply andb_true_iff in Hn as [_ Hn].
    destruct (Ascii.eqb a b) eqn:E; [|reflexivity].
    apply Ascii.eqb_eq in E. subst b.
    apply IH; [assumption|assumption|congruence].
Qed.

Lemma skip_ws_entry n x :
  is_name n = true -> skip_ws (n +:+ String equals x) = n +:+ String equals x.
Proof.
  destruct n as [|b n]; simpl; [reflexivity|].
  intros H. apply andb_true_iff in H as [Hb _].
  apply name_char_spec in Hb as (Hws & _). rewrite Hws. reflexivity.
Qed.

Lemma match_tail_other name n x :
  is_name name = true -> is_name n = true -> name <> n ->
  match_tail name (n +:+ String equals x) = None.
Proof.
  intros Hname Hn Hne. rewrite match_tail_unfold, (skip_ws_entry n x Hn).
  apply strip_other; assumption.
Qed.

Lemma match_tail_same name x :
  is_name name = true ->
  match_tail name (name +:+ String equals x) = cookie_value x.
Proof.
  intros Hname. rewrite match_tail_unfold, (skip_ws_entry name x Hname).
  rewrite strip_prefix_app. simpl. reflexivity.
Qed.

Lemma until_semi_value v rest :
  string_forallb (fun c => negb (Ascii.eqb c semi)) v = true ->
  closes rest -> until_semi (v +:+ rest) = v.
Proof.
  intros Hv Hrest. induction v as [|c v IH]; simpl in *.
  - destruct Hrest as [->|[s ->]]; reflexivity.
  - apply andb_true_iff in Hv as [Hc Hv]. apply negb_true_iff in Hc.
    rewrite Hc, (IH Hv). reflexivity.
Qed.

Lemma cookie_value_closed rest : closes rest -> cookie_value rest = None.
Proof.
  intros [->|[s ->]]; reflexivity.
Qed.

Lemma cookie_value_value c v rest :
  is_value (String c v) = true -> closes rest ->
  cookie_value (String c v +:+ rest) = Some (String c v).
Proof.
  unfold is_value. intros H Hrest.
  apply andb_true_iff in H as [Hsemi Hws]. apply negb_true_iff in Hws.
  unfold cookie_value.
  change (String c v +:+ rest) with (String c (v +:+ rest)).
  rewrite (skip_ws_not_ws c _ Hws).
  change (String c (v +:+ rest)) with (String c v +:+ rest).
  rewrite (until_semi_value _ rest Hsemi Hrest). reflexivity.
Qed.

Lemma match_semis_app v s name :
  string_forallb (fun c => negb (Ascii.eqb c semi)) v = true ->
  match_semis name (v +:+ s) = match_semis name s.
Proof.
  intros Hv. induction v as [|c v IH]; simpl in *; [reflexivity|].
  apply andb_true_iff in Hv as [Hc Hv]. apply negb_true_iff in Hc.
  rewrite Hc. exact (IH Hv).
Qed.

Lemma is_name_no_semi n :
  is_name n = true ->
  string_forallb (fun c => negb (Ascii.eqb c semi)) n = true.
Proof.
  induction n as [|c n IH]; simpl; [reflexivity|].
  intros H. apply andb_true_iff in H as [Hc Hn].
  apply name_char_spec in Hc as (_ & Hsemi & _).
  rewrite Hsemi, (IH Hn). reflexivity.
Qed.

Lemma is_value_no_semi v :
  is_value v = true ->
  string_forallb (fun c => negb (Ascii.eqb c semi)) v = true.
Proof.
  unfold is_value. intros H. apply andb_true_iff in H as [H _]. exact H.
Qed.

(** The [;] alternative finds nothing inside one cookie. *)
Lemma match_semis_entry name n v rest :
  is_name n = true -> is_value v = true ->
  match_semis name (n +:+ String equals (v +:+ rest)) = match_semis name rest.
Proof.
  intros Hn Hv.
  rewrite (match_semis_app n _ name (is_name_no_semi n Hn)). simpl.
  apply match_semis_app, is_value_no_semi, Hv.
Qed.

(** After the separator the whole expression is tried on the next
    cookie. *)
Lemma match_semis_separator name s :
  match_semis name ("; " +:+ s) = cookie_match name s.
Proof.
  reflexivity.
Qed.

Lemma cookie_match_empty name : cookie_match name "" = None.
Proof. destruct name; reflexivity. Qed.

Lemma jar_lookup_None name (j : jar) :
  name ∉ map fst j -> jar_lookup name j = None.
Proof.
  induction j as [|[n v] j IH]; simpl; [reflexivity|].
  intros Hnot. destruct (String.eqb name n) eqn:E.
  - apply String.eqb_eq in E. subst n. exfalso. apply Hnot. left.
  - apply IH. intros Hin. apply Hnot. right. exact Hin.
Qed.

(** The rest of [document.cookie] after its first cookie. *)
Lemma serialize_cons n v (j : jar) :
  exists rest,
    serialize ((n, v) :: j) = n +:+ String equals (v +:+ rest) /\
    closes rest /\
    forall name,
      match_semis name rest =
      match j with
      | [] => None
      | _ => cookie_match name (serialize j)
      end.
Proof.
  destruct j as [|nv j].
  - exists "". split; [|split].
    + simpl. rewrite append_empty_r. reflexivity.
    + left. reflexivity.
    + reflexivity.
  - exists ("; " +:+ serialize (nv :: j)). split; [|split].
    + reflexivity.
    + right. eexists. reflexivity.
    + intros name. apply match_semis_separator.
Qed.

(** [cookie_match] on the string of a cookie store finds the value
    stored under the name, unless that value is empty. *)
Lemma cookie_match_serialize name (j : jar) :
  is_name name = true -> wf_jar j ->
  cookie_match name (serialize j) =
  match jar_lookup name j with
  | Some v => if String.eqb v "" then None else Some v
  | None => None
  end.
Proof.
  intros Hname [Hwf Hnd]. induction j as [|[n v] j IH].
  - apply cookie_match_empty.
  - inversion Hwf as [|? ? [Hn Hv] Hwf']; subst. simpl in Hn, Hv.
    inversion Hnd as [|? ? Hnotin Hnd']; subst.
    specialize (IH Hwf' Hnd').
    destruct (serialize_cons n v j) as (rest & -> & Hclose & Hrest).
    unfold cookie_match at 1.
    rewrite (match_semis_entry name n v rest Hn Hv), Hrest.
    simpl jar_lookup. destruct (String.eqb name n) eqn:E.
    + apply String.eqb_eq in E. subst n.
      rewrite (match_tail_same name _ Hname).
      destruct v as [|c v].
      * change ("" +:+ rest) with rest.
        rewrite (cookie_value_closed rest Hclose).
        destruct j; [reflexivity|].
        rewrite IH, (jar_lookup_None name _ Hnotin). reflexivity.
      * rewrite (cookie_value_value c v rest Hv Hclose). reflexivity.
    + rewrite match_tail_other; [|assumption|assumption|].
      * destruct j; [reflexivity|exact IH].
      * intros ->. rewrite String.eqb_refl in E. discriminate.
Qed.

(** [getCookie] returns the value of the cookie, and the empty string
    when the store has no cookie of that name. *)
Lemma getCookie_serialize name (j : jar) :
  is_name name = true -> wf_jar j ->
  getCookie name (serialize j) = jar_value name j.
Proof.
  intros Hname Hwf. unfold getCookie, jar_value.
  rewrite (cookie_match_serialize name j Hname Hwf).
  destruct (jar_lookup name j) as [v|]; [|reflexivity].
  destruct (String.eqb v "") eqn:E; [|reflexivity].
  apply String.eqb_eq in E. congruence.
Qed.

(** ** The request of an action (C7) *)

Lemma delayed_app l1 l2 : delayed (l1 ++ l2) = delayed l1 + delayed l2.
Proof.
  induction l1 as [|t l1 IH]; simpl; [reflexivity|].
  destruct t as [ms [| |]|]; simpl; rewrite IH; reflexivity.
Qed.

Lemma delayed_delete l k t :
  l !! k = Some t -> delayed l = delayed [t] + delayed (delete k l).
Proof.
  revert k. induction l as [|x l IH]; intros [|k] Hk; simpl in *;
    try discriminate.
  - injection Hk as ->. destruct t as [ms [| |]|]; reflexivity.
  - rewrite (IH k Hk).
    destruct x as [ms [| |]|], t as [ms' [| |]|]; simpl; lia.
Qed.

Lemma action_response_sent a i o s :
  sent (action_response a i o s) = sent s /\
  attached (action_response a i o s) = attached s.
Proof.
  destruct (action_response_form a i o s) as [f [-> | ->]]; auto.
Qed.

Lemma run_cont_attached c s : attached (run_cont c s) = attached s.
Proof. destruct c; reflexivity. Qed.

(** Requests and delays, turn by turn: a click that starts an action
    adds one delay, the end of a delay turns it into one request, and
    nothing else changes either. *)
Lemma step_requests s e s' :
  step s e = Some s' -> attached s = true ->
  attached s' = true /\
  action_clicks [e] + length (sent s) + delayed (pending s) =
  length (sent s') + delayed (pending s').
Proof.
  intros H Hat. apply step_turn in H as [_ H].
  destruct H as [Hb Ha|a j r Hr Hb Ha|k ms c Hk|k a j o Hk|c|e Hig].
  - split; [exact Hat|]. simpl. rewrite delayed_app. simpl. lia.
  - split; [exact Hat|]. simpl. rewrite delayed_app. simpl. lia.
  - split; [rewrite run_cont_attached; exact Hat|].
    rewrite (delayed_delete _ k _ Hk).
    destruct c as [|a j pid role|]; simpl.
    + unfold test_timeout. simpl. lia.
    + rewrite length_app, delayed_app. simpl. lia.
    + lia.
  - destruct (action_response_sent a j o
                (with_pending (delete k (pending s)) s)) as [Hsent Hatt].
    destruct (action_response_shape a j o
                (with_pending (delete k (pending s)) s))
      as (f & extra & _ & Hpend & Hextra).
    split; [rewrite Hatt; exact Hat|].
    rewrite Hsent, Hpend, delayed_app, (delayed_delete _ k _ Hk). simpl.
    destruct Hextra; subst; simpl; lia.
  - split; [exact Hat|]. simpl. lia.
  - split; [exact Hat|].
    destruct e as [|a [i|]| |k|k o|c]; simpl in *; try lia; congruence.
Qed.

Lemma action_clicks_cons e es :
  action_clicks (e :: es) = action_clicks [e] + action_clicks es.
Proof.
  destruct e as [|a [i|]| |k|k o|c]; reflexivity.
Qed.

Lemma run_requests es : forall s s',
  run s es = Some s' -> attached s = true ->
  action_clicks es + length (sent s) + delayed (pending s) =
  length (sent s') + delayed (pending s').
Proof.
  induction es as [|e es IH]; intros s s' H Hat.
  - simpl in H. injection H as <-. reflexivity.
  - simpl in H. destruct (step s e) as [s1|] eqn:E; [|discriminate].
    destruct (step_requests s e s1 E Hat) as [Hat1 Hcount].
    specialize (IH s1 s' H Hat1). rewrite action_clicks_cons. lia.
Qed.

Lemma timer_step s k ms c :
  reloaded s = false -> pending s !! k = Some (Timer ms c) ->
  step s (TimerFires k) =
  Some (run_cont c (with_pending (delete k (pending s)) s)).
Proof.
  intros Hr Hk. unfold step. rewrite Hr, Hk. reflexivity.
Qed.

(** C7.  A record or verify action, from the click to the response,
    calls [fetch] once: the click turn only registers the 1500 ms delay
    with the row's two data attributes; the end of the delay issues one
    POST to the configured endpoint, with the header
    [X-Requested-With: XMLHttpRequest], the header [X-CSRFToken] set to
    [getCookie('csrftoken')], and as body a [FormData] of exactly the
    fields [action] ("record_fingerprint" for a record action and
    "verify_ekyc" for a verify action), [participant_id] and
    [participant_role] (the two data attributes as text, "undefined" for
    a missing one); the response turn sends nothing.  So the request
    that follows a click carries the data attributes that the clicked
    row had at the click.  On the [document.cookie] of a cookie store
    [getCookie('csrftoken')] is the value of the [csrftoken] cookie, and
    the empty string when the store has none.  Over a whole run the
    requests sent are as many as the actions started, less those still
    in their delay. *)
Theorem action_request (p : Page) :
  (forall s a i r s',
      step s (Click a (Some i)) = Some s' -> attached s = true ->
      rows (page s) !! i = Some r ->
      sent s' = sent s /\
      pending s' =
        pending s ++
        [Timer 1500 (AfterDelay a i (participantId r) (participantRole r))]) /\
  (forall s k ms a i pid role,
      reloaded s = false ->
      pending s !! k = Some (Timer ms (AfterDelay a i pid role)) ->
      exists s',
        step s (TimerFires k) = Some s' /\
        sent s' =
          sent s ++
          [mkRequest (endpoint s) "POST"
             [("X-Requested-With", "XMLHttpRequest");
              ("X-CSRFToken", getCookie "csrftoken" (cookie (page s)))]
             (FormData
                [("action",
                  match a with
                  | record_fingerprint => "record_fingerprint"
                  | verify_ekyc => "verify_ekyc"
                  end);
                 ("participant_id",
                  match pid with Some v => v | None => "undefined" end);
                 ("participant_role",
                  match role with Some v => v | None => "undefined" end)])] /\
        pending s' = delete k (pending s) ++ [Fetching a i]) /\
  (forall s a i r s1,
      step s (Click a (Some i)) = Some s1 -> attached s = true ->
      rows (page s) !! i = Some r ->
      exists s2,
        step s1 (TimerFires (length (pending s))) = Some s2 /\
        sent s2 =
          sent s ++
          [mkRequest (endpoint s) "POST"
             [("X-Requested-With", "XMLHttpRequest");
              ("X-CSRFToken", getCookie "csrftoken" (cookie (page s)))]
             (FormData
                [("action",
                  match a with
                  | record_fingerprint => "record_fingerprint"
                  | verify_ekyc => "verify_ekyc"
                  end);
                 ("participant_id",
                  match participantId r with
                  | Some v => v
                  | None => "undefined"
                  end);
                 ("participant_role",
                  match participantRole r with
                  | Some v => v
                  | None => "undefined"
                  end)])]) /\
  (forall s k o s', step s (Response k o) = Some s' -> sent s' = sent s) /\
  (forall s j,
      wf_jar j -> cookie (page s) = serialize j ->
      getCookie "csrftoken" (cookie (page s)) = jar_value "csrftoken" j) /\
  (forall es s,
      run (init p) es = Some s -> attached (init p) = true ->
      action_clicks es = length (sent s) + delayed (pending s)).
Proof.
  split; [|split; [|split; [|split; [|split]]]].
  - intros s a i r s' H Hat Hr.
    destruct (click_turn s a i s' H Hat) as (r0 & Hr0 & _ & ->).
    rewrite Hr in Hr0. injection Hr0 as <-. split; reflexivity.
  - intros s k ms a i pid role Hrl Hk. eexists.
    split; [apply (timer_step s k ms _ Hrl Hk)|].
    split; [|reflexivity].
    destruct a, pid, role; reflexivity.
  - intros s a i r s1 H Hat Hr.
    destruct (click_turn s a i s1 H Hat) as (r0 & Hr0 & _ & ->).
    rewrite Hr in Hr0. injection Hr0 as <-.
    apply step_turn in H as [Hrl _].
    eexists. split.
    + apply (timer_step _ _ 1500
               (AfterDelay a i (participantId r) (participantRole r)));
        [exact Hrl|].
      unfold action_click. simpl.
      rewrite lookup_app_r by lia. rewrite Nat.sub_diag. reflexivity.
    + destruct a, (participantId r), (participantRole r); reflexivity.
  - intros s k o s' H. apply step_turn in H as [_ H].
    inversion H as [| | |k' a i o' Hk| |e Hig]; subst.
    + apply (action_response_sent a i o
               (with_pending (delete k (pending s)) s)).
    + simpl in Hig. contradiction.
  - intros s j Hwf ->. apply getCookie_serialize; [reflexivity|exact Hwf].
  - intros es s H Hat.
    pose proof (run_requests es (init p) s H Hat) as Hc. simpl in Hc. lia.
Qed.

Lemma action_request_witness :
  getCookie "csrftoken" (cookie (page recording)) = "tok123" /\
  action_clicks full_run = 2 /\
  action_clicks full_run =
    length (sent (state_after page0 full_run)) +
    delayed (pending (state_after page0 full_run)) /\
  exists s2,
    step clicked (TimerFires 0) = Some s2 /\
    sent s2 =
      [mkRequest (Some "/tms/ekyc/7/") "POST"
         [("X-Requested-With", "XMLHttpRequest"); ("X-CSRFToken", "tok123")]
         (FormData [("action", "record_fingerprint");
                    ("participant_id", "42");
                    ("participant_role", "trainee")])].
Proof.
  destruct (action_request page0) as (_ & _ & Hclick & _ & Hcookie & Hcount).
  split; [|split; [|split]].
  - apply (Hcookie recording [("sessionid", "abc"); ("csrftoken", "tok123")]).
    + split.
      * repeat constructor.
      * simpl. apply NoDup_cons. split.
        -- intros Hin. apply list_elem_of_singleton in Hin. discriminate.
        -- apply NoDup_singleton.
    + reflexivity.
  - reflexivity.
  - apply (Hcount full_run (state_after page0 full_run)).
    + vm_compute. reflexivity.
    + reflexivity.
  - assert (Hstep : step tested (Click record_fingerprint (Some 0))
                    = Some clicked) by (vm_compute; reflexivity).
    destruct (Hclick tested record_fingerprint 0 row42 clicked Hstep
                eq_refl eq_refl) as (s2 & Hs2 & Hsent).
    exists s2. split; [exact Hs2|].
    rewrite Hsent. vm_compute. reflexivity.
Defined.

(** ** The scenarios of the specification *)

(** Row 42, role trainee: the record request, and the row after the
    response [{success:true, status_display:"Recorded"}]. *)
Example scenario_record :
  body <$> last (sent recording) =
    Some (FormData [("action", "record_fingerprint"); ("participant_id", "42");
                    ("participant_role", "trainee")]) /\
  (step recording (Response 0 (Parsed recorded_ok)) ≫= fun s =>
   rows (page s) !! 0) =
    Some (mkRow (Some "42") (Some "trainee") (Some "Recorded")
                (Some " Fingerprint recorded") (Some true) (Some false)).
Proof. split; reflexivity. Qed.

(** The same row after the verify response
    [{success:true, status:"VERIFIED"}]: the raw status is the label. *)
Example scenario_verify_raw :
  (step verifying (Response 0 (Parsed verified_raw)) ≫= fun s =>
   rows (page s) !! 0) =
    Some (mkRow (Some "42") (Some "trainee") (Some "VERIFIED")
                (Some " Verified") (Some true) (Some true)).
Proof. reflexivity. Qed.

(** A scan that stops before the row without a label does not throw. *)
Example scan_stops_early :
  every reads_verified [row42; bare_row] = Some false /\
  every reads_verified [row43; bare_row] = None.
Proof. split; reflexivity. Qed.

(** Truthiness of the [success] field. *)
Example succeeded_values :
  succeeded (JObj [("success", one)]) = true /\
  succeeded (JObj [("success", JStr "false")]) = true /\
  succeeded (JObj [("success", JStr "")]) = false /\
  succeeded (JObj [("status", JStr "RECORDED")]) = false /\
  succeeded JNull = false /\
  succeeded (JArr []) = false.
Proof. repeat split. Qed.

(** The text of a value, and the values without one. *)
Example toString_values :
  toString (JArr [JStr "a"; JNull; one; JArr [JBool true; JUndefined]])
    = Some "a,,1,true," /\
  toString (JObj [("status", JStr "x")]) = Some "[object Object]" /\
  toString no_text = None /\
  toString (JArr [JStr "a"; no_text]) = None.
Proof. repeat split. Qed.

(** The white space of [trim] and of [\s] among the code units below
    256: tab, line feed, vertical tab, form feed, carriage return, space
    and no-break space. *)
Example white_space_units :
  filter (fun n => is_ws (ascii_of_nat n)) (seq 0 256)
  = [9; 10; 11; 12; 13; 32; 160].
Proof. vm_compute. reflexivity. Qed.

Example getCookie_values :
  getCookie "csrftoken" "a=b;  csrftoken = x y ; q=1" = "x y " /\
  getCookie "csrftoken" "xcsrftoken=1; csrftoken2=2" = "" /\
  getCookie "csrftoken" "" = "".
Proof. repeat split. Qed.

(** * Further properties of the script *)

(** ** A page without the test button *)

(** Without [#testConnectionBtn] the script returns before it adds a
    listener (line 18): whatever happens on the page, no element is
    changed, no timer is started, no request is sent and the page is not
    reloaded; the cookie store alone may change. *)
Theorem inert_without_test_button (p : Page) (es : list event) (s : State) :
  testBtn p = None ->
  run (init p) es = Some s ->
  page s = set_cookie (cookie (page s)) p /\
  pending s = [] /\ sent s = [] /\ reloaded s = false /\ attached s = false.
Proof.
  intros Hno Hrun.
  assert (H0 : page (init p) = set_cookie (cookie (page (init p))) p /\
               pending (init p) = [] /\ sent (init p) = [] /\
               reloaded (init p) = false /\ attached (init p) = false).
  { unfold init. simpl. rewrite Hno. destruct p. repeat split. }
  revert Hrun H0. generalize (init p).
  induction es as [|e es IH]; simpl; intros s0 Hrun H0.
  - injection Hrun as <-. exact H0.
  - destruct (step s0 e) as [s1|] eqn:E; [|discriminate].
    apply (IH s1 Hrun). clear IH Hrun.
    destruct H0 as (Hp & Hpend & Hsent & Hrl & Hat).
    apply step_turn in E as [_ E].
    destruct E as [Hb Ha|a i r Hr Hb Ha|k ms c Hk|k a i o Hk|c|e Hig];
      try congruence.
    + rewrite Hpend in Hk. discriminate.
    + rewrite Hpend in Hk. discriminate.
    + simpl. rewrite Hp. repeat split; assumption.
    + repeat split; assumption.
Qed.

Lemma inert_without_test_button_witness :
  exists s,
    run (init page_no_test)
        [Click record_fingerprint (Some 0); CookieChange "csrftoken=new";
         ClickOther] = Some s /\
    page s = set_cookie "csrftoken=new" page_no_test /\
    pending s = [] /\ sent s = [].
Proof.
  eexists. split; [vm_compute; reflexivity|].
  destruct (inert_without_test_button page_no_test
              [Click record_fingerprint (Some 0);
               CookieChange "csrftoken=new"; ClickOther]
              (state_after page_no_test
                 [Click record_fingerprint (Some 0);
                  CookieChange "csrftoken=new"; ClickOther])
              eq_refl) as (H1 & H2 & H3 & _).
  - vm_compute. reflexivity.
  - split; [exact H1|]. split; [exact H2|exact H3].
Defined.

(** ** What the script never touches *)

Lemma present_assign {A} (v : A) (o : option A) :
  present (assign v o) = present o.
Proof. destruct o; reflexivity. Qed.

Lemma row_frame_click a r : row_frame (click_row a r) = row_frame r.
Proof.
  destruct a; unfold row_frame; simpl; rewrite !present_assign; reflexivity.
Qed.

Lemma row_frame_caption txt r :
  row_frame (set_actionStatus txt r) = row_frame r.
Proof. unfold row_frame; simpl; rewrite !present_assign; reflexivity. Qed.

Lemma row_frame_failure prefix data r :
  row_frame (catch (failure_row prefix data r) (set_actionStatus " Error"))
  = row_frame r.
Proof.
  unfold failure_row. destruct (failure_message prefix data);
    unfold row_frame; simpl; rewrite !present_assign; reflexivity.
Qed.

Lemma row_frame_record_response o r :
  row_frame (record_response_row o r) = row_frame r.
Proof.
  destruct o as [|data]; simpl; [apply row_frame_caption|].
  unfold record_try.
  destruct (succeeded data); [|apply row_frame_failure].
  unfold and_then. row_cases (status_value data "Recorded") r;
    unfold row_frame; simpl; rewrite ?present_assign; reflexivity.
Qed.

Lemma row_frame_verify_success data r :
  row_frame (verify_success_row data r) = row_frame r.
Proof.
  unfold verify_success_row, verify_update, and_then.
  row_cases (status_value data "Verified") r;
    unfold row_frame; simpl; rewrite ?present_assign; reflexivity.
Qed.

Lemma map_frame_alter (f : Row -> Row) i l :
  (forall r, row_frame (f r) = row_frame r) ->
  map row_frame (alter f i l) = map row_frame l.
Proof.
  intros Hf. revert i. induction l as [|r l IH]; intros [|i]; simpl;
    try reflexivity.
  - rewrite Hf. reflexivity.
  - f_equal. apply IH.
Qed.

Lemma page_frame_on_row i f p :
  (forall r, row_frame (f r) = row_frame r) ->
  page_frame (on_row i f p) = page_frame p.
Proof.
  intros Hf. unfold page_frame, on_row. simpl.
  rewrite (map_frame_alter f i _ Hf). reflexivity.
Qed.

Lemma page_frame_response a i o s :
  page_frame (page (action_response a i o s)) = page_frame (page s).
Proof.
  destruct a; simpl.
  - apply page_frame_on_row, row_frame_record_response.
  - unfold verify_response. destruct o as [|data].
    + apply page_frame_on_row, row_frame_caption.
    + destruct (succeeded data).
      * simpl.
        assert (H1 : page_frame (on_row i (verify_success_row data) (page s))
                     = page_frame (page s))
          by apply page_frame_on_row, row_frame_verify_success.
        destruct (verify_update_threw data i s); simpl;
          [rewrite <- H1; apply page_frame_on_row, row_frame_caption|].
        destruct (every reads_verified _) as [[]|]; simpl.
        -- rewrite <- H1. unfold page_frame. simpl.
           rewrite present_assign. reflexivity.
        -- exact H1.
        -- rewrite <- H1. apply page_frame_on_row, row_frame_caption.
      * apply page_frame_on_row. intros r. apply row_frame_failure.
Qed.

Lemma step_page_frame s e s' :
  step s e = Some s' -> page_frame (page s') = page_frame (page s).
Proof.
  intros H. apply step_turn in H as [_ H].
  destruct H as [Hb Ha|a i r Hr Hb Ha|k ms c Hk|k a i o Hk|c|e Hig];
    try reflexivity.
  - unfold page_frame. simpl. rewrite !present_assign. reflexivity.
  - apply page_frame_on_row. intros r0. apply row_frame_click.
  - destruct c as [|a i pid role|]; simpl; try reflexivity.
    unfold test_timeout. simpl.
    destruct (first_enabled_record (rows (page s)));
      unfold page_frame; simpl; rewrite !present_assign; reflexivity.
  - apply (page_frame_response a i o (with_pending (delete k (pending s)) s)).
Qed.

(** The script creates and removes no element and rewrites no data
    attribute: in every reachable state the page has the elements it was
    served with, the same number of rows, and every row its
    [data-participant-id] and [data-participant-role]. *)
Theorem frame_preserved (p : Page) (s : State) :
  reachable p s -> page_frame (page s) = page_frame p.
Proof.
  apply (reachable_ind (fun s => page_frame (page s) = page_frame p)).
  - reflexivity.
  - intros s0 e s1 IH H. rewrite (step_page_frame s0 e s1 H). exact IH.
Qed.

Lemma frame_preserved_witness :
  page_frame (page (state_after page0 full_run)) = page_frame page0.
Proof.
  apply frame_preserved. exists full_run. vm_compute. reflexivity.
Defined.

(** ** Rows are independent *)

Lemma response_rows_other a i o s j :
  i <> j ->
  rows (page (action_response a i o s)) !! j = rows (page s) !! j.
Proof.
  intros Hne.
  destruct (action_response_shape a i o s) as (f & extra & -> & _).
  apply list_lookup_alter_ne, Hne.
Qed.

(** A handler touches the row it was started on and no other: a click
    changes at most the row of the clicked button, a response at most the
    row of its action, and no other event changes any row. *)
Theorem other_rows_untouched (s : State) (e : event) (s' : State) (j : nat) :
  step s e = Some s' ->
  event_row s e <> Some j ->
  rows (page s') !! j = rows (page s) !! j.
Proof.
  intros H Hrow. apply step_turn in H as [_ H].
  destruct H as [Hb Ha|a i r Hr Hb Ha|k ms c Hk|k a i o Hk|c|e Hig];
    try reflexivity.
  - unfold action_click. simpl. apply list_lookup_alter_ne.
    simpl in Hrow. congruence.
  - rewrite run_cont_rows. reflexivity.
  - apply (response_rows_other a i o
             (with_pending (delete k (pending s)) s)).
    simpl in Hrow. rewrite Hk in Hrow. congruence.
Qed.

Lemma other_rows_untouched_witness :
  step verifying (Response 0 (Parsed verified_ok))
    = Some (state_after page0 full_run) /\
  rows (page (state_after page0 full_run)) !! 1 = Some row43.
Proof.
  assert (Hstep : step verifying (Response 0 (Parsed verified_ok))
                  = Some (state_after page0 full_run))
    by (vm_compute; reflexivity).
  split; [exact Hstep|].
  rewrite (other_rows_untouched verifying (Response 0 (Parsed verified_ok))
             (state_after page0 full_run) 1 Hstep).
  - reflexivity.
  - vm_compute. discriminate.
Defined.

(** ** One shot per button *)

Lemma verify_response_recordBtn i o s j r r' :
  rows (page s) !! j = Some r ->
  rows (page (verify_response i o s)) !! j = Some r' ->
  recordBtn r' = recordBtn r \/ recordBtn r' = assign true (recordBtn r).
Proof.
  intros Hr Hr'.
  destruct (verify_response_row i o s j r r' Hr Hr')
    as [->|[->|(data & [->|[->| ->]])]]; auto; simpl;
    try (destruct (verify_success_row_buttons data r) as [[_ ->]|[_ ->]];
         auto).
  left. apply failure_row_buttons.
Qed.

Lemma record_response_recordBtn i o s j r r' :
  rows (page s) !! j = Some r ->
  rows (page (record_response i o s)) !! j = Some r' ->
  recordBtn r' = recordBtn r.
Proof.
  intros Hr. unfold record_response. simpl.
  rewrite list_lookup_alter. case_decide as Hij.
  - subst j. rewrite Hr. intros [= <-]. apply record_response_row_recordBtn.
  - rewrite Hr. intros [= <-]. reflexivity.
Qed.

(** The only assignments to the [disabled] property of a record button
    are [true]. *)
Lemma record_off_step s e s' i r r' :
  step s e = Some s' ->
  rows (page s) !! i = Some r -> rows (page s') !! i = Some r' ->
  ~ enabled (recordBtn r) -> ~ enabled (recordBtn r').
Proof.
  unfold enabled. intros H Hr Hr' Hoff. apply step_turn in H as [_ H].
  destruct H as [Hb Ha|a j r0 Hr0 Hb Ha|k ms c Hk|k a j o Hk|c|e Hig];
    try (simpl in Hr'; rewrite Hr in Hr'; injection Hr' as <-; exact Hoff).
  - unfold action_click in Hr'. simpl in Hr'.
    rewrite list_lookup_alter in Hr'. case_decide; subst.
    + rewrite Hr in Hr'. injection Hr' as <-.
      rewrite click_row_recordBtn. apply assign_true_not_enabled.
    + rewrite Hr in Hr'. injection Hr' as <-. exact Hoff.
  - rewrite run_cont_rows in Hr'. simpl in Hr'.
    rewrite Hr in Hr'. injection Hr' as <-. exact Hoff.
  - destruct a; simpl in Hr'.
    + rewrite (record_response_recordBtn j o _ i r r' Hr Hr'). exact Hoff.
    + destruct (verify_response_recordBtn j o
                  (with_pending (delete k (pending s)) s) i r r' Hr Hr')
        as [Heq|Heq]; rewrite Heq;
        [exact Hoff|apply assign_true_not_enabled].
Qed.

(** No handler ever enables a record button.  A record button that
    cannot be clicked, because it is disabled or because the row has
    none, cannot be clicked in any later state of the page, whatever the
    responses of the server. *)
Theorem record_never_reenabled (i : nat) (es : list event) :
  forall (s s' : State) (r r' : Row),
    run s es = Some s' ->
    rows (page s) !! i = Some r -> rows (page s') !! i = Some r' ->
    ~ enabled (recordBtn r) -> ~ enabled (recordBtn r').
Proof.
  induction es as [|e es IH]; simpl; intros s s' r r' Hrun Hr Hr' Hoff.
  - injection Hrun as <-. rewrite Hr in Hr'. injection Hr' as <-. exact Hoff.
  - destruct (step s e) as [s1|] eqn:E; [|discriminate].
    destruct (step_row_exists s e s1 i r E Hr) as [r1 Hr1].
    apply (IH s1 s' r1 r' Hrun Hr1 Hr').
    exact (record_off_step s e s1 i r r1 E Hr Hr1 Hoff).
Qed.

Lemma record_never_reenabled_witness :
  exists s' r',
    run recording [Response 0 (Parsed recorded_ok);
                   Click verify_ekyc (Some 0); TimerFires 0;
                   Response 0 (Parsed refused)] = Some s' /\
    rows (page s') !! 0 = Some r' /\
    ~ enabled (recordBtn r').
Proof.
  do 2 eexists.
  split; [vm_compute; reflexivity|].
  split; [vm_compute; reflexivity|].
  eapply (record_never_reenabled 0
            [Response 0 (Parsed recorded_ok);
             Click verify_ekyc (Some 0); TimerFires 0;
             Response 0 (Parsed refused)]
            recording _
            (mkRow (Some "42") (Some "trainee") (Some "Pending")
                   (Some " Recording...") (Some true) (Some true))).
  - vm_compute. reflexivity.
  - reflexivity.
  - vm_compute. reflexivity.
  - unfold enabled. simpl. discriminate.
Defined.

Lemma step_attached s e s' : step s e = Some s' -> attached s' = attached s.
Proof.
  intros H. apply step_turn in H as [_ H].
  destruct H as [Hb Ha|a i r Hr Hb Ha|k ms c Hk|k a i o Hk|c|e Hig];
    try reflexivity.
  - apply (run_cont_attached c (with_pending (delete k (pending s)) s)).
  - apply (action_response_sent a i o
             (with_pending (delete k (pending s)) s)).
Qed.

Lemma clicks_on_cons a i e es :
  clicks_on a i (e :: es) = clicks_on a i [e] + clicks_on a i es.
Proof.
  destruct e as [|b [j|]| |k|k o|c]; simpl; lia.
Qed.

Lemma clicks_on_one a i e :
  clicks_on a i [e] = 1 -> e = Click a (Some i).
Proof.
  destruct e as [|b [j|]| |k|k o|c]; simpl; try discriminate.
  destruct (action_eqb a b) eqn:Ea; simpl; [|discriminate].
  destruct (Nat.eqb i j) eqn:Ei; [|discriminate].
  apply Nat.eqb_eq in Ei. subst j. intros _.
  destruct a, b; try discriminate; reflexivity.
Qed.

Lemma clicks_on_le a i e : clicks_on a i [e] <= 1.
Proof.
  destruct e as [|b [j|]| |k|k o|c]; simpl; try lia.
  destruct (action_eqb a b && Nat.eqb i j); lia.
Qed.

(** A click needs an enabled button, whether a listener acts on it or
    not. *)
Lemma click_needs_enabled s a i s' :
  step s (Click a (Some i)) = Some s' ->
  exists r, rows (page s) !! i = Some r /\ button a r = Some false.
Proof.
  unfold step. destruct (reloaded s); [discriminate|].
  destruct (rows (page s) !! i) as [r|]; [|discriminate].
  destruct (button a r) as [[]|] eqn:Eb; try discriminate.
  intros _. exists r. auto.
Qed.

Lemma no_record_click_when_off i es : forall s s',
  run s es = Some s' ->
  (forall r, rows (page s) !! i = Some r -> ~ enabled (recordBtn r)) ->
  clicks_on record_fingerprint i es = 0.
Proof.
  induction es as [|e es IH]; intros s s' Hrun Hoff; [reflexivity|].
  simpl in Hrun. destruct (step s e) as [s1|] eqn:E; [|discriminate].
  rewrite clicks_on_cons.
  assert (H0 : clicks_on record_fingerprint i [e] = 0).
  { pose proof (clicks_on_le record_fingerprint i e) as Hle.
    destruct (clicks_on record_fingerprint i [e]) as [|n] eqn:Ec;
      [reflexivity|].
    assert (n = 0) by lia. subst n.
    apply clicks_on_one in Ec. subst e.
    destruct (click_needs_enabled s _ i s1 E) as (r & Hr & Hb).
    exfalso. exact (Hoff r Hr Hb). }
  rewrite H0. simpl. apply (IH s1 s' Hrun).
  intros r1 Hr1.
  destruct (lookup_lt_is_Some_2 (rows (page s)) i) as [r Hr].
  { rewrite <- (step_rows_length s e s1 E). eapply lookup_lt_Some, Hr1. }
  exact (record_off_step s e s1 i r r1 E Hr Hr1 (Hoff r Hr)).
Qed.

Lemma quiet_verify_response i o s j r r' :
  rows (page s) !! j = Some r ->
  rows (page (verify_response i o s)) !! j = Some r' ->
  quiet r -> quiet r'.
Proof.
  intros Hr Hr' [Hq1 Hq2]. split.
  - destruct (verify_response_recordBtn i o s j r r' Hr Hr') as [->| ->];
      [exact Hq1|apply assign_true_not_enabled].
  - destruct (verify_response_verifyBtn i o s j r r' Hr Hr') as [->| ->];
      [exact Hq2|apply assign_true_not_enabled].
Qed.

Lemma step_verify_spent i s e s' :
  verify_spent i s -> step s e = Some s' -> verify_spent i s'.
Proof.
  intros [Hq Hno] H. apply step_turn in H as [_ H].
  destruct H as [Hb Ha|a j r Hr Hb Ha|k ms c Hk|k a j o Hk|c|e Hig];
    try (split; assumption).
  - split; [exact Hq|]. simpl. intros t [Hin|Hin]%elem_of_app; [auto|].
    apply list_elem_of_singleton in Hin. subst t. discriminate.
  - assert (Hne : j <> i).
    { intros ->. exact (quiet_button a r (Hq r Hr) Hb). }
    split.
    + intros r'. unfold action_click. simpl.
      rewrite list_lookup_alter_ne by exact Hne. apply Hq.
    + simpl. intros t [Hin|Hin]%elem_of_app; [auto|].
      apply list_elem_of_singleton in Hin. subst t. simpl. congruence.
  - split.
    + intros r'. rewrite run_cont_rows. apply Hq.
    + assert (Hold : forall t, t ∈ delete k (pending s) ->
                               task_action t <> Some (record_fingerprint, i)).
      { intros t Hin. apply Hno. eapply list_elem_of_delete_inv, Hin. }
      destruct c as [|a j pid role|]; simpl; try exact Hold.
      intros t [Hin|Hin]%elem_of_app; [auto|].
      apply list_elem_of_singleton in Hin. subst t.
      apply (Hno (Timer ms (AfterDelay a j pid role))).
      eapply list_elem_of_lookup_2, Hk.
  - destruct (action_response_shape a j o
                (with_pending (delete k (pending s)) s))
      as (f & extra & Hrows & Hpend & Hextra).
    split.
    + intros r' Hr'. destruct (decide (j = i)) as [->|Hne].
      * assert (a = verify_ekyc) as ->.
        { destruct a; [|reflexivity]. exfalso.
          apply (Hno (Fetching record_fingerprint i));
            [eapply list_elem_of_lookup_2, Hk|reflexivity]. }
        destruct (rows (page s) !! i) as [r|] eqn:Hr.
        2: { pose proof Hr' as Hr''.
             rewrite Hrows in Hr''. simpl in Hr''.
             rewrite list_lookup_alter_eq, Hr in Hr''. discriminate. }
        exact (quiet_verify_response i o
                 (with_pending (delete k (pending s)) s) i r r' Hr Hr'
                 (Hq r eq_refl)).
      * rewrite (response_rows_other a j o _ i Hne) in Hr'. apply (Hq r' Hr').
    + rewrite Hpend. simpl. intros t [Hin|Hin]%elem_of_app.
      * apply Hno. eapply list_elem_of_delete_inv, Hin.
      * destruct Hextra; subst; [inversion Hin|].
        apply list_elem_of_singleton in Hin. subst t. discriminate.
Qed.

Lemma no_verify_click_when_spent i es : forall s s',
  run s es = Some s' -> verify_spent i s ->
  clicks_on verify_ekyc i es = 0.
Proof.
  induction es as [|e es IH]; intros s s' Hrun Hsp; [reflexivity|].
  simpl in Hrun. destruct (step s e) as [s1|] eqn:E; [|discriminate].
  rewrite clicks_on_cons.
  assert (H0 : clicks_on verify_ekyc i [e] = 0).
  { pose proof (clicks_on_le verify_ekyc i e) as Hle.
    destruct (clicks_on verify_ekyc i [e]) as [|n] eqn:Ec; [reflexivity|].
    assert (n = 0) by lia. subst n.
    apply clicks_on_one in Ec. subst e.
    destruct (click_needs_enabled s _ i s1 E) as (r & Hr & Hb).
    destruct Hsp as [Hq _]. exfalso.
    exact (quiet_button verify_ekyc r (Hq r Hr) Hb). }
  rewrite H0. simpl. apply (IH s1 s' Hrun).
  exact (step_verify_spent i s e s1 Hsp E).
Qed.

(** The state after a click that started an action leaves the clicked
    button spent. *)
Lemma clicked_spent s a i r :
  Inv s -> rows (page s) !! i = Some r -> button a r = Some false ->
  forall es s',
    run (action_click a i r s) es = Some s' -> clicks_on a i es = 0.
Proof.
  intros HI Hr Hb es s' Hrun.
  destruct (click_row_button a r Hb) as [Hdis Hquiet].
  destruct a.
  - apply (no_record_click_when_off i es _ s' Hrun).
    intros r1. unfold action_click. simpl.
    rewrite list_lookup_alter_eq, Hr. intros [= <-].
    destruct Hquiet as [Hq _]. exact Hq.
  - apply (no_verify_click_when_spent i es _ s' Hrun). split.
    + intros r1. unfold action_click. simpl.
      rewrite list_lookup_alter_eq, Hr. intros [= <-]. exact Hquiet.
    + pose proof (clickable_idle s i r verify_ekyc HI Hr Hb) as H0.
      simpl. intros t [Hin|Hin]%elem_of_app.
      * intros Ha. apply concerns_action in Ha.
        pose proof (inflight_pos i _ t Hin Ha). lia.
      * apply list_elem_of_singleton in Hin. subst t. discriminate.
Qed.

Lemma at_most_one_click a i es : forall s s',
  Inv s -> attached s = true -> run s es = Some s' ->
  clicks_on a i es <= 1.
Proof.
  induction es as [|e es IH]; intros s s' HI Hat Hrun; [simpl; lia|].
  simpl in Hrun. destruct (step s e) as [s1|] eqn:E; [|discriminate].
  rewrite clicks_on_cons.
  pose proof (clicks_on_le a i e) as Hle.
  destruct (clicks_on a i [e]) as [|n] eqn:Ec.
  - simpl. apply (IH s1 s'); [|rewrite (step_attached s e s1 E); exact Hat|
                              exact Hrun].
    exact (step_Inv s e s1 HI E).
  - assert (n = 0) by lia. subst n.
    apply clicks_on_one in Ec. subst e.
    destruct (click_turn s a i s1 E Hat) as (r & Hr & Hb & ->).
    rewrite (clicked_spent s a i r HI Hr Hb es s' Hrun). lia.
Qed.

(** Each button works once.  On a page with the test button, over any
    run of the widget, at most one click is accepted on the record button
    of a row and at most one on its verify button: a click disables both
    buttons of the row, no handler enables a record button, and the only
    handler that enables a verify button is the response to the one
    record action. *)
Theorem one_click_per_button (p : Page) (a : action) (i : nat)
    (es : list event) (s : State) :
  testBtn p <> None ->
  run (init p) es = Some s ->
  clicks_on a i es <= 1.
Proof.
  intros Hbtn Hrun.
  apply (at_most_one_click a i es (init p) s (init_Inv p)); [|exact Hrun].
  unfold init. simpl. destruct (testBtn p); [reflexivity|congruence].
Qed.

Lemma one_click_per_button_witness :
  clicks_on verify_ekyc 0 full_run <= 1 /\
  step (state_after page0 (take 7 full_run)) (Click verify_ekyc (Some 0))
    = None.
Proof.
  split.
  - apply (one_click_per_button page0 verify_ekyc 0 full_run
             (state_after page0 full_run)).
    + discriminate.
    + vm_compute. reflexivity.
  - vm_compute. reflexivity.
Defined.

(** ** The failure of a verify action *)

Lemma set_actionStatus_twice v w r :
  set_actionStatus v (set_actionStatus w r) = set_actionStatus v r.
Proof. unfold set_actionStatus. simpl. rewrite assign_assign. reflexivity. Qed.

(** When a verify action fails, the handler sets the row's action-status
    caption to " Failed" when the parsed JSON has a falsy [success] and
    the value [data && data.error] that it logs converts to text, and to
    " Error" when an exception is thrown: by the fetch or the JSON
    decoding, or by the conversion of that value.  It does nothing else:
    the status label and both buttons of the row are as before, so
    neither button can be clicked, the done message is not shown and no
    reload is scheduled. *)
Theorem verify_failure (p : Page) (s : State) (k i : nat) (o : outcome)
    (r : Row) :
  reachable p s -> reloaded s = false ->
  pending s !! k = Some (Fetching verify_ekyc i) ->
  rows (page s) !! i = Some r ->
  (o = Threw \/ exists data, o = Parsed data /\ succeeded data = false) ->
  exists s',
    step s (Response k o) = Some s' /\
    rows (page s') !! i =
      Some (set_actionStatus
              (match o with
               | Threw => " Error"
               | Parsed data =>
                   match toString (if truthy data then get data "error"
                                   else data) with
                   | Some _ => " Failed"
                   | None => " Error"
                   end
               end) r) /\
    ~ enabled (recordBtn r) /\ ~ enabled (verifyBtn r) /\
    doneMsg (page s') = doneMsg (page s) /\
    pending s' = delete k (pending s).
Proof.
  intros Hreach Hrl Hk Hr Ho.
  destruct (fetching_buttons p s k _ i r Hreach Hk Hr) as [_ [Hq1 Hq2]].
  set (s0 := with_pending (delete k (pending s)) s).
  exists (verify_response i o s0).
  split; [apply (response_step s k o verify_ekyc i Hrl Hk)|].
  unfold verify_response.
  destruct Ho as [->|(data & -> & Hs)]; [|rewrite Hs]; simpl;
    rewrite list_lookup_alter_eq, Hr; [auto|].
  unfold failure_row, failure_message, js_and, catch.
  destruct (toString (if truthy data then get data "error" else data));
    simpl; rewrite ?set_actionStatus_twice; auto.
Qed.

Lemma verify_failure_witness :
  (exists s',
      step verifying (Response 0 (Parsed refused)) = Some s' /\
      rows (page s') !! 0 =
        Some (mkRow (Some "42") (Some "trainee") (Some "Recorded")
                    (Some " Failed") (Some true) (Some true)) /\
      doneMsg (page s') = Some "none" /\
      pending s' = []) /\
  (exists s',
      step verifying (Response 0 (Parsed refused_no_text)) = Some s' /\
      rows (page s') !! 0 =
        Some (mkRow (Some "42") (Some "trainee") (Some "Recorded")
                    (Some " Error") (Some true) (Some true)) /\
      doneMsg (page s') = Some "none" /\
      pending s' = []).
Proof.
  split.
  - destruct (verify_failure page0 verifying 0 0 (Parsed refused)
                (mkRow (Some "42") (Some "trainee") (Some "Recorded")
                       (Some " Verifying...") (Some true) (Some true))
                reachable_verifying eq_refl eq_refl eq_refl
                (or_intror (ex_intro _ refused (conj eq_refl eq_refl))))
      as (s' & H1 & H2 & _ & _ & H3 & H4).
    exists s'. auto.
  - destruct (verify_failure page0 verifying 0 0 (Parsed refused_no_text)
                (mkRow (Some "42") (Some "trainee") (Some "Recorded")
                       (Some " Verifying...") (Some true) (Some true))
                reachable_verifying eq_refl eq_refl eq_refl
                (or_intror
                   (ex_intro _ refused_no_text (conj eq_refl eq_refl))))
      as (s' & H1 & H2 & _ & _ & H3 & H4).
    exists s'. auto.
Defined.

(** ** Rows that are stuck *)

Lemma step_stuck i s e s' :
  stuck i s -> step s e = Some s' ->
  stuck i s' /\ rows (page s') !! i = rows (page s) !! i.
Proof.
  intros [H0 Hq] H. apply step_turn in H as [_ H].
  destruct H as [Hb Ha|a j r Hr Hb Ha|k ms c Hk|k a j o Hk|c|e Hig];
    try (split; [split; assumption|reflexivity]).
  - split; [|reflexivity]. split; [|exact Hq].
    simpl. rewrite inflight_app, H0. reflexivity.
  - assert (Hne : j <> i).
    { intros ->. exact (quiet_button a r (Hq r Hr) Hb). }
    assert (Hsame : rows (page (action_click a j r s)) !! i
                    = rows (page s) !! i).
    { unfold action_click. simpl. apply list_lookup_alter_ne, Hne. }
    split; [|exact Hsame]. split.
    + simpl. rewrite inflight_app, H0. simpl.
      rewrite (concerns_other _ a i j); [reflexivity|reflexivity|congruence].
    + intros r'. rewrite Hsame. apply Hq.
  - split; [|rewrite run_cont_rows; reflexivity]. split.
    + destruct c as [|a j pid role|]; simpl;
        try (apply inflight_delete_idle, H0).
      rewrite inflight_app, (inflight_delete_idle i _ k H0). simpl.
      rewrite (concerns_other _ a i j); [reflexivity|reflexivity|].
      eapply idle_not_pending; [exact H0|exact Hk|reflexivity].
    + intros r'. rewrite run_cont_rows. apply Hq.
  - assert (Hne : j <> i).
    { intros ->. eapply idle_not_pending; [exact H0|exact Hk|reflexivity|].
      reflexivity. }
    pose proof (response_rows_other a j o
                  (with_pending (delete k (pending s)) s) i Hne) as Hsame.
    destruct (action_response_shape a j o
                (with_pending (delete k (pending s)) s))
      as (f & extra & _ & Hpend & Hextra).
    split; [|exact Hsame]. split.
    + rewrite Hpend. simpl.
      rewrite inflight_app, (inflight_delete_idle i _ k H0).
      destruct Hextra; subst; reflexivity.
    + intros r'. rewrite Hsame. apply Hq.
Qed.

Lemma run_stuck i es : forall s s',
  stuck i s -> run s es = Some s' ->
  stuck i s' /\ rows (page s') !! i = rows (page s) !! i.
Proof.
  induction es as [|e es IH]; simpl; intros s s' Hst H.
  - injection H as <-. auto.
  - destruct (step s e) as [s1|] eqn:E; [|discriminate].
    destruct (step_stuck i s e s1 Hst E) as [Hst1 Hrow1].
    destruct (IH s1 s' Hst1 H) as [Hst' Hrow']. split; [exact Hst'|].
    rewrite Hrow'. exact Hrow1.
Qed.

Lemma quiet_record_failure o r :
  (o = Threw \/ exists data, o = Parsed data /\ succeeded data = false) ->
  quiet r -> quiet (record_response_row o r).
Proof.
  intros [->|(data & -> & Hs)] Hq; simpl; [exact Hq|].
  unfold record_try. rewrite Hs. unfold quiet.
  destruct (failure_row_buttons "record failed: " data r) as (-> & -> & _).
  exact Hq.
Qed.

Lemma dead_end_stuck p s k a i o s1 :
  reachable p s -> pending s !! k = Some (Fetching a i) ->
  dead_end a o -> step s (Response k o) = Some s1 ->
  stuck i s1.
Proof.
  intros Hreach Hk Hdead H.
  rewrite (response_turn s k o s1 a i H Hk).
  assert (Hlt : i < length (rows (page s))).
  { eapply (reachable_in_range p s Hreach (Fetching a i) a i);
      [eapply list_elem_of_lookup_2, Hk|reflexivity]. }
  destruct (lookup_lt_is_Some_2 _ _ Hlt) as [r Hr].
  destruct (fetching_buttons p s k a i r Hreach Hk Hr) as [_ Hquiet].
  destruct (reachable_Inv p s Hreach i r Hr) as [Hn _].
  set (s0 := with_pending (delete k (pending s)) s).
  destruct (action_response_shape a i o s0)
    as (f & extra & Hrows & Hpend & Hextra).
  split.
  - rewrite Hpend, inflight_app.
    replace (inflight i extra) with 0
      by (destruct Hextra; subst; reflexivity).
    rewrite (inflight_delete i _ k _ Hk) in Hn.
    unfold concerns in Hn. simpl in *. rewrite Nat.eqb_refl in Hn. lia.
  - intros r' Hr'. destruct a.
    + destruct Hdead as [Hv|Hfail]; [discriminate|].
      simpl in Hr'. rewrite list_lookup_alter_eq, Hr in Hr'.
      injection Hr' as <-. apply quiet_record_failure; assumption.
    + exact (quiet_verify_response i o s0 i r r' Hr Hr' Hquiet).
Qed.

(** A row is a dead end after every response but the success of its
    record action: after a failed record, and after a verify whatever
    its outcome, no later event of the page changes anything in the row,
    no click on either of its buttons is accepted, and the row starts no
    further action. *)
Theorem dead_end_freezes_row (p : Page) (s : State) (k : nat) (a : action)
    (i : nat) (o : outcome) (s1 : State) (es : list event) (s2 : State) :
  reachable p s ->
  pending s !! k = Some (Fetching a i) ->
  dead_end a o ->
  step s (Response k o) = Some s1 ->
  run s1 es = Some s2 ->
  rows (page s2) !! i = rows (page s1) !! i /\
  (forall b, step s2 (Click b (Some i)) = None) /\
  inflight i (pending s2) = 0.
Proof.
  intros Hreach Hk Hdead Hstep Hrun.
  pose proof (dead_end_stuck p s k a i o s1 Hreach Hk Hdead Hstep) as Hst.
  destruct (run_stuck i es s1 s2 Hst Hrun) as [[H0 Hq] Hrow].
  split; [exact Hrow|]. split; [|exact H0].
  intros b. unfold step. destruct (reloaded s2); [reflexivity|].
  destruct (rows (page s2) !! i) as [r2|] eqn:Er; [|reflexivity].
  pose proof (quiet_button b r2 (Hq r2 eq_refl)) as Hb.
  destruct (button b r2) as [[]|]; try reflexivity. congruence.
Qed.

Lemma dead_end_freezes_row_witness :
  exists s1 s2,
    step recording (Response 0 (Parsed refused)) = Some s1 /\
    run s1 [ClickOther; CookieChange ""] = Some s2 /\
    rows (page s2) !! 0 = rows (page s1) !! 0 /\
    (forall b, step s2 (Click b (Some 0)) = None) /\
    inflight 0 (pending s2) = 0.
Proof.
  do 2 eexists.
  split; [vm_compute; reflexivity|].
  split; [vm_compute; reflexivity|].
  eapply (dead_end_freezes_row page0 recording 0 record_fingerprint 0
            (Parsed refused) _ [ClickOther; CookieChange ""]).
  - exact reachable_recording.
  - reflexivity.
  - right. right. exists refused. split; reflexivity.
  - vm_compute. reflexivity.
  - vm_compute. reflexivity.
Defined.

(** ** Where the scan stops *)

Lemma reads_verified_false r t :
  ekyc_status r = Some t -> toLowerCase (trim t) <> "verified" ->
  reads_verified r = Some false.
Proof.
  unfold reads_verified. intros -> Hne.
  destruct (String.eqb (toLowerCase (trim t)) "verified") eqn:E;
    [|reflexivity].
  apply String.eqb_eq in E. contradiction.
Qed.

(** [every] answers [false] at the first row whose label does not read
    verified, and looks at no row after it. *)
Lemma every_stops l j rj t :
  scanned l j -> l !! j = Some rj ->
  ekyc_status rj = Some t -> ~ reads_as_verified t ->
  every reads_verified l = Some false.
Proof.
  rewrite scanned_visited, <- reads_as_verified_trim.
  unfold visited, all_verified. revert j.
  induction l as [|r l IH]; intros [|j] [Hlt Hall] Hj Hst Hne;
    simpl in *; try discriminate.
  - injection Hj as ->. rewrite (reads_verified_false rj t Hst Hne).
    reflexivity.
  - inversion Hall as [|? ? Hr Hall']; subst.
    apply reads_verified_true in Hr. rewrite Hr.
    apply (IH j); [split; [lia|exact Hall']|exact Hj|exact Hst|exact Hne].
Qed.

(** The scan of the verify handler stops at the first row whose status
    label does not read verified.  When the handler has set the row's
    status label from a successful verify response and the scan reaches
    such a row, the action ends with the caption " Verified", without
    done message and without reload, whatever the rows after it are
    like: a later row without a status label is not looked at and throws
    nothing. *)
Theorem scan_stops_at_first_unverified (s : State) (k i j : nat)
    (data : jsval) (r rj : Row) (t txt : string) :
  reloaded s = false ->
  pending s !! k = Some (Fetching verify_ekyc i) ->
  rows (page s) !! i = Some r ->
  succeeded data = true ->
  toString (label_of data "Verified") = Some txt ->
  let r1 := set_verifyBtn true
              (set_recordBtn true
                 (set_actionStatus " Verified" (set_ekyc_status txt r))) in
  let table := <[i := r1]> (rows (page s)) in
  scanned table j ->
  table !! j = Some rj ->
  ekyc_status rj = Some t ->
  ~ reads_as_verified t ->
  exists s',
    step s (Response k (Parsed data)) = Some s' /\
    rows (page s') = table /\
    rows (page s') !! i = Some r1 /\
    actionStatus r1 = assign " Verified" (actionStatus r) /\
    doneMsg (page s') = doneMsg (page s) /\
    pending s' = delete k (pending s).
Proof.
  intros Hrl Hk Hr Hs Htxt r1 table Hsc Hj Hst Hne.
  assert (Htable : table = alter (verify_success_row data) i (rows (page s))).
  { unfold table, r1. rewrite <- (verify_success_row_text data r txt Htxt).
    symmetry. apply alter_as_insert, Hr. }
  pose proof (every_stops table j rj t Hsc Hj Hst Hne) as Hfalse.
  set (s0 := with_pending (delete k (pending s)) s).
  exists (verify_response i (Parsed data) s0).
  split; [apply (response_step s k (Parsed data) verify_ekyc i Hrl Hk)|].
  rewrite (verify_success_state i data s0 Hs).
  rewrite (verify_update_completes data i s0 txt Htxt). simpl.
  rewrite <- Htable, Hfalse. simpl.
  split; [symmetry; exact Htable|]. split; [|auto].
  rewrite list_lookup_alter_eq, Hr. simpl.
  rewrite (verify_success_row_text data r txt Htxt). reflexivity.
Qed.

Lemma scan_stops_at_first_unverified_witness :
  exists s',
    step verifying_mixed (Response 0 (Parsed verified_ok)) = Some s' /\
    rows (page s') !! 0 =
      Some (mkRow (Some "42") (Some "trainee") (Some "Verified")
                  (Some " Verified") (Some true) (Some true)) /\
    rows (page s') !! 2 = Some bare_row /\
    doneMsg (page s') = Some "none" /\
    pending s' = [].
Proof.
  destruct (scan_stops_at_first_unverified verifying_mixed 0 0 1 verified_ok
              (mkRow (Some "42") (Some "trainee") (Some "Recorded")
                     (Some " Verifying...") (Some true) (Some true))
              row_open "Recorded" "Verified" eq_refl eq_refl eq_refl eq_refl
              eq_refl)
    as (s' & H1 & H2 & H3 & _ & H4 & H5).
  - split; [simpl; lia|].
    constructor; [|constructor]. exists "Verified".
    split; [reflexivity|]. apply reads_as_verified_word. reflexivity.
  - reflexivity.
  - reflexivity.
  - apply reads_as_verified_not. reflexivity.
  - exists s'. split; [exact H1|]. split; [exact H3|].
    split; [rewrite H2; reflexivity|]. split; [exact H4|exact H5].
Defined.

(** ** When the page reloads *)

Lemma reload_timer_dec (l : list task) :
  (exists ms, Timer ms Reload ∈ l) \/ ~ (exists ms, Timer ms Reload ∈ l).
Proof.
  induction l as [|t l [IH|IH]].
  - right. intros [ms H]. inversion H.
  - left. destruct IH as [ms H]. exists ms. right. exact H.
  - destruct t as [ms [| |]|].
    + right. intros [ms' H]. apply elem_of_cons in H as [H|H];
        [discriminate|]. apply IH. eauto.
    + right. intros [ms' H]. apply elem_of_cons in H as [H|H];
        [discriminate|]. apply IH. eauto.
    + left. exists ms. left.
    + right. intros [ms' H]. apply elem_of_cons in H as [H|H];
        [discriminate|]. apply IH. eauto.
Qed.

Lemma reloading_dec s : reloading s \/ ~ reloading s.
Proof.
  unfold reloading. destruct (reloaded s).
  - left. left. reflexivity.
  - destruct (reload_timer_dec (pending s)) as [H|H].
    + left. right. exact H.
    + right. intros [Hr|Ht]; [discriminate|contradiction].
Qed.

Lemma reload_timer_snoc (l : list task) t ms :
  Timer ms Reload ∈ l ++ [t] -> t <> Timer ms Reload ->
  Timer ms Reload ∈ l.
Proof.
  intros [H|H]%elem_of_app Hne; [exact H|].
  apply list_elem_of_singleton in H. congruence.
Qed.

Lemma verify_response_reloading i o s :
  ~ (exists ms, Timer ms Reload ∈ pending s) ->
  reloading (verify_response i o s) ->
  reloaded s = true \/
  exists data,
    o = Parsed data /\ succeeded data = true /\
    all_verified (rows (page (verify_response i o s))).
Proof.
  intros Hno Hre. unfold reloading in Hre.
  destruct o as [|data].
  - destruct Hre as [Hr|[ms Ht]]; [left; exact Hr|].
    exfalso. apply Hno. exists ms. exact Ht.
  - destruct (succeeded data) eqn:Hs.
    + pose proof (verify_success_scan i data s Hs) as Hscan.
      rewrite (verify_success_state i data s Hs) in Hre. simpl in Hre.
      destruct (verify_update_threw data i s); simpl in Hre.
      { destruct Hre as [Hr|[ms Ht]]; [left; exact Hr|].
        exfalso. apply Hno. exists ms. exact Ht. }
      destruct (every reads_verified
                  (alter (verify_success_row data) i (rows (page s))))
        as [[]|] eqn:E; simpl in Hre.
      * right. exists data. split; [reflexivity|]. split; [exact Hs|].
        apply every_all_verified. rewrite Hscan. reflexivity.
      * destruct Hre as [Hr|[ms Ht]]; [left; exact Hr|].
        exfalso. apply Hno. exists ms. exact Ht.
      * destruct Hre as [Hr|[ms Ht]]; [left; exact Hr|].
        exfalso. apply Hno. exists ms. exact Ht.
    + unfold verify_response in Hre. rewrite Hs in Hre. simpl in Hre.
      destruct Hre as [Hr|[ms Ht]]; [left; exact Hr|].
      exfalso. apply Hno. exists ms. exact Ht.
Qed.

(** The one turn that starts a reload is a verify response with a truthy
    [success] after which every row reads verified. *)
Lemma reloading_step s e s' :
  step s e = Some s' -> ~ reloading s -> reloading s' ->
  exists i, succeeds verify_ekyc i s e /\ all_verified (rows (page s')).
Proof.
  intros H Hno Hre.
  assert (Hrl : reloaded s <> true) by (intros Hr; apply Hno; left; exact Hr).
  assert (Hnt : forall ms, ~ Timer ms Reload ∈ pending s).
  { intros ms Hin. apply Hno. right. exists ms. exact Hin. }
  apply step_turn in H as [_ H].
  destruct H as [Hb Ha|a j r Hr Hb Ha|k ms c Hk|k a j o Hk|c|e Hig];
    try contradiction.
  - exfalso. destruct Hre as [Hr|[ms Hin]]; [exact (Hrl Hr)|].
    simpl in Hin. apply reload_timer_snoc in Hin; [|discriminate].
    exact (Hnt ms Hin).
  - exfalso. destruct Hre as [Hr'|[ms Hin]]; [exact (Hrl Hr')|].
    simpl in Hin. apply reload_timer_snoc in Hin; [|discriminate].
    exact (Hnt ms Hin).
  - exfalso. destruct c as [|a j pid role|].
    + destruct Hre as [Hr|[ms' Hin]]; [exact (Hrl Hr)|].
      unfold test_timeout in Hin. simpl in Hin.
      apply list_elem_of_delete_inv in Hin. exact (Hnt ms' Hin).
    + destruct Hre as [Hr|[ms' Hin]]; [exact (Hrl Hr)|].
      simpl in Hin. apply reload_timer_snoc in Hin; [|discriminate].
      apply list_elem_of_delete_inv in Hin. exact (Hnt ms' Hin).
    + apply (Hnt ms). eapply list_elem_of_lookup_2, Hk.
  - destruct a.
    + exfalso. destruct Hre as [Hr|[ms' Hin]]; [exact (Hrl Hr)|].
      simpl in Hin. apply list_elem_of_delete_inv in Hin. exact (Hnt ms' Hin).
    + destruct (verify_response_reloading j o
                  (with_pending (delete k (pending s)) s))
        as [Hr|(data & -> & Hs & Hall)].
      * intros [ms' Hin]. simpl in Hin.
        apply list_elem_of_delete_inv in Hin. exact (Hnt ms' Hin).
      * exact Hre.
      * exfalso. exact (Hrl Hr).
      * exists j. split; [|exact Hall]. exists k, data. auto.
Qed.

Lemma reloading_run es : forall s0 s,
  ~ reloading s0 -> run s0 es = Some s -> reloading s ->
  exists es1 e es2 s1 s1' i,
    es = es1 ++ e :: es2 /\ run s0 es1 = Some s1 /\
    succeeds verify_ekyc i s1 e /\ step s1 e = Some s1' /\
    all_verified (rows (page s1')).
Proof.
  induction es as [|e es IH]; simpl; intros s0 s Hno Hrun Hre.
  - injection Hrun as <-. contradiction.
  - destruct (step s0 e) as [s1|] eqn:E; [|discriminate].
    destruct (reloading_dec s1) as [Hre1|Hno1].
    + destruct (reloading_step s0 e s1 E Hno Hre1) as (i & Hs & Hall).
      exists [], e, es, s0, s1, i. auto.
    + destruct (IH s1 s Hno1 Hrun Hre)
        as (es1 & e' & es2 & s2 & s2' & i & -> & Hrun1 & Hs & Hstep & Hall).
      exists (e :: es1), e', es2, s2, s2', i. simpl. rewrite E. auto.
Qed.

(** The page reloads only when every row is verified: over any run of
    the widget, if the 900 ms reload timer is pending or the page has
    reloaded, then earlier in the run a verify response with a truthy
    [success] arrived after which every row of the table had a status
    label reading verified. *)
Theorem reload_only_when_all_verified (p : Page) (es : list event)
    (s : State) :
  run (init p) es = Some s ->
  reloading s ->
  exists es1 e es2 s1 s1' i,
    es = es1 ++ e :: es2 /\ run (init p) es1 = Some s1 /\
    succeeds verify_ekyc i s1 e /\ step s1 e = Some s1' /\
    all_verified (rows (page s1')).
Proof.
  intros Hrun Hre. apply (reloading_run es (init p) s); [|exact Hrun|exact Hre].
  intros [Hr|[ms Hin]]; [discriminate|inversion Hin].
Qed.

Lemma reload_only_when_all_verified_witness :
  reloaded (state_after page0 (full_run ++ [TimerFires 0])) = true /\
  exists es1 e es2 s1 s1' i,
    full_run ++ [TimerFires 0] = es1 ++ e :: es2 /\
    run (init page0) es1 = Some s1 /\
    succeeds verify_ekyc i s1 e /\ step s1 e = Some s1' /\
    all_verified (rows (page s1')).
Proof.
  split; [vm_compute; reflexivity|].
  apply (reload_only_when_all_verified page0 (full_run ++ [TimerFires 0])
           (state_after page0 (full_run ++ [TimerFires 0]))).
  - vm_compute. reflexivity.
  - left. vm_compute. reflexivity.
Defined.

(** ** The phases of the connection test *)

Lemma test_timers_app l1 l2 :
  test_timers (l1 ++ l2) = test_timers l1 + test_timers l2.
Proof.
  induction l1 as [|t l1 IH]; simpl; [reflexivity|].
  destruct t as [ms [| |]|]; simpl; rewrite IH; reflexivity.
Qed.

Lemma test_timers_delete l k t :
  l !! k = Some t -> test_timers l = test_timers [t] + test_timers (delete k l).
Proof.
  revert k. induction l as [|x l IH]; intros [|k] Hk; simpl in *;
    try discriminate.
  - injection Hk as ->. destruct t as [ms [| |]|]; reflexivity.
  - rewrite (IH k Hk).
    destruct x as [ms [| |]|], t as [ms' [| |]|]; simpl; lia.
Qed.

Lemma test_view_response a i o s :
  test_view (page (action_response a i o s)) = test_view (page s).
Proof.
  destruct (action_response_form a i o s) as [f [-> | ->]]; reflexivity.
Qed.

(** A turn that is neither the click on the test button nor the end of
    its timer leaves the test as it is. *)
Lemma step_outside_test s e s' :
  step s e = Some s' ->
  e <> ClickTest \/ attached s = false ->
  (forall k ms, e = TimerFires k -> pending s !! k <> Some (Timer ms AfterTest)) ->
  test_view (page s') = test_view (page s) /\
  test_timers (pending s') = test_timers (pending s).
Proof.
  intros H Hclick Htimer. apply step_turn in H as [_ H].
  destruct H as [Hb Ha|a i r Hr Hb Ha|k ms c Hk|k a i o Hk|c|e Hig].
  - destruct Hclick; congruence.
  - split; [reflexivity|]. simpl. rewrite test_timers_app. simpl. lia.
  - rewrite (test_timers_delete _ k _ Hk).
    destruct c as [|a i pid role|].
    + exfalso. exact (Htimer k ms eq_refl Hk).
    + split; [reflexivity|]. simpl. rewrite test_timers_app. simpl. lia.
    + split; reflexivity.
  - split.
    + apply (test_view_response a i o (with_pending (delete k (pending s)) s)).
    + destruct (action_response_shape a i o
                  (with_pending (delete k (pending s)) s))
        as (f & extra & _ & -> & Hextra).
      simpl. rewrite test_timers_app, (test_timers_delete _ k _ Hk). simpl.
      destruct Hextra; subst; simpl; lia.
  - split; reflexivity.
  - split; reflexivity.
Qed.

Lemma test_timer_pending l k ms :
  l !! k = Some (Timer ms AfterTest) -> 1 <= test_timers l.
Proof.
  intros Hk. rewrite (test_timers_delete l k _ Hk). simpl. lia.
Qed.

(** The phase is carried over a turn that leaves the test as it is. *)
Ltac same_phase H Hphase :=
  let Hv := fresh "Hv" in
  let Ht := fresh "Ht" in
  destruct (step_outside_test _ _ _ H) as [Hv Ht];
  [left; discriminate | try discriminate |
   unfold test_view in Hv; injection Hv as ? ? ? ? ?;
   unfold test_idle, test_running, test_done;
   repeat match goal with
          | E : _ (page _) = _ (page _) |- _ => rewrite E; clear E
          end;
   rewrite Ht; exact Hphase].

(** From each phase, turn by turn: the test leaves the first phase only
    by a click on a test button that was served enabled, the second only
    by the end of its timer, and the third not at all. *)
Lemma step_test_idle p s e s' :
  wired s -> test_idle p s -> step s e = Some s' ->
  test_idle p s' \/ (testBtn p = Some false /\ test_running p s').
Proof.
  intros HW Hphase H.
  destruct e as [|a row| |k|k o|c].
  - unfold step in H. destruct (reloaded s); [discriminate|].
    destruct (testBtn (page s)) as [[]|] eqn:Eb; try discriminate.
    assert (Ha : attached s = true) by (apply HW; eauto).
    rewrite Ha in H. injection H as <-.
    destruct Hphase as (H1 & H2 & H3 & H4 & H5 & H6).
    right. split; [congruence|]. unfold test_running. simpl.
    rewrite Eb, H2, H3, H4, H5, test_timers_app, H6. repeat split.
  - left. same_phase H Hphase.
  - left. same_phase H Hphase.
  - destruct (pending s !! k) as [[ms [|a i pid role|]|a i]|] eqn:Ek.
    + pose proof (test_timer_pending _ k ms Ek) as Hpos.
      destruct Hphase as (_ & _ & _ & _ & _ & H6). lia.
    + left. same_phase H Hphase.
      intros k' ms' [= <-]. rewrite Ek. discriminate.
    + left. same_phase H Hphase.
      intros k' ms' [= <-]. rewrite Ek. discriminate.
    + unfold step in H. destruct (reloaded s); [discriminate|].
      rewrite Ek in H. discriminate.
    + unfold step in H. destruct (reloaded s); [discriminate|].
      rewrite Ek in H. discriminate.
  - left. same_phase H Hphase.
  - left. same_phase H Hphase.
Qed.

Lemma step_test_running p s e s' :
  test_running p s -> step s e = Some s' ->
  test_running p s' \/ test_done p s'.
Proof.
  intros Hphase H.
  destruct e as [|a row| |k|k o|c].
  - unfold step in H. destruct (reloaded s); [discriminate|].
    destruct Hphase as (H1 & _). rewrite H1 in H. discriminate.
  - left. same_phase H Hphase.
  - left. same_phase H Hphase.
  - destruct (pending s !! k) as [[ms [|a i pid role|]|a i]|] eqn:Ek.
    + pose proof (test_timers_delete _ k _ Ek) as Hdel. simpl in Hdel.
      unfold step in H. destruct (reloaded s); [discriminate|].
      rewrite Ek in H. injection H as <-.
      destruct Hphase as (H1 & H2 & H3 & H4 & H5 & H6).
      right. unfold test_done, test_timeout. simpl.
      destruct (first_enabled_record (rows (page s))); simpl;
        rewrite H1, H2, H3, H4, !assign_assign;
        repeat split; lia.
    + left. same_phase H Hphase.
      intros k' ms' [= <-]. rewrite Ek. discriminate.
    + left. same_phase H Hphase.
      intros k' ms' [= <-]. rewrite Ek. discriminate.
    + unfold step in H. destruct (reloaded s); [discriminate|].
      rewrite Ek in H. discriminate.
    + unfold step in H. destruct (reloaded s); [discriminate|].
      rewrite Ek in H. discriminate.
  - left. same_phase H Hphase.
  - left. same_phase H Hphase.
Qed.

Lemma step_test_done p s e s' :
  test_done p s -> step s e = Some s' -> test_done p s'.
Proof.
  intros Hphase H.
  destruct e as [|a row| |k|k o|c].
  - unfold step in H. destruct (reloaded s); [discriminate|].
    destruct Hphase as (H1 & _). rewrite H1 in H. discriminate.
  - same_phase H Hphase.
  - same_phase H Hphase.
  - destruct (pending s !! k) as [[ms [|a i pid role|]|a i]|] eqn:Ek.
    + pose proof (test_timer_pending _ k ms Ek) as Hpos.
      destruct Hphase as (_ & _ & _ & _ & H6). lia.
    + same_phase H Hphase.
      intros k' ms' [= <-]. rewrite Ek. discriminate.
    + same_phase H Hphase.
      intros k' ms' [= <-]. rewrite Ek. discriminate.
    + unfold step in H. destruct (reloaded s); [discriminate|].
      rewrite Ek in H. discriminate.
    + unfold step in H. destruct (reloaded s); [discriminate|].
      rewrite Ek in H. discriminate.
  - same_phase H Hphase.
  - same_phase H Hphase.
Qed.

Lemma run_test_done p es : forall s s',
  test_done p s -> run s es = Some s' -> test_done p s'.
Proof.
  induction es as [|e es IH]; simpl; intros s s' Hd H.
  - injection H as <-. exact Hd.
  - destruct (step s e) as [s1|] eqn:E; [|discriminate].
    exact (IH s1 s' (step_test_done p s e s1 Hd E) H).
Qed.

Lemma run_test_running p es : forall s s',
  test_running p s -> run s es = Some s' ->
  test_running p s' \/ test_done p s'.
Proof.
  induction es as [|e es IH]; simpl; intros s s' Hr H.
  - injection H as <-. left. exact Hr.
  - destruct (step s e) as [s1|] eqn:E; [|discriminate].
    destruct (step_test_running p s e s1 Hr E) as [Hr1|Hd1].
    + exact (IH s1 s' Hr1 H).
    + right. exact (run_test_done p es s1 s' Hd1 H).
Qed.

Lemma reachable_test_phase p s :
  reachable p s ->
  test_idle p s \/
  (testBtn p = Some false /\ (test_running p s \/ test_done p s)).
Proof.
  intros Hreach.
  assert (H : wired s /\
              (test_idle p s \/
               (testBtn p = Some false /\
                (test_running p s \/ test_done p s)))).
  { revert s Hreach.
    apply (reachable_ind
             (fun s => wired s /\
                       (test_idle p s \/
                        (testBtn p = Some false /\
                         (test_running p s \/ test_done p s))))).
    - split; [apply (reachable_wired p); exists []; reflexivity|].
      left. repeat split.
    - intros s0 e s1 [HW Hph] Hstep.
      split; [exact (step_wired s0 e s1 HW Hstep)|].
      destruct Hph as [Hi|[Hb [Hr|Hd]]].
      + destruct (step_test_idle p s0 e s1 HW Hi Hstep) as [Hi1|[Hb Hr1]];
          auto.
      + right. split; [exact Hb|].
        exact (step_test_running p s0 e s1 Hr Hstep).
      + right. split; [exact Hb|]. right.
        exact (step_test_done p s0 e s1 Hd Hstep). }
  exact (proj2 H).
Qed.

Lemma reachable_run p s es s' :
  reachable p s -> run s es = Some s' -> reachable p s'.
Proof.
  intros [es0 H0] H. exists (es0 ++ es). rewrite run_app, H0. exact H.
Qed.

(** The connection test goes through three phases and never back.  In
    every reachable state the test button, the status text, the loader
    and the participants container are either all as the page was served
    (no test timer pending), or the test button was served enabled and
    is now disabled, with "Testing..." and the loader shown while
    exactly one test timer is pending, or with "Connection succeeded!",
    the loader hidden and the container revealed.  A pending test timer
    has a delay of 2000 ms.  And from any reachable state on: a test
    that is running stays so or finishes, a test that has finished stays
    finished (so nothing hides the container again), and on a page
    served with the test button enabled a test that has started is never
    again as served. *)
Theorem test_phases (p : Page) (s : State) :
  reachable p s ->
  (test_idle p s \/
   (testBtn p = Some false /\ (test_running p s \/ test_done p s))) /\
  (forall ms, Timer ms AfterTest ∈ pending s -> ms = 2000) /\
  (forall es s',
      run s es = Some s' ->
      (test_running p s -> test_running p s' \/ test_done p s') /\
      (test_done p s -> test_done p s') /\
      (testBtn p = Some false -> ~ test_idle p s -> ~ test_idle p s')).
Proof.
  intros Hreach. split; [exact (reachable_test_phase p s Hreach)|]. split.
  - intros ms Hin.
    pose proof (reachable_delay_ok p s Hreach) as HD.
    rewrite Forall_forall in HD. exact (HD _ Hin).
  - intros es s' Hrun. split; [|split].
    + intros Hr. exact (run_test_running p es s s' Hr Hrun).
    + intros Hd. exact (run_test_done p es s s' Hd Hrun).
    + intros Hb Hni Hi'.
      assert (Hon : testBtn (page s') = Some true).
      { destruct (reachable_test_phase p s Hreach) as [Hi|[_ [Hr|Hd]]].
        - contradiction.
        - destruct (run_test_running p es s s' Hr Hrun) as [(H1 & _)|(H1 & _)];
            exact H1.
        - destruct (run_test_done p es s s' Hd Hrun) as (H1 & _). exact H1. }
      destruct Hi' as (H1 & _). congruence.
Qed.

Lemma test_phases_witness :
  test_running page0 (state_after page0 [ClickTest]) /\
  (forall ms,
      Timer ms AfterTest ∈ pending (state_after page0 [ClickTest]) ->
      ms = 2000) /\
  test_done page0 (state_after page0 full_run) /\
  ~ test_idle page0 (state_after page0 full_run).
Proof.
  assert (Hreach : reachable page0 (state_after page0 [ClickTest]))
    by (exists [ClickTest]; vm_compute; reflexivity).
  destruct (test_phases page0 (state_after page0 [ClickTest]) Hreach)
    as (Hphase & Hdelay & Hlater).
  assert (Hrun : run (state_after page0 [ClickTest]) (tail full_run)
                 = Some (state_after page0 full_run))
    by (vm_compute; reflexivity).
  destruct (Hlater (tail full_run) (state_after page0 full_run) Hrun)
    as (Hfrom_running & _ & Hnot_idle).
  assert (Hr : test_running page0 (state_after page0 [ClickTest])).
  { destruct Hphase as [(H & _)|[_ [H|(_ & _ & _ & H & _)]]].
    - vm_compute in H. discriminate.
    - exact H.
    - vm_compute in H. discriminate. }
  split; [exact Hr|]. split; [exact Hdelay|]. split.
  - destruct (Hfrom_running Hr) as [(_ & H & _)|H]; [|exact H].
    vm_compute in H. discriminate.
  - apply Hnot_idle; [reflexivity|].
    intros (H & _). vm_compute in H. discriminate.
Defined.

Lemma test_button_off_step s e s' :
  step s e = Some s' ->
  ~ enabled (testBtn (page s)) -> ~ enabled (testBtn (page s')).
Proof.
  unfold enabled. intros H Hoff. apply step_turn in H as [_ H].
  destruct H as [Hb Ha|a i r Hr Hb Ha|k ms c Hk|k a i o Hk|c|e Hig];
    try exact Hoff.
  - simpl. apply assign_true_not_enabled.
  - destruct c; simpl; try exact Hoff.
    unfold test_timeout. simpl.
    destruct (first_enabled_record (rows (page s))); exact Hoff.
  - pose proof (test_view_response a i o
                  (with_pending (delete k (pending s)) s)) as Hv.
    unfold test_view in Hv. injection Hv as -> _ _ _ _. exact Hoff.
Qed.

Lemma no_test_click_when_off es : forall s s',
  run s es = Some s' -> ~ enabled (testBtn (page s)) -> test_clicks es = 0.
Proof.
  induction es as [|e es IH]; intros s s' Hrun Hoff; [reflexivity|].
  simpl in Hrun. destruct (step s e) as [s1|] eqn:E; [|discriminate].
  pose proof (test_button_off_step s e s1 E Hoff) as Hoff1.
  destruct e as [|a row| |k|k o|c]; simpl;
    try exact (IH s1 s' Hrun Hoff1).
  exfalso. unfold step in E. destruct (reloaded s); [discriminate|].
  destruct (testBtn (page s)) as [[]|] eqn:Eb; try discriminate.
  apply Hoff. reflexivity.
Qed.

Lemma at_most_one_test es : forall s s',
  wired s -> run s es = Some s' -> test_clicks es <= 1.
Proof.
  induction es as [|e es IH]; intros s s' HW Hrun; [simpl; lia|].
  simpl in Hrun. destruct (step s e) as [s1|] eqn:E; [|discriminate].
  pose proof (step_wired s e s1 HW E) as HW1.
  destruct e as [|a row| |k|k o|c]; simpl;
    try exact (IH s1 s' HW1 Hrun).
  assert (H0 : test_clicks es = 0); [|lia].
  apply (no_test_click_when_off es s1 s' Hrun).
  unfold step in E. destruct (reloaded s); [discriminate|].
  destruct (testBtn (page s)) as [[]|] eqn:Eb; try discriminate.
  assert (Ha : attached s = true) by (apply HW; eauto).
  rewrite Ha in E. injection E as <-. simpl. rewrite Eb.
  unfold enabled. simpl. discriminate.
Qed.

(** The connection test runs once: the click handler disables the test
    button before anything else and no handler enables it again, so over
    any run of the widget at most one click on it is accepted. *)
Theorem test_runs_once (p : Page) (es : list event) (s : State) :
  run (init p) es = Some s -> test_clicks es <= 1.
Proof.
  intros Hrun. apply (at_most_one_test es (init p) s); [|exact Hrun].
  apply (reachable_wired p). exists []. reflexivity.
Qed.

Lemma test_runs_once_witness :
  test_clicks full_run <= 1 /\
  step (state_after page0 full_run) ClickTest = None.
Proof.
  split.
  - apply (test_runs_once page0 full_run (state_after page0 full_run)).
    vm_compute. reflexivity.
  - vm_compute. reflexivity.
Defined.

(** ** The requests of a page *)

Lemma request_ok_make a pid role s :
  request_ok (endpoint s) (make_request a pid role s).
Proof.
  unfold request_ok, make_request. simpl.
  split; [reflexivity|]. split; [reflexivity|]. split; [eauto|].
  exists (action_name a), (str_of pid), (str_of role).
  split; [destruct a; auto|reflexivity].
Qed.

Lemma step_sent s e s' :
  step s e = Some s' ->
  sent s' = sent s \/
  exists a pid role, sent s' = sent s ++ [make_request a pid role s].
Proof.
  intros H. apply step_turn in H as [_ H].
  destruct H as [Hb Ha|a i r Hr Hb Ha|k ms c Hk|k a i o Hk|c|e Hig];
    try (left; reflexivity).
  - destruct c as [|a i pid role|]; [left; reflexivity| |left; reflexivity].
    right. exists a, pid, role. reflexivity.
  - left. apply (action_response_sent a i o
                   (with_pending (delete k (pending s)) s)).
Qed.

Lemma reachable_requests_ok p s :
  reachable p s -> Forall (request_ok (endpoint (init p))) (sent s).
Proof.
  intros Hreach.
  assert (H : Forall (request_ok (endpoint (init p))) (sent s) /\
              endpoint s = endpoint (init p)).
  { revert s Hreach.
    apply (reachable_ind
             (fun s => Forall (request_ok (endpoint (init p))) (sent s) /\
                       endpoint s = endpoint (init p))).
    - split; [constructor|reflexivity].
    - intros s0 e s1 [Hok Hep] Hstep. split.
      + destruct (step_sent s0 e s1 Hstep) as [->|(a & pid & role & ->)];
          [exact Hok|].
        apply Forall_app. split; [exact Hok|].
        constructor; [|constructor].
        rewrite <- Hep. apply request_ok_make.
      + rewrite (step_endpoint s0 e s1 Hstep). exact Hep. }
  exact (proj1 H).
Qed.

Lemma row_clicks_cons n e es :
  row_clicks n (e :: es) = row_clicks n [e] + row_clicks n es.
Proof.
  induction n as [|n IH]; [reflexivity|]. cbn [row_clicks].
  rewrite (clicks_on_cons record_fingerprint n e es),
          (clicks_on_cons verify_ekyc n e es), IH.
  lia.
Qed.

Lemma row_clicks_click n b j :
  j < n -> row_clicks n [Click b (Some j)] = 1.
Proof.
  induction n as [|n IH]; [lia|]. intros Hlt. simpl.
  destruct (decide (j = n)) as [->|Hne].
  - rewrite Nat.eqb_refl.
    assert (H0 : row_clicks n [Click b (Some n)] = 0).
    { clear IH Hlt. generalize (Nat.le_refl n). generalize n at 1 3.
      induction n0 as [|m IHm]; intros Hle; simpl; [reflexivity|].
      replace (Nat.eqb m n) with false
        by (symmetry; apply Nat.eqb_neq; lia).
      rewrite !andb_false_r. simpl. apply IHm. lia. }
    rewrite H0. destruct b; simpl; reflexivity.
  - replace (Nat.eqb n j) with false by (symmetry; apply Nat.eqb_neq; lia).
    rewrite !andb_false_r. simpl. apply IH. lia.
Qed.

Lemma row_clicks_other n e :
  (forall b j, e <> Click b (Some j)) -> row_clicks n [e] = 0.
Proof.
  intros He. induction n as [|n IH]; simpl; [reflexivity|].
  rewrite IH. destruct e as [|b [j|]| |k|k o|c]; simpl; try reflexivity.
  exfalso. exact (He b j eq_refl).
Qed.

(** Every click accepted on a page lands in one of its rows. *)
Lemma run_row_clicks es : forall s s',
  run s es = Some s' ->
  action_clicks es = row_clicks (length (rows (page s))) es.
Proof.
  induction es as [|e es IH]; intros s s' Hrun.
  - simpl. induction (length (rows (page s))); simpl; auto.
  - simpl in Hrun. destruct (step s e) as [s1|] eqn:E; [|discriminate].
    rewrite action_clicks_cons, row_clicks_cons, (IH s1 s' Hrun).
    rewrite (step_rows_length s e s1 E). f_equal.
    destruct e as [|b [j|]| |k|k o|c]; simpl;
      try (symmetry; apply row_clicks_other; discriminate).
    destruct (click_needs_enabled s b j s1 E) as (r & Hr & _).
    symmetry. apply row_clicks_click. eapply lookup_lt_Some, Hr.
Qed.

Lemma row_clicks_bound n es s s' :
  Inv s -> attached s = true -> run s es = Some s' ->
  row_clicks n es <= 2 * n.
Proof.
  intros HI Hat Hrun. induction n as [|n IH]; simpl; [lia|].
  pose proof (at_most_one_click record_fingerprint n es s s' HI Hat Hrun).
  pose proof (at_most_one_click verify_ekyc n es s s' HI Hat Hrun).
  lia.
Qed.

Lemma unattached_sends_nothing es : forall s s',
  attached s = false -> pending s = [] -> run s es = Some s' ->
  sent s' = sent s.
Proof.
  induction es as [|e es IH]; simpl; intros s s' Hat Hpend Hrun.
  - injection Hrun as <-. reflexivity.
  - destruct (step s e) as [s1|] eqn:E; [|discriminate].
    assert (H1 : attached s1 = false /\ pending s1 = [] /\ sent s1 = sent s).
    { apply step_turn in E as [_ E].
      destruct E as [Hb Ha|a i r Hr Hb Ha|k ms c Hk|k a i o Hk|c|e Hig];
        try congruence; try (rewrite Hpend in Hk; discriminate); auto. }
    destruct H1 as (Hat1 & Hpend1 & Hsent1).
    rewrite (IH s1 s' Hat1 Hpend1 Hrun). exact Hsent1.
Qed.

(** ** Requests row by row *)

Lemma delayed_on_app a i l1 l2 :
  delayed_on a i (l1 ++ l2) = delayed_on a i l1 + delayed_on a i l2.
Proof.
  induction l1 as [|t l1 IH]; simpl; [reflexivity|].
  destruct t as [ms [|b j pid role|]|b j]; simpl; rewrite IH; lia.
Qed.

Lemma delayed_on_delete a i l k t :
  l !! k = Some t ->
  delayed_on a i l = delayed_on a i [t] + delayed_on a i (delete k l).
Proof.
  revert k. induction l as [|x l IH]; intros [|k] Hk; simpl in *;
    try discriminate.
  - injection Hk as ->.
    destruct t as [ms [|b j pid role|]|b j]; simpl; lia.
  - rewrite (IH k Hk).
    destruct x as [ms [|b j pid role|]|b j],
             t as [ms' [|b' j' pid' role'|]|b' j']; simpl; lia.
Qed.

Lemma sent_by_same a i s e s' :
  length (sent s') = length (sent s) -> sent_by a i s e s' = 0.
Proof.
  intros H. unfold sent_by. rewrite H, Nat.sub_diag.
  destruct (handler_of s e) as [[b j]|]; [|reflexivity].
  destruct (action_eqb a b && Nat.eqb i j); reflexivity.
Qed.

(** Turn by turn: a request for action [a] on row [i] is paid for by a
    delay of that action on that row, and such a delay by a click on the
    button. *)
Lemma step_requests_for a i s e s' :
  step s e = Some s' ->
  sent_by a i s e s' + delayed_on a i (pending s') <=
  clicks_on a i [e] + delayed_on a i (pending s).
Proof.
  intros H. pose proof H as H0. apply step_turn in H as [_ H].
  destruct H as [Hb Ha|b j r Hr Hb Ha|k ms c Hk|k b j o Hk|c|e Hig].
  - rewrite sent_by_same by reflexivity. simpl.
    rewrite delayed_on_app. simpl. lia.
  - rewrite sent_by_same by reflexivity. simpl.
    rewrite delayed_on_app. simpl. lia.
  - rewrite (delayed_on_delete a i _ k _ Hk).
    destruct c as [|b j pid role|]; simpl.
    + rewrite sent_by_same by reflexivity. unfold test_timeout. simpl. lia.
    + unfold sent_by. simpl. rewrite Hk. simpl.
      rewrite length_app, delayed_on_app. simpl.
      destruct (action_eqb a b && Nat.eqb i j); simpl; lia.
    + rewrite sent_by_same by reflexivity. lia.
  - destruct (action_response_sent b j o
                (with_pending (delete k (pending s)) s)) as [Hsent _].
    rewrite sent_by_same by (rewrite Hsent; reflexivity).
    destruct (action_response_shape b j o
                (with_pending (delete k (pending s)) s))
      as (f & extra & _ & -> & Hextra).
    rewrite delayed_on_app, (delayed_on_delete a i _ k _ Hk). simpl.
    destruct Hextra; subst; simpl; lia.
  - rewrite sent_by_same by reflexivity. simpl. lia.
  - rewrite sent_by_same by reflexivity. lia.
Qed.

Lemma run_requests_for a i es : forall s s',
  run s es = Some s' ->
  requests_for a i s es + delayed_on a i (pending s') <=
  clicks_on a i es + delayed_on a i (pending s).
Proof.
  induction es as [|e es IH]; intros s s' H.
  - simpl in H. injection H as <-. simpl. lia.
  - simpl in H. simpl requests_for.
    destruct (step s e) as [s1|] eqn:E; [|discriminate].
    pose proof (step_requests_for a i s e s1 E) as H1.
    specialize (IH s1 s' H). rewrite clicks_on_cons. lia.
Qed.

Lemma unattached_requests_for a i es : forall s s',
  attached s = false -> pending s = [] -> run s es = Some s' ->
  requests_for a i s es = 0.
Proof.
  induction es as [|e es IH]; simpl; intros s s' Hat Hpend Hrun;
    [reflexivity|].
  destruct (step s e) as [s1|] eqn:E; [|discriminate].
  assert (H1 : attached s1 = false /\ pending s1 = [] /\ sent s1 = sent s).
  { apply step_turn in E as [_ E].
    destruct E as [Hb Ha|b j r Hr Hb Ha|k ms c Hk|k b j o Hk|c|e Hig];
      try congruence; try (rewrite Hpend in Hk; discriminate); auto. }
  destruct H1 as (Hat1 & Hpend1 & Hsent1).
  rewrite (IH s1 s' Hat1 Hpend1 Hrun).
  rewrite sent_by_same by (rewrite Hsent1; reflexivity). reflexivity.
Qed.

Lemma row_sent_same n s e s' :
  length (sent s') = length (sent s) -> row_sent n s e s' = 0.
Proof.
  intros H. induction n as [|n IH]; simpl; [reflexivity|].
  rewrite !(sent_by_same _ _ s e s' H), IH. reflexivity.
Qed.

Lemma row_sent_one n s e s' b j :
  handler_of s e = Some (b, j) -> j < n ->
  length (sent s') = length (sent s) + 1 ->
  row_sent n s e s' = 1.
Proof.
  intros Hh Hlt Hlen.
  rewrite <- (row_clicks_click n b j Hlt).
  clear Hlt. induction n as [|n IH]; simpl; [reflexivity|].
  rewrite IH. unfold sent_by. rewrite Hh, Hlen.
  replace (length (sent s) + 1 - length (sent s)) with 1 by lia.
  destruct (Nat.eqb n j); simpl; rewrite ?andb_false_r, ?andb_true_r;
    destruct b; simpl; lia.
Qed.

Lemma row_requests_cons n s e es s1 :
  step s e = Some s1 ->
  row_requests n s (e :: es) = row_sent n s e s1 + row_requests n s1 es.
Proof.
  intros E. induction n as [|n IH]; [reflexivity|].
  cbn [row_requests row_sent requests_for]. rewrite E, IH. lia.
Qed.

(** Every request of a turn belongs to the action of one row. *)
Lemma step_row_sent s e s' :
  in_range s -> step s e = Some s' ->
  length (sent s') =
  length (sent s) + row_sent (length (rows (page s))) s e s'.
Proof.
  intros HR H. pose proof H as H0. apply step_turn in H as [_ H].
  destruct H as [Hb Ha|b j r Hr Hb Ha|k ms c Hk|k b j o Hk|c|e Hig];
    try (rewrite row_sent_same by reflexivity; simpl; lia).
  - destruct c as [|b j pid role|];
      try (rewrite row_sent_same by reflexivity; simpl; lia).
    rewrite (row_sent_one _ s _ _ b j).
    + simpl. rewrite length_app. reflexivity.
    + simpl. rewrite Hk. reflexivity.
    + eapply (HR (Timer ms (AfterDelay b j pid role)) b j);
        [eapply list_elem_of_lookup_2, Hk|reflexivity].
    + simpl. rewrite length_app. reflexivity.
  - destruct (action_response_sent b j o
                (with_pending (delete k (pending s)) s)) as [Hsent _].
    rewrite row_sent_same by (rewrite Hsent; reflexivity).
    rewrite Hsent. simpl. lia.
Qed.

Lemma run_row_requests es : forall s s',
  in_range s -> run s es = Some s' ->
  length (sent s') =
  length (sent s) + row_requests (length (rows (page s))) s es.
Proof.
  induction es as [|e es IH]; intros s s' HR Hrun.
  - simpl in Hrun. injection Hrun as <-.
    induction (length (rows (page s))) as [|n IHn]; simpl; lia.
  - simpl in Hrun. destruct (step s e) as [s1|] eqn:E; [|discriminate].
    rewrite (row_requests_cons _ s e es s1 E).
    rewrite (IH s1 s' (step_in_range s e s1 HR E) Hrun).
    rewrite (step_row_sent s e s1 HR E), (step_rows_length s e s1 E). lia.
Qed.

(** What a page sends.  Over any run of the widget, every request is a
    POST to the endpoint fixed at initialization, with the two headers
    [X-Requested-With] and [X-CSRFToken] and as body the three form
    fields [action] ("record_fingerprint" or "verify_ekyc"),
    [participant_id] and [participant_role].  For each row and each of
    the two actions the turns of that action on that row send at most
    one request, and every request sent is one of these: so there are
    never more than two requests for each row of the table, one record
    and one verify. *)
Theorem requests_of_a_page (p : Page) (es : list event) (s : State) :
  run (init p) es = Some s ->
  Forall (request_ok (endpoint (init p))) (sent s) /\
  (forall a i, requests_for a i (init p) es <= 1) /\
  length (sent s) = row_requests (length (rows p)) (init p) es /\
  length (sent s) <= 2 * length (rows p).
Proof.
  intros Hrun.
  assert (Hone : forall a i, requests_for a i (init p) es <= 1).
  { intros a i. destruct (attached (init p)) eqn:Hat.
    - pose proof (run_requests_for a i es (init p) s Hrun) as H1.
      pose proof (at_most_one_click a i es (init p) s (init_Inv p) Hat Hrun).
      simpl in H1. lia.
    - rewrite (unattached_requests_for a i es (init p) s Hat eq_refl Hrun).
      lia. }
  assert (Hsum : length (sent s)
                 = row_requests (length (rows p)) (init p) es).
  { rewrite (run_row_requests es (init p) s); [reflexivity| |exact Hrun].
    intros t a i Hin. inversion Hin. }
  split; [apply reachable_requests_ok; exists es; exact Hrun|].
  split; [exact Hone|]. split; [exact Hsum|].
  rewrite Hsum. clear Hsum.
  induction (length (rows p)) as [|n IH]; simpl; [lia|].
  pose proof (Hone record_fingerprint n).
  pose proof (Hone verify_ekyc n). lia.
Qed.

Lemma requests_of_a_page_witness :
  Forall (request_ok (Some "/tms/ekyc/7/"))
         (sent (state_after page0 full_run)) /\
  requests_for record_fingerprint 0 (init page0) full_run <= 1 /\
  requests_for record_fingerprint 0 (init page0) full_run = 1 /\
  requests_for verify_ekyc 1 (init page0) full_run = 0 /\
  length (sent (state_after page0 full_run)) = 2.
Proof.
  destruct (requests_of_a_page page0 full_run (state_after page0 full_run))
    as (Hok & Hone & Hsum & _).
  - vm_compute. reflexivity.
  - split; [exact Hok|]. split; [apply Hone|].
    split; [vm_compute; reflexivity|]. split; [vm_compute; reflexivity|].
    rewrite Hsum. vm_compute. reflexivity.
Defined.

(** ** More on [getCookie] *)

Lemma until_semi_no_semi s :
  string_forallb (fun c => negb (Ascii.eqb c semi)) (until_semi s) = true.
Proof.
  induction s as [|c s IH]; simpl; [reflexivity|].
  destruct (Ascii.eqb c semi) eqn:E; simpl; [reflexivity|].
  rewrite E, IH. reflexivity.
Qed.

Lemma last_ws_is_ws s c : last_ws s = Some c -> is_ws c = true.
Proof.
  revert c. induction s as [|a s IH]; simpl; intros c; [discriminate|].
  destruct (is_ws a) eqn:E; [|discriminate].
  destruct (last_ws s) as [d|].
  - intros [= <-]. apply IH. reflexivity.
  - intros [= <-]. exact E.
Qed.

Lemma ws_not_semi c : is_ws c = true -> Ascii.eqb c semi = false.
Proof.
  destruct (Ascii.eqb c semi) eqn:E; [|reflexivity].
  apply Ascii.eqb_eq in E. subst c. discriminate.
Qed.

Lemma cookie_value_shape s v :
  cookie_value s = Some v ->
  v <> "" /\ string_forallb (fun c => negb (Ascii.eqb c semi)) v = true.
Proof.
  unfold cookie_value.
  pose proof (until_semi_no_semi (skip_ws s)) as Hno.
  destruct (until_semi (skip_ws s)) as [|c u].
  - destruct (last_ws s) as [d|] eqn:E; [|discriminate].
    intros [= <-]. split; [discriminate|]. simpl.
    rewrite (ws_not_semi d (last_ws_is_ws s d E)). reflexivity.
  - intros [= <-]. split; [discriminate|exact Hno].
Qed.

Lemma match_tail_shape name s v :
  match_tail name s = Some v ->
  v <> "" /\ string_forallb (fun c => negb (Ascii.eqb c semi)) v = true.
Proof.
  unfold match_tail.
  destruct (strip_prefix name (skip_ws s)) as [s1|]; [|discriminate].
  destruct (skip_ws s1) as [|c s2]; [discriminate|].
  destruct (Ascii.eqb c equals); [|discriminate].
  apply cookie_value_shape.
Qed.

Lemma cookie_match_shape name s v :
  cookie_match name s = Some v ->
  v <> "" /\ string_forallb (fun c => negb (Ascii.eqb c semi)) v = true.
Proof.
  unfold cookie_match.
  destruct (match_tail name s) as [u|] eqn:E.
  - intros [= <-]. exact (match_tail_shape name s u E).
  - clear E. induction s as [|c s IH]; simpl; [discriminate|].
    destruct (Ascii.eqb c semi); [|exact IH].
    destruct (match_tail name s) as [u|] eqn:E; [|exact IH].
    intros [= <-]. exact (match_tail_shape name s u E).
Qed.

(** Whatever [document.cookie] holds, the token that [getCookie] returns
    has no [;] in it, and it is the empty string exactly when the
    regular expression finds no match: a match always captures at least
    one character. *)
Theorem getCookie_token_shape (name cookie : string) :
  string_forallb (fun c => negb (Ascii.eqb c semi)) (getCookie name cookie)
    = true /\
  (getCookie name cookie = "" <-> cookie_match name cookie = None).
Proof.
  unfold getCookie.
  destruct (cookie_match name cookie) as [v|] eqn:E.
  - destruct (cookie_match_shape name cookie v E) as [Hne Hno].
    split; [exact Hno|]. split; [contradiction|discriminate].
  - split; [reflexivity|]. split; reflexivity.
Qed.

(** [cookie_match] on a store whose names may repeat: the first cookie
    of that name with a value. *)
Lemma cookie_match_first name (j : jar) :
  is_name name = true -> wf_cookies j ->
  cookie_match name (serialize j) = first_nonempty name j.
Proof.
  intros Hname Hwf. induction j as [|[n v] j IH].
  - apply cookie_match_empty.
  - inversion Hwf as [|? ? [Hn Hv] Hwf']; subst. simpl in Hn, Hv.
    specialize (IH Hwf').
    destruct (serialize_cons n v j) as (rest & -> & Hclose & Hrest).
    unfold cookie_match at 1.
    rewrite (match_semis_entry name n v rest Hn Hv), Hrest.
    simpl first_nonempty. destruct (String.eqb name n) eqn:E.
    + apply String.eqb_eq in E. subst n.
      rewrite (match_tail_same name _ Hname).
      destruct v as [|c v].
      * change ("" +:+ rest) with rest.
        rewrite (cookie_value_closed rest Hclose). simpl.
        destruct j; [reflexivity|exact IH].
      * rewrite (cookie_value_value c v rest Hv Hclose). reflexivity.
    + rewrite match_tail_other; [|assumption|assumption|].
      * simpl. destruct j; [reflexivity|exact IH].
      * intros ->. rewrite String.eqb_refl in E. discriminate.
Qed.

(** When the browser holds several cookies of the same name,
    [getCookie] returns the value of the first one in [document.cookie]
    whose value is not empty: a cookie with an empty value is passed
    over, and a later cookie of that name is used in its place. *)
Theorem getCookie_first_nonempty (name : string) (j : jar) :
  is_name name = true -> wf_cookies j ->
  getCookie name (serialize j) =
  match first_nonempty name j with
  | Some v => v
  | None => ""
  end.
Proof.
  intros Hname Hwf. unfold getCookie.
  rewrite (cookie_match_first name j Hname Hwf). reflexivity.
Qed.

Lemma getCookie_first_nonempty_witness :
  getCookie "csrftoken"
    (serialize [("csrftoken", ""); ("sessionid", "abc");
                ("csrftoken", "tok123"); ("csrftoken", "late")])
  = "tok123".
Proof.
  rewrite (getCookie_first_nonempty "csrftoken"
             [("csrftoken", ""); ("sessionid", "abc");
              ("csrftoken", "tok123"); ("csrftoken", "late")]).
  - reflexivity.
  - reflexivity.
  - repeat constructor.
Defined.

Lemma skip_ws_blank w s : is_blank w = true -> skip_ws (w +:+ s) = skip_ws s.
Proof.
  unfold is_blank. induction w as [|c w IH]; [reflexivity|].
  intros H. simpl in H. apply andb_true_iff in H as [Hc Hw].
  change (skip_ws (String c (w +:+ s)) = skip_ws s).
  simpl. rewrite Hc. exact (IH Hw).
Qed.

(** The regular expression allows white space before the name, between
    the name and the [=], and before the value: a cookie written with
    such white space yields the same token as one written without. *)
Theorem getCookie_skips_spaces (name w1 w2 w3 : string) (c : ascii)
    (v rest : string) :
  is_name name = true -> name <> "" ->
  is_blank w1 = true -> is_blank w2 = true -> is_blank w3 = true ->
  is_value (String c v) = true -> closes rest ->
  getCookie name
    (w1 +:+ name +:+ w2 +:+ String equals (w3 +:+ String c v +:+ rest))
  = String c v.
Proof.
  intros Hname Hne H1 H2 H3 Hv Hrest.
  unfold getCookie, cookie_match, match_tail.
  rewrite (skip_ws_blank w1 _ H1).
  destruct name as [|a n]; [congruence|].
  assert (Ha : is_ws a = false).
  { simpl in Hname. apply andb_true_iff in Hname as [Ha _].
    apply name_char_spec in Ha as (Ha & _). exact Ha. }
  rewrite append_cons, (skip_ws_not_ws a _ Ha), <- append_cons.
  rewrite strip_prefix_app, (skip_ws_blank w2 _ H2). simpl.
  unfold cookie_value. rewrite (skip_ws_blank w3 _ H3).
  unfold is_value in Hv. apply andb_true_iff in Hv as [Hsemi Hws].
  apply negb_true_iff in Hws.
  rewrite append_cons, (skip_ws_not_ws c _ Hws), <- append_cons.
  rewrite (until_semi_value _ rest Hsemi Hrest). reflexivity.
Qed.

Lemma getCookie_skips_spaces_witness :
  getCookie "csrftoken" "  csrftoken = tok123; sessionid=abc" = "tok123".
Proof.
  apply (getCookie_skips_spaces "csrftoken" "  " " " " " "t" "ok123"
           "; sessionid=abc").
  - reflexivity.
  - discriminate.
  - reflexivity.
  - reflexivity.
  - reflexivity.
  - reflexivity.
  - right. eexists. reflexivity.
Defined.

(** ** How the scan reads a label *)

Lemma lower_char_idem c : lower_char (lower_char c) = lower_char c.
Proof.
  destruct c as [[] [] [] [] [] [] [] []]; reflexivity.
Qed.

Lemma toLowerCase_idem s : toLowerCase (toLowerCase s) = toLowerCase s.
Proof.
  induction s as [|c s IH]; simpl; [reflexivity|].
  rewrite lower_char_idem, IH. reflexivity.
Qed.

(** The scan compares labels without regard to letter case and to
    white space around them: two rows whose status labels differ only in
    the case of their letters and in leading or trailing white space get
    the same answer from the scan. *)
Theorem scan_ignores_case_and_padding (r r' : Row) (t t' w1 w2 : string) :
  ekyc_status r = Some t ->
  ekyc_status r' = Some (w1 +:+ t' +:+ w2) ->
  toLowerCase t' = toLowerCase t ->
  is_blank w1 = true -> is_blank w2 = true ->
  reads_verified r' = reads_verified r.
Proof.
  intros Hr Hr' Hcase H1 H2. unfold reads_verified. rewrite Hr, Hr'.
  rewrite (trim_padded w1 t' w2 H1 H2).
  rewrite (toLowerCase_trim t'), Hcase, <- (toLowerCase_trim t).
  reflexivity.
Qed.

Lemma scan_ignores_case_and_padding_witness :
  reads_verified
    (mkRow (Some "43") (Some "trainer") (Some "  VERIFIED ") (Some "")
           (Some true) (Some true))
  = Some true.
Proof.
  rewrite (scan_ignores_case_and_padding row43 _ "Verified" "VERIFIED"
             "  " " ").
  - reflexivity.
  - reflexivity.
  - reflexivity.
  - reflexivity.
  - reflexivity.
  - reflexivity.
Defined.

(** ** Which responses count as a success *)

(** [data && data.success] is truthy only for a JSON object with a
    truthy [success] property: a body that parses to [null], a boolean,
    a number, a string or an array is a failure, and so is an object
    without [success]. *)
Theorem only_objects_succeed (data : jsval) :
  succeeded data = true <->
  exists l v, data = JObj l /\ assoc "success" l = Some v /\ truthy v = true.
Proof.
  unfold succeeded, js_and. split.
  - destruct data as [| |b|n|s|arr|l]; simpl. 
    all: try discriminate.
    + destruct b; discriminate.
    + destruct (negb (Z.eqb (int_val n) 0)) eqn:E; simpl;
        [discriminate|rewrite E; discriminate].
    + destruct (negb (String.eqb s "")) eqn:E; simpl;
        [discriminate|rewrite E; discriminate].
    + destruct (assoc "success" l) as [v|] eqn:E; [|discriminate].
      intros H. exists l, v. auto.
  - intros (l & v & -> & E & Hv). simpl. rewrite E. exact Hv.
Qed.

(** ** A row while its action is pending *)

Lemma click_row_caption a r :
  actionStatus (click_row a r) = assign (progress_caption a) (actionStatus r).
Proof. destruct a; reflexivity. Qed.

Lemma step_captions_ok s e s' :
  Inv s -> captions_ok s -> step s e = Some s' -> captions_ok s'.
Proof.
  intros HI HC H. apply step_turn in H as [_ H].
  destruct H as [Hb Ha|a j r Hr Hb Ha|k ms c Hk|k a j o Hk|c|e Hig];
    try exact HC.
  - intros i r t a Hr Hin Ht. simpl in Hin.
    apply elem_of_app in Hin as [Hin|Hin]; [exact (HC i r t a Hr Hin Ht)|].
    apply list_elem_of_singleton in Hin. subst t. discriminate.
  - intros i r' t a' Hr' Hin Ht. unfold action_click in Hr', Hin.
    simpl in Hr', Hin. rewrite list_lookup_alter in Hr'.
    case_decide as Hji.
    + subst i. rewrite Hr in Hr'. injection Hr' as <-.
      pose proof (clickable_idle s j r a HI Hr Hb) as H0.
      apply elem_of_app in Hin as [Hin|Hin].
      * pose proof (inflight_pos j _ t Hin (concerns_action t a' j Ht)). lia.
      * apply list_elem_of_singleton in Hin. subst t.
        injection Ht as <-. rewrite click_row_caption, assign_assign.
        reflexivity.
    + apply elem_of_app in Hin as [Hin|Hin];
        [exact (HC i r' t a' Hr' Hin Ht)|].
      apply list_elem_of_singleton in Hin. subst t.
      injection Ht as _ <-. congruence.
  - intros i r t a Hr Hin Ht. rewrite run_cont_rows in Hr. simpl in Hr.
    assert (Hold : forall t', t' ∈ delete k (pending s) ->
                              task_action t' = Some (a, i) ->
                              actionStatus r
                              = assign (progress_caption a) (actionStatus r)).
    { intros t' Hin' Ht'. apply (HC i r t' a Hr); [|exact Ht'].
      eapply list_elem_of_delete_inv, Hin'. }
    destruct c as [|a' j pid role|]; simpl in Hin.
    + unfold test_timeout in Hin. simpl in Hin. exact (Hold t Hin Ht).
    + apply elem_of_app in Hin as [Hin|Hin]; [exact (Hold t Hin Ht)|].
      apply list_elem_of_singleton in Hin. subst t.
      apply (HC i r (Timer ms (AfterDelay a' j pid role)) a Hr);
        [eapply list_elem_of_lookup_2, Hk|exact Ht].
    + exact (Hold t Hin Ht).
  - intros i r t a' Hr Hin Ht.
    destruct (action_response_shape a j o
                (with_pending (delete k (pending s)) s))
      as (f & extra & _ & Hpend & Hextra).
    rewrite Hpend in Hin. simpl in Hin.
    apply elem_of_app in Hin as [Hin|Hin].
    + destruct (decide (j = i)) as [->|Hne].
      * exfalso.
        pose proof (Inv_action_response s k a i o HI Hk i r Hr) as [Hn _].
        rewrite Hpend in Hn. simpl in Hn. rewrite inflight_app in Hn.
        assert (Hlt : i < length (rows (page s))).
        { rewrite <- (length_alter f (rows (page s)) i).
          destruct (action_response_shape a i o
                      (with_pending (delete k (pending s)) s))
            as (f' & extra' & Hrows' & _).
          rewrite Hrows' in Hr. simpl in Hr.
          apply lookup_lt_Some in Hr. rewrite length_alter in Hr.
          rewrite length_alter. exact Hr. }
        destruct (lookup_lt_is_Some_2 _ _ Hlt) as [r0 Hr0].
        destruct (HI i r0 Hr0) as [Hn0 _].
        rewrite (inflight_delete i _ k _ Hk) in Hn0.
        unfold concerns in Hn0. simpl in Hn0. rewrite Nat.eqb_refl in Hn0.
        pose proof (inflight_pos i _ t Hin (concerns_action t a' i Ht)). lia.
      * rewrite (response_rows_other a j o _ i Hne) in Hr.
        apply (HC i r t a' Hr); [|exact Ht].
        eapply list_elem_of_delete_inv, Hin.
    + destruct Hextra; subst; [inversion Hin|].
      apply list_elem_of_singleton in Hin. subst t. discriminate.
Qed.

Lemma reachable_captions_ok p s : reachable p s -> captions_ok s.
Proof.
  intros Hreach.
  assert (H : Inv s /\ captions_ok s).
  { revert s Hreach.
    apply (reachable_ind (fun s => Inv s /\ captions_ok s)).
    - split; [apply init_Inv|]. intros i r t a _ Hin. inversion Hin.
    - intros s0 e s1 [HI HC] Hstep. split.
      + exact (step_Inv s0 e s1 HI Hstep).
      + exact (step_captions_ok s0 e s1 HI HC Hstep). }
  exact (proj2 H).
Qed.

(** While an action is pending on a row, from the click until the
    response, the row shows the caption of that action (" Recording..."
    or " Verifying...") and a click is accepted on neither of its
    buttons: a verify cannot be started during a record, nor a record
    during a verify. *)
Theorem row_while_pending (p : Page) (s : State) (t : task) (a : action)
    (i : nat) (r : Row) :
  reachable p s ->
  t ∈ pending s -> task_action t = Some (a, i) ->
  rows (page s) !! i = Some r ->
  actionStatus r = assign (progress_caption a) (actionStatus r) /\
  (forall b, step s (Click b (Some i)) = None).
Proof.
  intros Hreach Hin Ht Hr. split.
  - exact (reachable_captions_ok p s Hreach i r t a Hr Hin Ht).
  - intros b.
    destruct (reachable_Inv p s Hreach i r Hr) as [_ Hq].
    destruct (Hq t a Hin Ht) as [_ Hquiet].
    pose proof (quiet_button b r Hquiet) as Hb.
    unfold step. destruct (reloaded s); [reflexivity|].
    rewrite Hr. destruct (button b r) as [[]|]; try reflexivity. congruence.
Qed.

Lemma row_while_pending_witness :
  actionStatus (mkRow (Some "42") (Some "trainee") (Some "Pending")
                      (Some " Recording...") (Some true) (Some true))
    = Some " Recording..." /\
  (forall b, step recording (Click b (Some 0)) = None).
Proof.
  apply (row_while_pending page0 recording
           (Fetching record_fingerprint 0) record_fingerprint 0).
  - exact reachable_recording.
  - left.
  - reflexivity.
  - reflexivity.
Defined.

(** ** When a status label changes *)

Lemma click_row_label a r : ekyc_status (click_row a r) = ekyc_status r.
Proof. destruct a; reflexivity. Qed.

Lemma response_label a i o s j r r' :
  rows (page s) !! j = Some r ->
  rows (page (action_response a i o s)) !! j = Some r' ->
  ekyc_status r' = ekyc_status r \/
  (j = i /\ exists data, o = Parsed data /\ succeeded data = true).
Proof.
  intros Hr. destruct (decide (i = j)) as [->|Hne].
  2: { rewrite (response_rows_other a i o s j Hne), Hr.
       intros [= <-]. auto. }
  destruct a; simpl.
  - rewrite list_lookup_alter_eq, Hr. intros [= <-].
    destruct o as [|data]; simpl; [auto|]. unfold record_try.
    destruct (succeeded data) eqn:E; [right; eauto|].
    left. apply failure_row_buttons.
  - unfold verify_response.
    destruct o as [|data]; [|destruct (succeeded data) eqn:E]; simpl.
    + rewrite list_lookup_alter_eq, Hr. intros [= <-]. auto.
    + intros _. right. split; [reflexivity|]. exists data. auto.
    + rewrite list_lookup_alter_eq, Hr. intros [= <-].
      left. apply failure_row_buttons.
Qed.

(** The status label of a row is written by the success branches only:
    a turn of the event loop that changes the label of row [i] is the
    arrival of a response with a truthy [success] to an action of that
    row.  Clicks, timers, failed responses and the responses of other
    rows leave it as it is. *)
Theorem label_changes_only_on_success (s : State) (e : event) (s' : State)
    (i : nat) (r r' : Row) :
  step s e = Some s' ->
  rows (page s) !! i = Some r -> rows (page s') !! i = Some r' ->
  ekyc_status r' <> ekyc_status r ->
  exists a, succeeds a i s e.
Proof.
  intros H Hr Hr' Hne. apply step_turn in H as [_ H].
  destruct H as [Hb Ha|a j r0 Hr0 Hb Ha|k ms c Hk|k a j o Hk|c|e Hig];
    try (simpl in Hr'; rewrite Hr in Hr'; injection Hr' as <-; congruence).
  - exfalso. unfold action_click in Hr'. simpl in Hr'.
    rewrite list_lookup_alter in Hr'. case_decide; subst.
    + rewrite Hr in Hr'. injection Hr' as <-.
      apply Hne, click_row_label.
    + rewrite Hr in Hr'. injection Hr' as <-. congruence.
  - exfalso. rewrite run_cont_rows in Hr'. simpl in Hr'.
    rewrite Hr in Hr'. injection Hr' as <-. congruence.
  - destruct (response_label a j o
                (with_pending (delete k (pending s)) s) i r r' Hr Hr')
      as [Heq|[-> (data & -> & Hs)]]; [congruence|].
    exists a, k, data. auto.
Qed.

Lemma label_changes_only_on_success_witness :
  exists a, succeeds a 0 recording (Response 0 (Parsed recorded_ok)).
Proof.
  apply (label_changes_only_on_success recording
           (Response 0 (Parsed recorded_ok))
           (state_after page0 (take 5 full_run)) 0
           (mkRow (Some "42") (Some "trainee") (Some "Pending")
                  (Some " Recording...") (Some true) (Some true))
           (mkRow (Some "42") (Some "trainee") (Some "Recorded")
                  (Some " Fingerprint recorded") (Some true) (Some false))).
  - vm_compute. reflexivity.
  - reflexivity.
  - vm_compute. reflexivity.
  - simpl. discriminate.
Defined.

(** ** The done message *)

Lemma elem_of_delete_other (l : list task) k t x :
  x ∈ l -> l !! k = Some t -> x <> t -> x ∈ delete k l.
Proof.
  revert k. induction l as [|y l IH]; intros k Hin Hk Hne.
  - inversion Hin.
  - destruct k as [|k]; simpl in *.
    + injection Hk as ->. apply elem_of_cons in Hin as [->|Hin];
        [congruence|exact Hin].
    + apply elem_of_cons in Hin as [->|Hin]; [left|].
      right. exact (IH k Hin Hk Hne).
Qed.

Lemma done_view_response a i o s :
  doneMsg (page (action_response a i o s)) = doneMsg (page s) \/
  (doneMsg (page (action_response a i o s)) = assign "block" (doneMsg (page s))
   /\ pending (action_response a i o s) = pending s ++ [Timer 900 Reload]).
Proof.
  destruct (action_response_form a i o s) as [f [-> | ->]]; simpl; auto.
Qed.

Lemma step_done_message p s e s' :
  doneMsg (page s) = doneMsg p \/
    (doneMsg (page s) = assign "block" (doneMsg p) /\ reloading s) ->
  step s e = Some s' ->
  doneMsg (page s') = doneMsg p \/
    (doneMsg (page s') = assign "block" (doneMsg p) /\ reloading s').
Proof.
  intros Hd H. apply step_turn in H as [Hrl H].
  assert (Hre : forall s1,
             (forall ms, Timer ms Reload ∈ pending s ->
                         reloaded s1 = true \/ Timer ms Reload ∈ pending s1) ->
             reloading s -> reloading s1).
  { intros s1 Hkeep [Hr|[ms Hin]]; [congruence|].
    destruct (Hkeep ms Hin) as [Hr|Hin1]; [left; exact Hr|].
    right. exists ms. exact Hin1. }
  destruct H as [Hb Ha|a j r Hr Hb Ha|k ms c Hk|k a j o Hk|c|e Hig];
    try exact Hd.
  - destruct Hd as [Hd|[Hd Hrel]]; [left; exact Hd|right].
    split; [exact Hd|]. apply Hre; [|exact Hrel].
    intros ms Hin. right. simpl. apply elem_of_app. left. exact Hin.
  - destruct Hd as [Hd|[Hd Hrel]]; [left; exact Hd|right].
    split; [exact Hd|]. apply Hre; [|exact Hrel].
    intros ms Hin. right. simpl. apply elem_of_app. left. exact Hin.
  - assert (Hdm : doneMsg (page (run_cont c
                     (with_pending (delete k (pending s)) s)))
                  = doneMsg (page s)).
    { destruct c; simpl; try reflexivity. unfold test_timeout. simpl.
      destruct (first_enabled_record (rows (page s))); reflexivity. }
    rewrite Hdm.
    destruct Hd as [Hd|[Hd Hrel]]; [left; exact Hd|right].
    split; [exact Hd|].
    destruct c as [|a j pid role|].
    + apply Hre; [|exact Hrel].
      intros ms' Hin. right. unfold test_timeout. simpl.
      eapply elem_of_delete_other; [exact Hin|exact Hk|discriminate].
    + apply Hre; [|exact Hrel].
      intros ms' Hin. right. simpl. apply elem_of_app. left.
      eapply elem_of_delete_other; [exact Hin|exact Hk|discriminate].
    + left. reflexivity.
  - set (s0 := with_pending (delete k (pending s)) s).
    assert (Hkeep : forall ms, Timer ms Reload ∈ pending s ->
                               Timer ms Reload ∈ pending (action_response a j o s0)).
    { intros ms Hin.
      destruct (action_response_shape a j o s0) as (f & extra & _ & -> & _).
      apply elem_of_app. left. simpl.
      eapply elem_of_delete_other; [exact Hin|exact Hk|discriminate]. }
    destruct (done_view_response a j o s0) as [Hsame|[Hshow Hpend]].
    + rewrite Hsame. simpl.
      destruct Hd as [Hd|[Hd Hrel]]; [left; exact Hd|right].
      split; [exact Hd|]. apply Hre; [|exact Hrel].
      intros ms Hin. right. exact (Hkeep ms Hin).
    + right. split.
      * rewrite Hshow. simpl.
        destruct Hd as [->|[-> _]]; [reflexivity|apply assign_assign].
      * right. exists 900. rewrite Hpend. apply elem_of_app. right. left.
Qed.

(** A reload that is under way stays under way. *)
Lemma step_reloading_stays s e s' :
  step s e = Some s' -> reloading s -> reloading s'.
Proof.
  intros H Hrel. apply step_turn in H as [Hrl H].
  destruct Hrel as [Hr|[ms0 Hin]]; [congruence|].
  destruct H as [Hb Ha|a j r Hr Hb Ha|k ms c Hk|k a j o Hk|c|e Hig].
  - right. exists ms0. simpl. apply elem_of_app. left. exact Hin.
  - right. exists ms0. simpl. apply elem_of_app. left. exact Hin.
  - destruct c as [|a j pid role|].
    + right. exists ms0. unfold test_timeout. simpl.
      eapply elem_of_delete_other; [exact Hin|exact Hk|discriminate].
    + right. exists ms0. simpl. apply elem_of_app. left.
      eapply elem_of_delete_other; [exact Hin|exact Hk|discriminate].
    + left. reflexivity.
  - right. exists ms0.
    destruct (action_response_shape a j o
                (with_pending (delete k (pending s)) s))
      as (f & extra & _ & -> & _).
    apply elem_of_app. left. simpl.
    eapply elem_of_delete_other; [exact Hin|exact Hk|discriminate].
  - right. exists ms0. exact Hin.
  - right. exists ms0. exact Hin.
Qed.

(** The only value a handler writes to the done message is "block". *)
Lemma step_done_view s e s' :
  step s e = Some s' ->
  doneMsg (page s') = doneMsg (page s) \/
  doneMsg (page s') = assign "block" (doneMsg (page s)).
Proof.
  intros H. apply step_turn in H as [_ H].
  destruct H as [Hb Ha|a j r Hr Hb Ha|k ms c Hk|k a j o Hk|c|e Hig];
    try (left; reflexivity).
  - left. destruct c; simpl; try reflexivity. unfold test_timeout. simpl.
    destruct (first_enabled_record (rows (page s))); reflexivity.
  - destruct (done_view_response a j o
                (with_pending (delete k (pending s)) s)) as [Hs|[Hs _]];
      auto.
Qed.

Lemma run_done_view es : forall s s',
  run s es = Some s' ->
  (doneMsg (page s') = doneMsg (page s) \/
   doneMsg (page s') = assign "block" (doneMsg (page s))) /\
  (reloading s -> reloading s').
Proof.
  induction es as [|e es IH]; simpl; intros s s' H.
  - injection H as <-. auto.
  - destruct (step s e) as [s1|] eqn:E; [|discriminate].
    destruct (IH s1 s' H) as [Hview Hrel]. split.
    + destruct (step_done_view s e s1 E) as [H1|H1], Hview as [H2|H2];
        rewrite H2, H1, ?assign_assign; auto.
    + intros Hr. exact (Hrel (step_reloading_stays s e s1 E Hr)).
Qed.

Lemma reloading_due p s : reachable p s -> reloading s <-> reload_due s.
Proof.
  intros Hreach. unfold reloading, reload_due. split.
  - intros [Hr|[ms Hin]]; [left; exact Hr|right].
    pose proof (reachable_delay_ok p s Hreach) as HD.
    rewrite Forall_forall in HD. specialize (HD _ Hin). simpl in HD.
    subst ms. exact Hin.
  - intros [Hr|Hin]; [left; exact Hr|right; eauto].
Qed.

(** The done message is shown only together with the reload: in every
    reachable state the done-message element is as the page was served,
    or it is shown and the reload is due, its 900 ms timer pending or
    fired.  From any reachable state on, the done message keeps its
    value or is set to "block", so no handler hides it again, and a
    reload that is due stays due. *)
Theorem done_message_means_reload (p : Page) (s : State) :
  reachable p s ->
  (doneMsg (page s) = doneMsg p \/
   (doneMsg (page s) = assign "block" (doneMsg p) /\ reload_due s)) /\
  (forall es s',
      run s es = Some s' ->
      (doneMsg (page s') = doneMsg (page s) \/
       doneMsg (page s') = assign "block" (doneMsg (page s))) /\
      (reload_due s -> reload_due s')).
Proof.
  intros Hreach. split.
  - assert (H : doneMsg (page s) = doneMsg p \/
                (doneMsg (page s) = assign "block" (doneMsg p) /\
                 reloading s)).
    { revert s Hreach.
      apply (reachable_ind
               (fun s => doneMsg (page s) = doneMsg p \/
                         (doneMsg (page s) = assign "block" (doneMsg p) /\
                          reloading s))).
      - left. reflexivity.
      - intros s0 e s1. apply step_done_message. }
    destruct H as [H|[H Hrel]]; [left; exact H|right].
    split; [exact H|]. apply (reloading_due p s Hreach), Hrel.
  - intros es s' Hrun. destruct (run_done_view es s s' Hrun) as [Hview Hrel].
    split; [exact Hview|]. intros Hdue.
    apply (reloading_due p s' (reachable_run p s es s' Hreach Hrun)).
    apply Hrel, (reloading_due p s Hreach), Hdue.
Qed.

Lemma done_message_means_reload_witness :
  doneMsg (page (state_after page0 full_run)) = Some "block" /\
  Timer 900 Reload ∈ pending (state_after page0 full_run) /\
  doneMsg (page (state_after page0 (full_run ++ [ClickOther; TimerFires 0])))
    = Some "block" /\
  reloaded (state_after page0 (full_run ++ [ClickOther; TimerFires 0])) = true.
Proof.
  assert (Hreach : reachable page0 (state_after page0 full_run))
    by (exists full_run; vm_compute; reflexivity).
  destruct (done_message_means_reload page0 (state_after page0 full_run)
              Hreach) as [Hnow Hlater].
  assert (Hrun : run (state_after page0 full_run) [ClickOther; TimerFires 0]
                 = Some (state_after page0
                           (full_run ++ [ClickOther; TimerFires 0])))
    by (vm_compute; reflexivity).
  destruct (Hlater _ _ Hrun) as [Hview Hdue].
  destruct Hnow as [H|[Hshown [Hr|Hin]]].
  - vm_compute in H. discriminate.
  - vm_compute in Hr. discriminate.
  - split; [exact Hshown|]. split; [exact Hin|]. split.
    + destruct Hview as [Hv|Hv]; rewrite Hv, Hshown; reflexivity.
    + destruct (Hdue (or_intror Hin)) as [Hr|Hin']; [exact Hr|].
      vm_compute in Hin'. inversion Hin'.
Defined.

(** ** A label value without text *)

Lemma verify_update_throws data r t :
  ekyc_status r = Some t -> toString (label_of data "Verified") = None ->
  verify_update data r = (r, true).
Proof.
  intros Hl Hv. unfold verify_update.
  rewrite status_value_label, (write_label_throws _ r t Hl Hv). reflexivity.
Qed.

(** A successful response whose label value has no text is handled as
    an exception.  When the row has a status label and the value chosen
    for it ([status_display] if truthy, else [status] if truthy) cannot
    be converted to a string, the assignment to the label throws inside
    the [try]: the handler only sets the caption to " Error".  The
    status label and both buttons stay as they were, so the verify
    button is not enabled after a record action and the row has no
    button left to click; the done message is not shown and no reload is
    scheduled. *)
Theorem label_without_text_shows_error (p : Page) (s : State) (k : nat)
    (a : action) (i : nat) (data : jsval) (r : Row) (t : string) :
  reachable p s -> reloaded s = false ->
  pending s !! k = Some (Fetching a i) ->
  rows (page s) !! i = Some r ->
  succeeded data = true ->
  ekyc_status r = Some t ->
  toString (label_of data (match a with
                           | record_fingerprint => "Recorded"
                           | verify_ekyc => "Verified"
                           end)) = None ->
  exists s',
    step s (Response k (Parsed data)) = Some s' /\
    rows (page s') !! i = Some (set_actionStatus " Error" r) /\
    ~ enabled (recordBtn r) /\ ~ enabled (verifyBtn r) /\
    doneMsg (page s') = doneMsg (page s) /\
    pending s' = delete k (pending s).
Proof.
  intros Hreach Hrl Hk Hr Hs Hl Hv.
  destruct (fetching_buttons p s k _ i r Hreach Hk Hr) as [_ [Hq1 Hq2]].
  set (s0 := with_pending (delete k (pending s)) s).
  exists (action_response a i (Parsed data) s0).
  split; [apply (response_step s k (Parsed data) a i Hrl Hk)|].
  destruct a.
  - simpl. rewrite list_lookup_alter_eq, Hr. simpl.
    unfold record_try. rewrite Hs, status_value_label.
    rewrite (write_label_throws _ r t Hl Hv). auto.
  - unfold action_response.
    rewrite (verify_success_lookup i data s0 r Hs Hr).
    rewrite (verify_success_state i data s0 Hs).
    unfold verify_update_threw, verify_success_row.
    change (rows (page s0)) with (rows (page s)). rewrite Hr.
    rewrite (verify_update_throws data r t Hl Hv). simpl. auto.
Qed.

Lemma label_without_text_shows_error_witness :
  exists s',
    step recording (Response 0 (Parsed recorded_no_text)) = Some s' /\
    rows (page s') !! 0 =
      Some (mkRow (Some "42") (Some "trainee") (Some "Pending")
                  (Some " Error") (Some true) (Some true)) /\
    doneMsg (page s') = Some "none" /\
    pending s' = [].
Proof.
  destruct (label_without_text_shows_error page0 recording 0
              record_fingerprint 0 recorded_no_text
              (mkRow (Some "42") (Some "trainee") (Some "Pending")
                     (Some " Recording...") (Some true) (Some true))
              "Pending" reachable_recording eq_refl eq_refl eq_refl eq_refl
              eq_refl eq_refl)
    as (s' & H1 & H2 & _ & _ & H3 & H4).
  exists s'. auto.
Defined.
